(** * telescopes: the EC2 VM registry and the recommender's HTTP handler

    A shallow embedding of
    - [pkg/recommender]: [Ec2VmRegistry] with [findVmsWithCpuUnits],
      [getSpotPriceAvgsFromPrometheus], [getAvailableCpuUnits] and
      [getCurrentSpotPrices];
    - [internal/app/telescopes/api/routes.go]: [recommendClusterSetup].

    Go's [float64] is Rocq's primitive binary64 [float]; a Go [map] is a
    [gmap]; a slice is a [list].  A function that returns [(T, error)] returns
    an [Outcome T]; every call that leaves the process (product catalog, EC2,
    Prometheus, the engine, the HTTP response) is recorded, in program order,
    in the trace of the run. *)

From Stdlib Require Import String Ascii ZArith List.
From Stdlib Require Import PrimFloat Uint63.
From stdpp Require Import gmap strings list fin_maps.

Local Open Scope string_scope.
Local Open Scope list_scope.
Local Open Scope stdpp_scope.

(** ** Go results *)

(** A Go [error] value, seen through its message. *)
Definition error : Type := string.

(** What a collaborator hands back: [(value, nil)] or [(_, err)]. *)
Inductive Result (A : Type) : Type :=
| Ok (a : A)
| Err (err : error).
Arguments Ok {A} a.
Arguments Err {A} err.

(** How a Go function of this program ends: [return v, nil], [return nil, err],
    or a run-time panic (a failed type assertion, a nil receiver). *)
Inductive Outcome (A : Type) : Type :=
| Return (a : A)
| ReturnErr (err : error)
| Panic.
Arguments Return {A} a.
Arguments ReturnErr {A} err.
Arguments Panic {A}.

(** [*p]: reading through a nil pointer panics. *)
Definition deref {A} (p : option A) : Outcome A :=
  match p with
  | Some a => Return a
  | None => Panic
  end.

(** [x := f(); k x] for a computation that makes no call. *)
Definition obind {A B} (o : Outcome A) (k : A -> Outcome B) : Outcome B :=
  match o with
  | Return a => k a
  | ReturnErr err => ReturnErr err
  | Panic => Panic
  end.

(** ** Runs: an outcome together with the external calls made, in order *)

Section Effects.
Context {Ev : Type}.

Definition Run (A : Type) : Type := (list Ev * Outcome A)%type.

Definition trace {A} (r : Run A) : list Ev := fst r.
Definition outcome {A} (r : Run A) : Outcome A := snd r.

Definition ret {A} (a : A) : Run A := ([], Return a).
Definition throw {A} (err : error) : Run A := ([], ReturnErr err).
Definition panic {A} : Run A := ([], Panic).

(** [x, err := f(); if err != nil { return nil, err }; k x] *)
Definition bind {A B} (m : Run A) (k : A -> Run B) : Run B :=
  match m with
  | (t, Return a) => let '(t', o) := k a in (t ++ t', o)
  | (t, ReturnErr err) => (t, ReturnErr err)
  | (t, Panic) => (t, Panic)
  end.

(** A pure Go call that returns [(value, error)]. *)
Definition lift {A} (r : Result A) : Run A :=
  match r with
  | Ok a => ret a
  | Err err => throw err
  end.

(** A computation that makes no call, as a run. *)
Definition quiet {A} (o : Outcome A) : Run A := ([], o).

(** An external call leaves its event in the trace. *)
Definition tell (ev : Ev) : Run unit := ([ev], Return tt).

(** A call to a collaborator: the event is recorded, the answer is the
    collaborator's. *)
Definition call {A} (ev : Ev) (r : Result A) : Run A :=
  bind (tell ev) (fun _ => lift r).
End Effects.
Arguments Run Ev A : clear implicits.

Notation "x <- m ;; k" := (bind m (fun x => k))
  (at level 100, m at next level, right associativity).

(** ** Collaborators of the registry *)

(** The quotation mark that Go writes with a backslash escape. *)
Definition dq : string := String "034"%char EmptyString.

(** [context.Context]: the background context has no deadline. *)
Inductive Context : Type :=
| Background
| WithTimeout (d : Z).

Definition hasDeadline (ctx : Context) : bool :=
  match ctx with
  | Background => false
  | WithTimeout _ => true
  end.

(** Package [ec2_productinfo], imported as [pi]: the product catalog.  The
    numeric attributes are [float64], as the vCPU buckets are. *)
Module pi.
Record Ec2Vm : Type := {
  Type_ : string;
  OnDemandPrice : float;
  Cpus : float;
  Mem : float;
  Gpus : float
}.

(** [*pi.ProductInfo] through the two methods the registry calls, and the
    attribute key [pi.Cpu]. *)
Record ProductInfo : Type := {
  Cpu : string;
  GetVmsWithCpu : string -> string -> float -> Result (list Ec2Vm);
  GetAttrValues : string -> Result (list float)
}.
End pi.

(** The AWS SDK's [ec2] service, one client per region.  The SDK hands its
    strings out behind pointers ([*string]): a field is [Some] of the string
    pointed to, or [None] for a nil pointer.  The elements of the slices of
    an answer are the structs pointed to: the SDK allocates every element it
    decodes. *)
Module ec2.
Record AvailabilityZone : Type := {
  State : option string;
  ZoneName : option string
}.

Record DescribeSpotPriceHistoryInput : Type := {
  StartTime : option Z;
  EndTime : option Z;
  ProductDescriptions : list string;
  InstanceTypes : list string
}.

(** One record of the spot price history; the price is a decimal string. *)
Record SpotPrice : Type := {
  AvailabilityZone_ : option string;
  InstanceType : option string;
  SpotPrice_ : option string
}.

(** [*session.Session]: the two EC2 operations, by region. *)
Record Session : Type := {
  DescribeAvailabilityZones : string -> Result (list AvailabilityZone);
  DescribeSpotPriceHistory :
    string -> DescribeSpotPriceHistoryInput -> Result (list SpotPrice)
}.
End ec2.

(** Package [prometheus/common/model]: the value of an instant query. *)
Module model.
Record Sample : Type := {
  Metric : string;
  Value : float;
  Timestamp : Z
}.

(** A [model.Value] is a [model.Vector] or a value of another kind (scalar,
    matrix, string), kept by its rendering. *)
Inductive Value_ : Type :=
| Vector (r : list Sample)
| NonVector (rendering : string).
End model.

(** [v1.API]: [Query(ctx, query, ts)]. *)
Module v1.
Definition API : Type := Context -> string -> Z -> Result model.Value_.
End v1.

(** ** Package [recommender] *)

Record VirtualMachine : Type := {
  Type_ : string;
  OnDemandPrice : float;
  AvgPrice : float;
  Cpus : float;
  Mem : float;
  Gpus : float
}.

(** The registry with its session and its catalog in place:
    [NewEc2VmRegistry] sets the session, the catalog is the caller's.  The
    metrics backend is [None] for a nil [v1.API]. *)
Record Ec2VmRegistry : Type := {
  session : ec2.Session;
  productInfo : pi.ProductInfo;
  prometheus : option v1.API
}.

(** The calls that leave the registry. *)
Inductive Event : Type :=
| EvGetVmsWithCpu (region attr : string) (cpu : float)
| EvGetAttrValues (attr : string)
| EvDescribeAvailabilityZones (region : string)
| EvPromQuery (ctx : Context) (query : string) (ts : Z)
| EvDescribeSpotPriceHistory (region : string)
    (input : ec2.DescribeSpotPriceHistoryInput).

(** The two pricing strategies, as seen in a trace. *)
Definition isPricingEvent (ev : Event) : bool :=
  match ev with
  | EvPromQuery _ _ _ => true
  | EvDescribeSpotPriceHistory _ _ => true
  | _ => false
  end.

(** [fmt.Sprintf(promQuery, region, it, zones)] *)
Definition promQuery (region it zones : string) : string :=
  "avg(avg_over_time(aws_spot_current_price{region=" +:+ dq +:+ region +:+ dq
  +:+ ", instance_type=" +:+ dq +:+ it +:+ dq
  +:+ ", availability_zone=~" +:+ dq +:+ zones +:+ dq
  +:+ ", product_description=" +:+ dq +:+ "Linux/UNIX" +:+ dq
  +:+ "}[24h]))".

(** [float64(n)] for a length. *)
Definition float64_of_len (n : nat) : float :=
  PrimFloat.of_uint63 (Uint63.of_Z (Z.of_nat n)).

(** The local types of [getCurrentSpotPrices]. *)
Record SpotPrice : Type := {
  AZ : string;
  Price : float
}.
Abbreviation SpotPrices := (list SpotPrice) (only parsing).

(** What the registry takes from Go's libraries and from the clock. *)
Class GoRuntime : Type := {
  (** [strconv.ParseFloat(s, bitSize)] *)
  ParseFloat : string -> nat -> Result float;
  (** [model.Value.String()] *)
  Value_String : model.Value_ -> string;
  (** [model.SampleValue.String()] *)
  SampleValue_String : float -> string;
  (** The reading of [time.Now()] during the call. *)
  time_Now : Z
}.

Section Registry.
Context `{GoRuntime}.

(** *** [getSpotPriceAvgsFromPrometheus] *)

(** The body of [for _, it := range instanceTypes]. *)
Fixpoint promLoop (api : v1.API) (region : string) (zones : list string)
    (instanceTypes : list string) (avgSpotPrices : gmap string float)
    : Run Event (gmap string float) :=
  match instanceTypes with
  | [] => ret avgSpotPrices
  | it :: rest =>
    let query := promQuery region it (String.concat "|" zones) in
    result <- call (EvPromQuery Background query time_Now)
                   (api Background query time_Now) ;;
    if String.eqb (Value_String result) EmptyString then
      throw "'aws_spot_current_price' metric is empty"
    else
      match result with
      | model.Vector r =>
        match r with
        | s :: _ =>
          avgPrice <- lift (ParseFloat (SampleValue_String (model.Value s)) 64) ;;
          promLoop api region zones rest (<[it := avgPrice]> avgSpotPrices)
        | [] => throw "'aws_spot_current_price' metric is empty"
        end
      | model.NonVector _ => panic
      end
  end.

Definition getSpotPriceAvgsFromPrometheus (e : Ec2VmRegistry)
    (region : string) (zones instanceTypes : list string)
    : Run Event (gmap string float) :=
  match prometheus e with
  | Some api => promLoop api region zones instanceTypes ∅
  | None =>
    (* [e.prometheus.Query] on a nil API, in the first turn of the loop *)
    match instanceTypes with
    | [] => ret ∅
    | _ :: _ => panic
    end
  end.

(** *** [getAvailableCpuUnits] *)

Definition getAvailableCpuUnits (e : Ec2VmRegistry) : Run Event (list float) :=
  let attr := pi.Cpu (productInfo e) in
  cpuValues <- call (EvGetAttrValues attr)
                    (pi.GetAttrValues (productInfo e) attr) ;;
  ret cpuValues.

(** *** [getCurrentSpotPrices] *)

Definition spotHistoryInput (instanceTypes : list string)
    : ec2.DescribeSpotPriceHistoryInput :=
  {| ec2.StartTime := Some time_Now;
     ec2.EndTime := None;
     ec2.ProductDescriptions := ["Linux/UNIX"];
     ec2.InstanceTypes := instanceTypes |}.

(** [for _, value := range zones]: [*priceEntry.AvailabilityZone] is read in
    every turn, [*priceEntry.InstanceType] when the zone is the entry's; one
    append per zone equal to the entry's. *)
Fixpoint zoneLoop (zones : list string) (priceEntry : ec2.SpotPrice)
    (spotPrice : float) (spotPrices : gmap string SpotPrices)
    : Outcome (gmap string SpotPrices) :=
  match zones with
  | [] => Return spotPrices
  | value :: rest =>
    obind (deref (ec2.AvailabilityZone_ priceEntry)) (fun az =>
    if String.eqb value az then
      obind (deref (ec2.InstanceType priceEntry)) (fun it =>
      zoneLoop rest priceEntry spotPrice
        (<[it := default [] (spotPrices !! it)
                 ++ [{| AZ := az; Price := spotPrice |}]]> spotPrices))
    else zoneLoop rest priceEntry spotPrice spotPrices)
  end.

(** [for _, priceEntry := range history.SpotPriceHistory]:
    [*priceEntry.SpotPrice] is read and parsed for every entry. *)
Fixpoint historyLoop (zones : list string) (history : list ec2.SpotPrice)
    (spotPrices : gmap string SpotPrices) : Outcome (gmap string SpotPrices) :=
  match history with
  | [] => Return spotPrices
  | priceEntry :: rest =>
    obind (deref (ec2.SpotPrice_ priceEntry)) (fun s =>
    match ParseFloat s 32 with
    | Err err => ReturnErr err
    | Ok spotPrice =>
      obind (zoneLoop zones priceEntry spotPrice spotPrices) (fun spotPrices =>
      historyLoop zones rest spotPrices)
    end)
  end.

(** [var sumPrice float64; for _, p := range prices { sumPrice += p.Price }] *)
Definition sumPrice (prices : SpotPrices) : float :=
  fold_left (fun acc p => PrimFloat.add acc (Price p)) prices 0%float.

Definition zoneAvg (zones : list string) (prices : SpotPrices) : float :=
  PrimFloat.div (sumPrice prices) (float64_of_len (length zones)).

(** [for vmType, prices := range spotPrices] *)
Definition avgLoop (zones : list string) (spotPrices : gmap string SpotPrices)
    : gmap string float :=
  map_fold
    (fun vmType prices zoneAvgSpotPrices =>
       if negb (length prices =? length zones)%nat then zoneAvgSpotPrices
       else <[vmType := zoneAvg zones prices]> zoneAvgSpotPrices)
    ∅ spotPrices.

Definition getCurrentSpotPrices (e : Ec2VmRegistry) (region : string)
    (zones instanceTypes : list string) : Run Event (gmap string float) :=
  let input := spotHistoryInput instanceTypes in
  history <- call (EvDescribeSpotPriceHistory region input)
                  (ec2.DescribeSpotPriceHistory (session e) region input) ;;
  spotPrices <- quiet (historyLoop zones history ∅) ;;
  ret (avgLoop zones spotPrices).

(** *** [findVmsWithCpuUnits] *)

Definition newVm (ec2vm : pi.Ec2Vm) : VirtualMachine :=
  {| Type_ := pi.Type_ ec2vm;
     OnDemandPrice := pi.OnDemandPrice ec2vm;
     AvgPrice := 99%float;
     Cpus := pi.Cpus ec2vm;
     Mem := pi.Mem ec2vm;
     Gpus := pi.Gpus ec2vm |}.

(** [for _, cpu := range cpuUnits] *)
Fixpoint catalogLoop (e : Ec2VmRegistry) (region : string)
    (cpuUnits : list float) (vms : list VirtualMachine)
    : Run Event (list VirtualMachine) :=
  match cpuUnits with
  | [] => ret vms
  | cpu :: rest =>
    let attr := pi.Cpu (productInfo e) in
    ec2Vms <- call (EvGetVmsWithCpu region attr cpu)
                   (pi.GetVmsWithCpu (productInfo e) region attr cpu) ;;
    catalogLoop e region rest (vms ++ map newVm ec2Vms)
  end.

(** [for _, az := range azs.AvailabilityZones]: [*az.State] is read for every
    zone, [*az.ZoneName] for the available ones, which are appended. *)
Fixpoint availableZones (azs : list ec2.AvailabilityZone) (zones : list string)
    : Outcome (list string) :=
  match azs with
  | [] => Return zones
  | az :: rest =>
    obind (deref (ec2.State az)) (fun state =>
    if String.eqb state "available" then
      obind (deref (ec2.ZoneName az)) (fun name =>
      availableZones rest (zones ++ [name]))
    else availableZones rest zones)
  end.

(** [if len(zones) == 0 { ... DescribeAvailabilityZones ... }] *)
Definition resolveZones (e : Ec2VmRegistry) (region : string)
    (zones : list string) : Run Event (list string) :=
  if (length zones =? 0)%nat then
    azs <- call (EvDescribeAvailabilityZones region)
                (ec2.DescribeAvailabilityZones (session e) region) ;;
    quiet (availableZones azs zones)
  else ret zones.

(** [for i := range vms]: the resolved price replaces the initial one. *)
Definition setAvgPrice (avgSpotPrices : gmap string float)
    (vm : VirtualMachine) : VirtualMachine :=
  match avgSpotPrices !! Type_ vm with
  | Some currentPrice =>
    {| Type_ := Type_ vm;
       OnDemandPrice := OnDemandPrice vm;
       AvgPrice := currentPrice;
       Cpus := Cpus vm;
       Mem := Mem vm;
       Gpus := Gpus vm |}
  | None => vm
  end.

(** [if e.prometheus != nil { ... }]: [Some] of the averages stands for
    [pricesParsed = true]; an error of the metrics backend is logged and not
    returned. *)
Definition tryPrometheus (e : Ec2VmRegistry) (region : string)
    (zones instanceTypes : list string)
    : Run Event (option (gmap string float)) :=
  match prometheus e with
  | Some _ =>
    match getSpotPriceAvgsFromPrometheus e region zones instanceTypes with
    | (t, Return zoneAvgSpotPrices) => (t, Return (Some zoneAvgSpotPrices))
    | (t, ReturnErr _) => (t, Return None)
    | (t, Panic) => (t, Panic)
    end
  | None => ret None
  end.

(** From [var avgSpotPrices map[string]float64] to the second [if]: the
    averages of the metrics backend when it gave them, those of the EC2 API
    when [e.prometheus == nil || !pricesParsed]. *)
Definition resolveSpotPrices (e : Ec2VmRegistry) (region : string)
    (zones instanceTypes : list string) : Run Event (gmap string float) :=
  parsed <- tryPrometheus e region zones instanceTypes ;;
  match parsed with
  | Some zoneAvgSpotPrices => ret zoneAvgSpotPrices
  | None => getCurrentSpotPrices e region zones instanceTypes
  end.

(** The pricing part of [findVmsWithCpuUnits], once [vms] and [zones] are set. *)
Definition priceVms (e : Ec2VmRegistry) (region : string)
    (zones : list string) (vms : list VirtualMachine)
    : Run Event (list VirtualMachine) :=
  avgSpotPrices <- resolveSpotPrices e region zones (map Type_ vms) ;;
  ret (map (setAvgPrice avgSpotPrices) vms).

Definition findVmsWithCpuUnits (e : Ec2VmRegistry) (region : string)
    (zones : list string) (cpuUnits : list float)
    : Run Event (list VirtualMachine) :=
  vms <- catalogLoop e region cpuUnits [] ;;
  zones <- resolveZones e region zones ;;
  priceVms e region zones vms.

End Registry.

(** ** The catalog lookup, from the specification *)

(** Modelled from the spec: [GetVmsWithCpu] of package [ec2_productinfo] is
    not part of the sources at hand.  The catalog of a region
    ([listInstanceTypes], which may fail) is filtered to the instance types
    whose vCPU count matches the requested bucket exactly. *)
Definition GetVmsWithCpu_spec (catalog : string -> Result (list pi.Ec2Vm))
    (region attr : string) (cpu : float) : Result (list pi.Ec2Vm) :=
  match catalog region with
  | Err err => Err err
  | Ok vms => Ok (List.filter (fun vm => PrimFloat.eqb (pi.Cpus vm) cpu) vms)
  end.

(** ** Package [api]: [routes.go] *)

Module api.

Definition providerParam : string := "provider".
Definition regionParam : string := "region".

Definition StatusOK : Z := 200.
Definition StatusBadRequest : Z := 400.
Definition StatusInternalServerError : Z := 500.

(** Modelled from the spec: [recommender.ClusterRecommendationReq] is declared
    outside the sources at hand; these are the fields of the
    RecommendationRequest of the data model. *)
Record ClusterRecommendationReq : Type := {
  SumCpu : float;
  SumMem : float;
  MinNodes : Z;
  MaxNodes : Z;
  Zones : list string;
  NetworkPerf : list string;
  Excludes : list string;
  OnDemandRatio : float
}.

(** The zero value of the request, before the body is bound to it. *)
Definition zeroReq : ClusterRecommendationReq :=
  {| SumCpu := 0%float; SumMem := 0%float; MinNodes := 0; MaxNodes := 0;
     Zones := []; NetworkPerf := []; Excludes := [];
     OnDemandRatio := 0%float |}.

Record RequestWrapper : Type := {
  Req : ClusterRecommendationReq;
  P : string;
  R : string
}.

(** [*gin.Context]: the path parameters and the request body. *)
Record Context_ : Type := {
  Params : gmap string string;
  Body : string
}.

(** [c.Param(key)]: the empty string when the parameter is not there. *)
Definition Param (c : Context_) (key : string) : string :=
  default EmptyString (Params c !! key).

(** A value of a [gin.H]. *)
Inductive JValue : Type :=
| JString (s : string)
| JNumber (n : Z).

Section Handler.
(** [recommender.ClusterRecommendationResp] *)
Context {ClusterRecommendationResp : Type}.

(** What [c.JSON] serializes: a [gin.H] or the engine's response. *)
Inductive JBody : Type :=
| H (fields : gmap string JValue)
| Resp (response : ClusterRecommendationResp).

Inductive Event : Type :=
| EvRecommendCluster (provider region : string) (req : ClusterRecommendationReq)
| EvJSON (status : Z) (body : JBody).

(** [RouteHandler] with what it is wired to: [c.BindJSON], which fills the
    wrapper from the body, and [engine.RecommendCluster]. *)
Record RouteHandler : Type := {
  BindJSON : string -> RequestWrapper -> Result RequestWrapper;
  RecommendCluster :
    string -> string -> ClusterRecommendationReq -> Result ClusterRecommendationResp
}.

(** [c.JSON(status, body)] *)
Definition JSON (status : Z) (body : JBody) : Run Event unit :=
  tell (EvJSON status body).

Definition recommendClusterSetup (r : RouteHandler) (c : Context_)
    : Run Event unit :=
  let provider := Param c providerParam in
  let region := Param c regionParam in
  let reqWr := {| Req := zeroReq; P := provider; R := region |} in
  match BindJSON r (Body c) reqWr with
  | Err err =>
    JSON StatusBadRequest
      (H (<["code" := JString "bad_params"]>
           (<["message" := JString "invalid zone(s) or network performance"]>
             (<["cause" := JString err]> ∅))))
  | Ok reqWr =>
    _ <- tell (EvRecommendCluster provider region (Req reqWr)) ;;
    match RecommendCluster r provider region (Req reqWr) with
    | Err err =>
      JSON StatusInternalServerError
        (H (<["status" := JNumber StatusInternalServerError]>
             (<["message" := JString err]> ∅)))
    | Ok response => JSON StatusOK (Resp response)
    end
  end.

Definition isEngineCall (ev : Event) : bool :=
  match ev with
  | EvRecommendCluster _ _ _ => true
  | EvJSON _ _ => false
  end.

(** The statuses written to the client, in order. *)
Definition statuses (t : list Event) : list Z :=
  flat_map (fun ev => match ev with EvJSON s _ => [s] | _ => [] end) t.

Definition isClientError (status : Z) : bool :=
  (400 <=? status)%Z && (status <? 500)%Z.
Definition isServerError (status : Z) : bool :=
  (500 <=? status)%Z && (status <? 600)%Z.

(** Modelled from the spec: the validation of a request is not part of the
    sources at hand (the binding tags of [ClusterRecommendationReq] are
    declared with it).  The invariant of a request is min <= max and
    0 <= on-demand ratio <= 1. *)
Definition validRequest (req : ClusterRecommendationReq) : bool :=
  (MinNodes req <=? MaxNodes req)%Z
  && PrimFloat.leb 0%float (OnDemandRatio req)
  && PrimFloat.leb (OnDemandRatio req) 1%float.

(** Modelled from the spec: [c.BindJSON] decodes the body and then validates
    what it decoded; a bound violation is an [InvalidRequest]. *)
Definition BindJSON_spec (decode : string -> RequestWrapper -> Result RequestWrapper)
    (body : string) (reqWr : RequestWrapper) : Result RequestWrapper :=
  match decode body reqWr with
  | Err err => Err err
  | Ok reqWr' =>
    if validRequest (Req reqWr') then Ok reqWr' else Err "InvalidRequest"
  end.

End Handler.
Arguments JBody ClusterRecommendationResp : clear implicits.
Arguments Event ClusterRecommendationResp : clear implicits.
Arguments RouteHandler ClusterRecommendationResp : clear implicits.

End api.

(** ** Derived notions used by the statements *)

Section Notions.
Context `{GoRuntime}.

(** The event of the query for one instance type. *)
Definition queryEvent (region : string) (zones : list string) (it : string)
    : Event :=
  EvPromQuery Background (promQuery region it (String.concat "|" zones)) time_Now.

(** One turn of the loop of [getSpotPriceAvgsFromPrometheus], without its
    trace: the price read from the answer to the query for [it]. *)
Definition promAnswer (api : v1.API) (region : string) (zones : list string)
    (it : string) : Outcome float :=
  match api Background (promQuery region it (String.concat "|" zones)) time_Now with
  | Err err => ReturnErr err
  | Ok result =>
    if String.eqb (Value_String result) EmptyString then
      ReturnErr "'aws_spot_current_price' metric is empty"
    else
      match result with
      | model.Vector (s :: _) =>
        match ParseFloat (SampleValue_String (model.Value s)) 64 with
        | Ok avgPrice => Return avgPrice
        | Err err => ReturnErr err
        end
      | model.Vector [] => ReturnErr "'aws_spot_current_price' metric is empty"
      | model.NonVector _ => Panic
      end
  end.

(** The metrics backend is unreachable, returns no data, or returns an empty
    series for [it]. *)
Definition promUnusable (api : v1.API) (region : string) (zones : list string)
    (it : string) : Prop :=
  match api Background (promQuery region it (String.concat "|" zones)) time_Now with
  | Err _ => True
  | Ok result => Value_String result = EmptyString \/ result = model.Vector []
  end.

(** The registry with its metrics backend taken away ([prom == ""]). *)
Definition withoutPrometheus (e : Ec2VmRegistry) : Ec2VmRegistry :=
  {| session := session e; productInfo := productInfo e; prometheus := None |}.

(** The samples one record of the history adds for [vmType]: one per
    requested zone equal to the record's zone, when the record is of that
    type. *)
Definition entrySamples (zones : list string) (priceEntry : ec2.SpotPrice)
    (spotPrice : float) (vmType : string) : SpotPrices :=
  match ec2.InstanceType priceEntry, ec2.AvailabilityZone_ priceEntry with
  | Some it, Some az =>
    if String.eqb it vmType then
      flat_map
        (fun value =>
           if String.eqb value az then [{| AZ := az; Price := spotPrice |}]
           else [])
        zones
    else []
  | _, _ => []
  end.

(** The samples that [getCurrentSpotPrices] collects for one instance type,
    record after record of the history. *)
Definition samples (zones : list string) (history : list ec2.SpotPrice)
    (vmType : string) : SpotPrices :=
  flat_map
    (fun priceEntry =>
       match ec2.SpotPrice_ priceEntry with
       | Some s =>
         match ParseFloat s 32 with
         | Ok spotPrice => entrySamples zones priceEntry spotPrice vmType
         | Err _ => []
         end
       | None => []
       end)
    history.

(** No instance type is stored with an empty list of samples. *)
Definition noEmpty (spotPrices : gmap string SpotPrices) : Prop :=
  forall vmType prices, spotPrices !! vmType = Some prices -> prices <> [].

(** A record is of [vmType] in [zone]. *)
Definition isRecordOf (vmType zone : string) (priceEntry : ec2.SpotPrice) : bool :=
  match ec2.InstanceType priceEntry, ec2.AvailabilityZone_ priceEntry with
  | Some it, Some az => String.eqb it vmType && String.eqb az zone
  | _, _ => false
  end.

(** The records of the history that are of [vmType] in [zone]. *)
Definition recordsOf (history : list ec2.SpotPrice) (vmType zone : string)
    : list ec2.SpotPrice :=
  List.filter (isRecordOf vmType zone) history.

(** The key of a record: its instance type and its zone. *)
Definition recordKey (priceEntry : ec2.SpotPrice)
    : option string * option string :=
  (ec2.InstanceType priceEntry, ec2.AvailabilityZone_ priceEntry).

(** The history holds a record of [vmType] in [zone]. *)
Definition hasSample (history : list ec2.SpotPrice) (vmType zone : string) : bool :=
  existsb (isRecordOf vmType zone) history.

End Notions.

(** ** A small region, for running the definitions *)

Module Fixture.

Definition nl : string := String "010"%char EmptyString.

Definition parseFloat (s : string) (bitSize : nat) : Result float :=
  if String.eqb s "0.25" then Ok 0.25%float
  else if String.eqb s "0.5" then Ok 0.5%float
  else if String.eqb s "0.75" then Ok 0.75%float
  else if String.eqb s "99" then Ok 99%float
  else Err "strconv.ParseFloat: invalid syntax".

Definition sampleValueString (v : float) : string :=
  if PrimFloat.eqb v 0.25%float then "0.25"
  else if PrimFloat.eqb v 0.5%float then "0.5"
  else if PrimFloat.eqb v 0.75%float then "0.75"
  else if PrimFloat.eqb v 99%float then "99"
  else "NaN".

Definition valueString (v : model.Value_) : string :=
  match v with
  | model.Vector r =>
    String.concat nl
      (map (fun s => model.Metric s +:+ " => " +:+ sampleValueString (model.Value s)) r)
  | model.NonVector rendering => rendering
  end.

#[global] Instance runtime : GoRuntime :=
  {| ParseFloat := parseFloat;
     Value_String := valueString;
     SampleValue_String := sampleValueString;
     time_Now := 1540000000 |}.

Definition m5_large : pi.Ec2Vm :=
  {| pi.Type_ := "m5.large"; pi.OnDemandPrice := 0.75%float;
     pi.Cpus := 2%float; pi.Mem := 8%float; pi.Gpus := 0%float |}.
Definition c5_xlarge : pi.Ec2Vm :=
  {| pi.Type_ := "c5.xlarge"; pi.OnDemandPrice := 99%float;
     pi.Cpus := 4%float; pi.Mem := 8%float; pi.Gpus := 0%float |}.

Definition catalog (region : string) : Result (list pi.Ec2Vm) :=
  Ok [m5_large; c5_xlarge].

Definition catalogInfo : pi.ProductInfo :=
  {| pi.Cpu := "vcpu";
     pi.GetVmsWithCpu := GetVmsWithCpu_spec catalog;
     pi.GetAttrValues := fun _ => Ok [2%float; 4%float] |}.

Definition azs : list ec2.AvailabilityZone :=
  [ {| ec2.State := Some "available"; ec2.ZoneName := Some "eu-west-1a" |};
    {| ec2.State := Some "impaired"; ec2.ZoneName := Some "eu-west-1b" |};
    {| ec2.State := Some "available"; ec2.ZoneName := Some "eu-west-1c" |} ].

Definition entry (zone it price : string) : ec2.SpotPrice :=
  {| ec2.AvailabilityZone_ := Some zone; ec2.InstanceType := Some it;
     ec2.SpotPrice_ := Some price |}.

(** An EC2 whose zone discovery answers [zs] and whose spot price history
    answers [h]. *)
Definition ec2With (zs : Result (list ec2.AvailabilityZone))
    (h : Result (list ec2.SpotPrice)) : ec2.Session :=
  {| ec2.DescribeAvailabilityZones := fun _ => zs;
     ec2.DescribeSpotPriceHistory := fun _ _ => h |}.

Definition registry (s : ec2.Session) (prom : option v1.API) : Ec2VmRegistry :=
  {| session := s; productInfo := catalogInfo; prometheus := prom |}.

(** Both zones of [m5.large] have a record, [c5.xlarge] has one in [eu-west-1a] only. *)
Definition history : list ec2.SpotPrice :=
  [ entry "eu-west-1a" "m5.large" "0.25";
    entry "eu-west-1c" "m5.large" "0.75";
    entry "eu-west-1a" "c5.xlarge" "0.5" ].

(** Two records of [m5.large], both of [eu-west-1a]. *)
Definition historyTwice : list ec2.SpotPrice :=
  [ entry "eu-west-1a" "m5.large" "0.25";
    entry "eu-west-1a" "m5.large" "0.75" ].

(** [m5.large] at a spot price of 99 in both zones. *)
Definition history99 : list ec2.SpotPrice :=
  [ entry "eu-west-1a" "m5.large" "99";
    entry "eu-west-1c" "m5.large" "99" ].

Definition sample (it : string) (v : float) : model.Sample :=
  {| model.Metric := "{instance_type=" +:+ it +:+ "}"; model.Value := v;
     model.Timestamp := 1540000000 |}.

(** A metrics backend that is not reachable. *)
Definition promDown : v1.API := fun _ _ _ => Err "connection refused".

(** A metrics backend that knows [m5.large] and has an empty series for every
    other type. *)
Definition promPartial : v1.API :=
  fun _ query _ =>
    if String.eqb query (promQuery "eu-west-1" "m5.large" "eu-west-1a|eu-west-1c")
    then Ok (model.Vector [sample "m5.large" 0.75%float])
    else Ok (model.Vector []).

(** A metrics backend that answers every query with one sample of 0.5. *)
Definition promUp : v1.API :=
  fun _ _ _ => Ok (model.Vector [sample "any" 0.5%float]).

Definition twoZones : list string := ["eu-west-1a"; "eu-west-1c"].

(** A request for between 5 and 3 nodes. *)
Definition minAboveMax : api.ClusterRecommendationReq :=
  {| api.SumCpu := 8%float; api.SumMem := 16%float;
     api.MinNodes := 5; api.MaxNodes := 3;
     api.Zones := []; api.NetworkPerf := []; api.Excludes := [];
     api.OnDemandRatio := 0.5%float |}.

Definition quoted (s : string) : string := dq +:+ s +:+ dq.

Definition ginContext : api.Context_ :=
  {| api.Params := <["provider" := "ec2"]> (<["region" := "eu-west-1"]> ∅);
     api.Body := "{" +:+ quoted "sumCpu" +:+ ": 8, " +:+ quoted "sumMem"
                 +:+ ": 16, " +:+ quoted "minNodes" +:+ ": 5, "
                 +:+ quoted "maxNodes" +:+ ": 3, " +:+ quoted "onDemandRatio"
                 +:+ ": 0.5}" |}.

(** A decoder that reads [minAboveMax] from every body. *)
Definition decode (body : string) (reqWr : api.RequestWrapper)
    : Result api.RequestWrapper :=
  Ok {| api.Req := minAboveMax; api.P := api.P reqWr; api.R := api.R reqWr |}.

(** A binding that refuses every body, and an engine that finds no layout. *)
Definition refuse (body : string) (reqWr : api.RequestWrapper)
    : Result api.RequestWrapper :=
  Err "unexpected end of JSON input".

Definition infeasible (provider region : string)
    (req : api.ClusterRecommendationReq) : Result unit :=
  Err "could not find any VMs to recommend".

End Fixture.

(** ** [NewEc2VmRegistry] *)

(** What the constructor takes from the AWS SDK and from the Prometheus
    client library: [session.NewSession()], and [api.NewClient] followed by
    [v1.NewAPI] for an address. *)
Record Libraries : Type := {
  NewSession : Result ec2.Session;
  NewClient : string -> Result v1.API
}.

Inductive BootEvent : Type :=
| EvNewSession
| EvNewClient (address : string).

(** [if prom == "" { ... } else { ... }]: the metrics backend of the registry;
    an error of [api.NewClient] is logged and not returned. *)
Definition newPromApi (l : Libraries) (prom : string)
    : Run BootEvent (option v1.API) :=
  if String.eqb prom EmptyString then ret None
  else
    match call (EvNewClient prom) (NewClient l prom) with
    | (t, Return promClient) => (t, Return (Some promClient))
    | (t, ReturnErr _) => (t, Return None)
    | (t, Panic) => (t, Panic)
    end.

Definition NewEc2VmRegistry (l : Libraries) (pi : pi.ProductInfo) (prom : string)
    : Run BootEvent Ec2VmRegistry :=
  s <- call EvNewSession (NewSession l) ;;
  promApi <- newPromApi l prom ;;
  ret {| session := s; productInfo := pi; prometheus := promApi |}.

(** ** Package [api]: the routes *)

Module routes.

(** [cors.Config], with [MaxAge] a [time.Duration] in nanoseconds. *)
Record Config : Type := {
  AllowAllOrigins : bool;
  AllowOrigins : list string;
  AllowMethods : list string;
  AllowHeaders : list string;
  ExposeHeaders : list string;
  AllowCredentials : bool;
  MaxAge : Z
}.

(** [getCorsConfig], from the [cors.DefaultConfig()] of the library. *)
Definition getCorsConfig (DefaultConfig : Config) : Config :=
  let config := DefaultConfig in
  let config :=
    {| AllowAllOrigins := true;
       AllowOrigins := AllowOrigins config;
       AllowMethods := AllowMethods config;
       AllowHeaders := AllowHeaders config;
       ExposeHeaders := ExposeHeaders config;
       AllowCredentials := AllowCredentials config;
       MaxAge := MaxAge config |} in
  let config :=
    if negb (AllowAllOrigins config) then
      {| AllowAllOrigins := AllowAllOrigins config;
         AllowOrigins := ["http://"; "https://"];
         AllowMethods := AllowMethods config;
         AllowHeaders := AllowHeaders config;
         ExposeHeaders := ExposeHeaders config;
         AllowCredentials := AllowCredentials config;
         MaxAge := MaxAge config |}
    else config in
  {| AllowAllOrigins := AllowAllOrigins config;
     AllowOrigins := AllowOrigins config;
     AllowMethods := ["PUT"; "DELETE"; "GET"; "POST"; "OPTIONS"];
     AllowHeaders := ["Origin"; "Authorization"; "Content-Type"];
     ExposeHeaders := ["Content-Length"];
     AllowCredentials := true;
     MaxAge := 12 |}.

(** The handler functions that end up in the router, by what made them. *)
Inductive HandlerFunc : Type :=
| signalStatus
| recommendClusterSetup
| cors_New (config : Config)
| auth_JWTAuth (role sgnKey : string)
| Installed (name : string).

(** [gin.RouterGroup]: the middleware of the group and its base path. *)
Record RouterGroup : Type := {
  Handlers : list HandlerFunc;
  basePath : string
}.

(** A route of the engine: the chain of handlers is fixed when the route is
    added. *)
Record RouteInfo : Type := {
  Method : string;
  Path : string;
  Chain : list HandlerFunc
}.

(** [*gin.Engine]: its own group and the routes added so far. *)
Record Engine : Type := {
  RouterGroup_ : RouterGroup;
  trees : list RouteInfo
}.

Section Router.
(** [joinPaths] of gin, and [cors.DefaultConfig()]. *)
Variable joinPaths : string -> string -> string.
Variable DefaultConfig : Config.

(** [group.Use(middleware)] *)
Definition Use (group : RouterGroup) (middleware : HandlerFunc) : RouterGroup :=
  {| Handlers := Handlers group ++ [middleware]; basePath := basePath group |}.

(** [group.Group(relativePath)] *)
Definition Group (group : RouterGroup) (relativePath : string) : RouterGroup :=
  {| Handlers := Handlers group;
     basePath := joinPaths (basePath group) relativePath |}.

(** [group.GET(relativePath, handler)] and [group.POST(relativePath, handler)]:
    the route is added with the middleware the group has at that moment. *)
Definition handle (group : RouterGroup) (httpMethod relativePath : string)
    (handler : HandlerFunc) (routes : list RouteInfo) : list RouteInfo :=
  routes ++ [{| Method := httpMethod;
                Path := joinPaths (basePath group) relativePath;
                Chain := Handlers group ++ [handler] |}].

(** [os.Getenv(key)]: the empty string when the variable is not set. *)
Definition Getenv (env : gmap string string) (key : string) : string :=
  default EmptyString (env !! key).

Definition ConfigureRoutes (env : gmap string string) (router : Engine) : Engine :=
  let basePath :=
    let basePathFromEnv := Getenv env "TELESCOPES_BASEPATH" in
    if negb (String.eqb basePathFromEnv EmptyString) then basePathFromEnv
    else "/" in
  let base := Group (RouterGroup_ router) basePath in
  let routes := handle base "GET" "/status" signalStatus (trees router) in
  let base := Use base (cors_New (getCorsConfig DefaultConfig)) in
  let v1 := Group base "/api/v1" in
  let recGroup := Group v1 "/recommender" in
  let routes :=
    handle recGroup "POST" "/:provider/:region/cluster/" recommendClusterSetup
      routes in
  {| RouterGroup_ := RouterGroup_ router; trees := routes |}.

(** [router.Use(auth.JWTAuth(auth.NewVaultTokenStore(role), sgnKey, nil))] *)
Definition EnableAuth (router : Engine) (role sgnKey : string) : Engine :=
  {| RouterGroup_ := Use (RouterGroup_ router) (auth_JWTAuth role sgnKey);
     trees := trees router |}.

End Router.

Definition isAuth (h : HandlerFunc) : bool :=
  match h with
  | auth_JWTAuth _ _ => true
  | _ => false
  end.

Definition isCors (h : HandlerFunc) : bool :=
  match h with
  | cors_New _ => true
  | _ => false
  end.

End routes.

(** ** Further notions used by the statements *)

Definition isPromQueryEvent (ev : Event) : bool :=
  match ev with
  | EvPromQuery _ _ _ => true
  | _ => false
  end.

Definition isSpotHistoryEvent (ev : Event) : bool :=
  match ev with
  | EvDescribeSpotPriceHistory _ _ => true
  | _ => false
  end.

Definition isDiscoveryEvent (ev : Event) : bool :=
  match ev with
  | EvDescribeAvailabilityZones _ => true
  | _ => false
  end.

Definition isCatalogEvent (ev : Event) : bool :=
  match ev with
  | EvGetVmsWithCpu _ _ _ => true
  | _ => false
  end.

(** The event of the catalog lookup for one bucket. *)
Definition catalogEvent (e : Ec2VmRegistry) (region : string) (cpu : float)
    : Event :=
  EvGetVmsWithCpu region (pi.Cpu (productInfo e)) cpu.

(** A returned machine has the attributes of a machine of the catalog. *)
Definition sameMachine (vm : VirtualMachine) (ec2vm : pi.Ec2Vm) : Prop :=
  Type_ vm = pi.Type_ ec2vm
  /\ OnDemandPrice vm = pi.OnDemandPrice ec2vm
  /\ Cpus vm = pi.Cpus ec2vm
  /\ Mem vm = pi.Mem ec2vm
  /\ Gpus vm = pi.Gpus ec2vm.

(** What makes the loop over a history stop: a price that does not parse, or
    a nil pointer. *)
Inductive Failure : Type :=
| ParseError (err : error)
| NilPointer.

(** A record whose pointers make the loop over the zones panic: with zones to
    compare, a nil zone; or a nil instance type when the zone is one of those
    requested. *)
Definition entryNil (zones : list string) (priceEntry : ec2.SpotPrice) : bool :=
  match zones with
  | [] => false
  | _ :: _ =>
    match ec2.AvailabilityZone_ priceEntry with
    | None => true
    | Some az =>
      existsb (fun value => String.eqb value az) zones
      && match ec2.InstanceType priceEntry with
         | None => true
         | Some _ => false
         end
    end
  end.

(** The first record of a history at which the loop stops, if any, and why. *)
Fixpoint firstFailure `{GoRuntime} (zones : list string)
    (history : list ec2.SpotPrice) : option Failure :=
  match history with
  | [] => None
  | priceEntry :: rest =>
    match ec2.SpotPrice_ priceEntry with
    | None => Some NilPointer
    | Some s =>
      match ParseFloat s 32 with
      | Err err => Some (ParseError err)
      | Ok _ =>
        if entryNil zones priceEntry then Some NilPointer
        else firstFailure zones rest
      end
    end
  end.

(** Every requested zone, and there is one, has a record of [vmType]. *)
Definition everyZoneHasSample (history : list ec2.SpotPrice) (vmType : string)
    (zones : list string) : bool :=
  match zones with
  | [] => false
  | _ :: _ => forallb (hasSample history vmType) zones
  end.

(** The names of the zones in state [available], in order; [None] when a
    pointer that is read is nil. *)
Fixpoint availableNames (azs : list ec2.AvailabilityZone) : option (list string) :=
  match azs with
  | [] => Some []
  | az :: rest =>
    match ec2.State az, availableNames rest with
    | Some state, Some names =>
      if String.eqb state "available" then
        match ec2.ZoneName az with
        | Some name => Some (name :: names)
        | None => None
        end
      else Some names
    | _, _ => None
    end
  end.

(** [fmt.Sprintf(promQuery, region, it, strings.Join(zones, "|"))], written
    out. *)
Definition queryText (region it : string) (zones : list string) : string :=
  "avg(avg_over_time(aws_spot_current_price{region=" +:+ dq +:+ region +:+ dq
  +:+ ", instance_type=" +:+ dq +:+ it +:+ dq
  +:+ ", availability_zone=~" +:+ dq +:+ String.concat "|" zones +:+ dq
  +:+ ", product_description=" +:+ dq +:+ "Linux/UNIX" +:+ dq
  +:+ "}[24h]))".

(** [vm] with [price] as its spot price. *)
Definition withAvgPrice (vm : VirtualMachine) (price : float) : VirtualMachine :=
  {| Type_ := Type_ vm;
     OnDemandPrice := OnDemandPrice vm;
     AvgPrice := price;
     Cpus := Cpus vm;
     Mem := Mem vm;
     Gpus := Gpus vm |}.

(** No nil pointer in a zone, and none in a record of the history. *)
Definition zoneNoNil (az : ec2.AvailabilityZone) : Prop :=
  ec2.State az <> None /\ ec2.ZoneName az <> None.

Definition recordNoNil (priceEntry : ec2.SpotPrice) : Prop :=
  ec2.AvailabilityZone_ priceEntry <> None
  /\ ec2.InstanceType priceEntry <> None
  /\ ec2.SpotPrice_ priceEntry <> None.

(** ** More of the small region *)

Module Demo.

(** A catalog that knows the bucket of 2 vCPUs and fails on every other. *)
Definition brokenCatalog : pi.ProductInfo :=
  {| pi.Cpu := "vcpu";
     pi.GetVmsWithCpu := fun region attr cpu =>
       if PrimFloat.eqb cpu 2%float then Ok [Fixture.m5_large]
       else Err "ThrottlingException";
     pi.GetAttrValues := fun _ => Err "ThrottlingException" |}.

Definition brokenRegistry : Ec2VmRegistry :=
  {| session := Fixture.ec2With (Ok Fixture.azs) (Ok Fixture.history);
     productInfo := brokenCatalog;
     prometheus := Some Fixture.promUp |}.

(** Zones of which none is available. *)
Definition azsDown : list ec2.AvailabilityZone :=
  [ {| ec2.State := Some "impaired"; ec2.ZoneName := Some "eu-west-1a" |};
    {| ec2.State := Some "unavailable"; ec2.ZoneName := Some "eu-west-1b" |} ].

(** A history with a price that does not parse, of a zone nobody asks for. *)
Definition historyBadPrice : list ec2.SpotPrice :=
  [ Fixture.entry "eu-west-1a" "m5.large" "0.25";
    Fixture.entry "ap-south-1b" "r4.large" "n/a";
    Fixture.entry "eu-west-1c" "m5.large" "0.75" ].

Definition libraries (s : Result ec2.Session) (c : Result v1.API) : Libraries :=
  {| NewSession := s; NewClient := fun _ => c |}.

Definition okSession : ec2.Session :=
  Fixture.ec2With (Ok Fixture.azs) (Ok Fixture.history).

(** gin's [joinPaths] on the paths of the example: the two paths are put
    together with one slash between them. *)
Definition joinPaths (absolutePath relativePath : string) : string :=
  if String.eqb absolutePath "/" then relativePath
  else absolutePath +:+ relativePath.

Definition defaultConfig : routes.Config :=
  {| routes.AllowAllOrigins := false;
     routes.AllowOrigins := [];
     routes.AllowMethods := ["GET"; "POST"; "PUT"; "PATCH"; "DELETE"; "HEAD"];
     routes.AllowHeaders := ["Origin"; "Content-Length"; "Content-Type"];
     routes.ExposeHeaders := [];
     routes.AllowCredentials := false;
     routes.MaxAge := 43200000000000 |}.

(** [gin.Default()]: the logger and the recovery middleware, no route. *)
Definition ginDefault : routes.Engine :=
  {| routes.RouterGroup_ :=
       {| routes.Handlers := [routes.Installed "Logger"; routes.Installed "Recovery"];
          routes.basePath := "/" |};
     routes.trees := [] |}.

End Demo.

(** * Properties *)

(** ** Runs *)

Section RunLemmas.
Context {Ev : Type}.
Implicit Types (A B : Type).

Lemma bind_Return {A B} (m : Run Ev A) (k : A -> Run Ev B) (a : A) :
  outcome m = Return a ->
  bind m k = (trace m ++ trace (k a), outcome (k a)).
Proof.
  destruct m as [t o]; simpl; intros ->; simpl.
  destruct (k a); reflexivity.
Qed.

Lemma bind_ReturnErr {A B} (m : Run Ev A) (k : A -> Run Ev B) (err : error) :
  outcome m = ReturnErr err -> bind m k = (trace m, ReturnErr err).
Proof. destruct m as [t o]; simpl; intros ->; reflexivity. Qed.

Lemma bind_Panic {A B} (m : Run Ev A) (k : A -> Run Ev B) :
  outcome m = Panic -> bind m k = (trace m, Panic).
Proof. destruct m as [t o]; simpl; intros ->; reflexivity. Qed.

(** A run that returns a value went through both halves of a [bind]. *)
Lemma bind_Return_inv {A B} (m : Run Ev A) (k : A -> Run Ev B) (b : B) :
  outcome (bind m k) = Return b ->
  exists a, outcome m = Return a /\ outcome (k a) = Return b.
Proof.
  destruct m as [t [a|err|]]; simpl; try discriminate.
  destruct (k a) as [t' o] eqn:E; simpl; intros ->.
  exists a; rewrite E; auto.
Qed.

(** The calls of the first half are always part of the trace. *)
Lemma trace_bind_prefix {A B} (m : Run Ev A) (k : A -> Run Ev B) :
  exists t', trace (bind m k) = trace m ++ t'.
Proof.
  destruct m as [t [a|err|]]; simpl.
  - destruct (k a) as [t' o]; simpl; eauto.
  - exists []; rewrite app_nil_r; reflexivity.
  - exists []; rewrite app_nil_r; reflexivity.
Qed.

Lemma call_trace {A} (ev : Ev) (r : Result A) : trace (call ev r) = [ev].
Proof. destruct r; reflexivity. Qed.

Lemma call_outcome {A} (ev : Ev) (r : Result A) :
  outcome (call ev r) = match r with Ok a => Return a | Err err => ReturnErr err end.
Proof. destruct r; reflexivity. Qed.

Lemma run_eta {A} (m : Run Ev A) : m = (trace m, outcome m).
Proof. destruct m; reflexivity. Qed.

Lemma bind_ext {A B} (m : Run Ev A) (k k' : A -> Run Ev B) :
  (forall a, k a = k' a) -> bind m k = bind m k'.
Proof.
  intros Hk. destruct m as [t [a|err|]]; cbn; [rewrite Hk|..]; reflexivity.
Qed.

Lemma outcome_bind_Return {A B} (m : Run Ev A) (k : A -> Run Ev B) a :
  outcome m = Return a -> outcome (bind m k) = outcome (k a).
Proof. intros Hm. rewrite (bind_Return _ _ _ Hm). reflexivity. Qed.

Lemma trace_bind_Return {A B} (m : Run Ev A) (k : A -> Run Ev B) a :
  outcome m = Return a -> trace (bind m k) = trace m ++ trace (k a).
Proof. intros Hm. rewrite (bind_Return _ _ _ Hm). reflexivity. Qed.

(** What follows a [bind] sees only the outcome of its first half. *)
Lemma outcome_bind_congr {A B} (m m' : Run Ev A) (k : A -> Run Ev B) :
  outcome m = outcome m' -> outcome (bind m k) = outcome (bind m' k).
Proof.
  destruct m as [t o], m' as [t' o']; cbn; intros ->.
  destruct o' as [a|err|]; cbn; [|reflexivity..].
  destruct (k a); reflexivity.
Qed.

End RunLemmas.

(** ** The metrics backend *)

Section PrometheusLemmas.
Context `{GoRuntime}.

(** One turn of the loop: the query is issued, then its answer decides. *)
Lemma promLoop_cons (api : v1.API) region zones it rest acc :
  promLoop api region zones (it :: rest) acc =
  bind (tell (queryEvent region zones it))
    (fun _ =>
       match promAnswer api region zones it with
       | Return avgPrice => promLoop api region zones rest (<[it := avgPrice]> acc)
       | ReturnErr err => throw err
       | Panic => panic
       end).
Proof.
  cbn [promLoop]. unfold promAnswer, queryEvent, call.
  destruct (api Background _ time_Now) as [result|err]; cbn; [|reflexivity].
  destruct (String.eqb (Value_String result) EmptyString); cbn; [reflexivity|].
  destruct result as [[|s r]|rendering]; cbn; try reflexivity.
  destruct (ParseFloat _ 64) as [v|err]; cbn; [|reflexivity].
  destruct (promLoop api region zones rest (<[it:=v]> acc)); reflexivity.
Qed.

Lemma promUnusable_no_price (api : v1.API) region zones it :
  promUnusable api region zones it ->
  forall v, promAnswer api region zones it <> Return v.
Proof.
  unfold promUnusable, promAnswer.
  destruct (api Background _ time_Now) as [result|err]; [|discriminate].
  intros [Hs | ->] v.
  - rewrite Hs; cbn; discriminate.
  - destruct (String.eqb _ _); discriminate.
Qed.

(** The averages returned: the price of every requested type, and beside
    them what the map held before. *)
Lemma promLoop_Return_lookup (api : v1.API) region zones its :
  forall acc m,
    outcome (promLoop api region zones its acc) = Return m ->
    (forall it, In it its ->
       exists v, promAnswer api region zones it = Return v /\ m !! it = Some v)
    /\ (forall it, ~ In it its -> m !! it = acc !! it).
Proof.
  induction its as [|it0 rest IH]; intros acc m Hm.
  - cbn in Hm. injection Hm as <-. split; [intros it []|auto].
  - rewrite promLoop_cons in Hm.
    apply bind_Return_inv in Hm as [[] [_ Hm]].
    destruct (promAnswer api region zones it0) as [v| |] eqn:E; try discriminate.
    destruct (IH _ _ Hm) as [Hin Hout]. split.
    + intros it Hit.
      destruct (in_dec string_dec it rest) as [Hr|Hr]; [auto|].
      destruct Hit as [<-|Hit]; [|contradiction].
      exists v. split; [auto|].
      rewrite (Hout _ Hr). apply lookup_insert_eq.
    + intros it Hit. rewrite Hout by (intros ?; apply Hit; right; auto).
      apply lookup_insert_ne. intros ->. apply Hit; left; auto.
Qed.

(** The trace of the loop: the queries of a prefix of the requested types, in
    their order, each issued after the one before it gave a price; all of
    them when the loop returns averages. *)
Lemma promLoop_trace (api : v1.API) region zones its :
  forall acc,
  exists n,
    n <= length its /\
    trace (promLoop api region zones its acc)
    = map (queryEvent region zones) (take n its) /\
    (forall m, outcome (promLoop api region zones its acc) = Return m ->
               n = length its) /\
    (forall i it, S i < n -> its !! i = Some it ->
                  exists v, promAnswer api region zones it = Return v).
Proof.
  induction its as [|it0 rest IH]; intros acc.
  - exists 0; cbn; repeat split; auto; intros; lia.
  - rewrite promLoop_cons.
    destruct (promAnswer api region zones it0) as [v|err|] eqn:E.
    + destruct (IH (<[it0:=v]> acc)) as (n & Hn & Ht & Hall & Hprev).
      exists (S n). split; [cbn; lia|].
      rewrite (bind_Return _ _ tt) by reflexivity. cbn [trace outcome fst snd].
      split; [cbn; rewrite <- Ht; reflexivity|].
      split.
      * intros m Hm. cbn; f_equal; eauto.
      * intros [|i] it Hi Hl; cbn in Hl.
        -- injection Hl as <-; eauto.
        -- apply (Hprev i); auto; lia.
    + exists 1. split; [cbn; lia|]. cbn.
      repeat split; auto; intros; try discriminate; lia.
    + exists 1. split; [cbn; lia|]. cbn.
      repeat split; auto; intros; try discriminate; lia.
Qed.

End PrometheusLemmas.

(** ** The pieces of [findVmsWithCpuUnits] *)

Section RegistryLemmas.
Context `{GoRuntime}.

(** The direct path makes one call, for the whole set of instance types. *)
Lemma getCurrentSpotPrices_trace e region zones its :
  trace (getCurrentSpotPrices e region zones its)
  = [EvDescribeSpotPriceHistory region (spotHistoryInput its)].
Proof.
  unfold getCurrentSpotPrices, call.
  destruct (ec2.DescribeSpotPriceHistory _ _ _) as [history|err]; cbn; [|reflexivity].
  destruct (historyLoop zones history ∅); reflexivity.
Qed.

(** The direct path does not look at the metrics backend. *)
Lemma getCurrentSpotPrices_withoutPrometheus e region zones its :
  getCurrentSpotPrices (withoutPrometheus e) region zones its
  = getCurrentSpotPrices e region zones its.
Proof. reflexivity. Qed.

Lemma catalogLoop_withoutPrometheus e region cpuUnits :
  forall vms,
    catalogLoop (withoutPrometheus e) region cpuUnits vms
    = catalogLoop e region cpuUnits vms.
Proof.
  induction cpuUnits as [|cpu rest IH]; intros vms; [reflexivity|].
  cbn [catalogLoop]. cbn [withoutPrometheus productInfo].
  apply bind_ext. intros ec2Vms. apply IH.
Qed.

Lemma resolveZones_withoutPrometheus e region zones :
  resolveZones (withoutPrometheus e) region zones = resolveZones e region zones.
Proof. reflexivity. Qed.

(** When the metrics attempt ends in an error, the averages are those of the
    direct path, and the direct call follows the queries made. *)
Lemma resolveSpotPrices_fallback e region zones its err :
  outcome (getSpotPriceAvgsFromPrometheus e region zones its) = ReturnErr err ->
  resolveSpotPrices e region zones its
  = (trace (getSpotPriceAvgsFromPrometheus e region zones its)
     ++ [EvDescribeSpotPriceHistory region (spotHistoryInput its)],
     outcome (getCurrentSpotPrices e region zones its)).
Proof.
  intros Herr. unfold resolveSpotPrices, tryPrometheus.
  destruct (prometheus e) as [api|] eqn:Ep.
  - destruct (getSpotPriceAvgsFromPrometheus e region zones its) as [t o].
    cbn in Herr; subst o.
    rewrite (bind_Return _ _ None) by reflexivity.
    cbn [trace outcome fst snd]. rewrite getCurrentSpotPrices_trace. reflexivity.
  - unfold getSpotPriceAvgsFromPrometheus in Herr. rewrite Ep in Herr.
    destruct its; discriminate.
Qed.

(** Without a metrics backend the averages are those of the direct path. *)
Lemma resolveSpotPrices_nil e region zones its :
  prometheus e = None ->
  resolveSpotPrices e region zones its = getCurrentSpotPrices e region zones its.
Proof.
  intros Ep. unfold resolveSpotPrices, tryPrometheus. rewrite Ep.
  rewrite (bind_Return _ _ None) by reflexivity.
  cbn. symmetry; apply run_eta.
Qed.

(** When the metrics attempt returns averages, they are the ones used, and
    the direct API is not called. *)
Lemma resolveSpotPrices_parsed e region zones its m :
  is_Some (prometheus e) ->
  outcome (getSpotPriceAvgsFromPrometheus e region zones its) = Return m ->
  resolveSpotPrices e region zones its
  = (trace (getSpotPriceAvgsFromPrometheus e region zones its), Return m).
Proof.
  intros [api Ep] Hm. unfold resolveSpotPrices, tryPrometheus. rewrite Ep.
  destruct (getSpotPriceAvgsFromPrometheus e region zones its) as [t o].
  cbn in Hm; subst o. cbn. rewrite app_nil_r. reflexivity.
Qed.

(** [findVmsWithCpuUnits], once its catalog loop and its zones are known. *)
Lemma findVmsWithCpuUnits_phases e region zones cpuUnits vms zs :
  outcome (catalogLoop e region cpuUnits []) = Return vms ->
  outcome (resolveZones e region zones) = Return zs ->
  findVmsWithCpuUnits e region zones cpuUnits
  = (trace (catalogLoop e region cpuUnits [])
     ++ trace (resolveZones e region zones)
     ++ trace (priceVms e region zs vms),
     outcome (priceVms e region zs vms)).
Proof.
  intros Hc Hz. unfold findVmsWithCpuUnits.
  rewrite (bind_Return _ _ _ Hc). rewrite (bind_Return _ _ _ Hz).
  reflexivity.
Qed.

Lemma priceVms_trace e region zones vms :
  trace (priceVms e region zones vms)
  = trace (resolveSpotPrices e region zones (map Type_ vms)).
Proof.
  unfold priceVms.
  destruct (resolveSpotPrices e region zones (map Type_ vms)) as [t [m|err|]];
    cbn; [apply app_nil_r|reflexivity..].
Qed.

End RegistryLemmas.

(** ** How the metrics backend is queried *)

(** C10 as stated fails: with a backend that is down, the query for
    [m5.large] is the only one made, so [c5.xlarge] is never queried, and the
    query that is made has no deadline. *)
Lemma prometheus_queries_not_concurrent :
  let its := ["m5.large"; "c5.xlarge"] in
  let r := getSpotPriceAvgsFromPrometheus
             (Fixture.registry (Fixture.ec2With (Ok Fixture.azs) (Ok []))
                (Some Fixture.promDown))
             "eu-west-1" Fixture.twoZones its in
  trace r
  = [EvPromQuery Background
       (promQuery "eu-west-1" "m5.large" "eu-west-1a|eu-west-1c") 1540000000]
  /\ ~ (forall it, In it its ->
          exists ctx ts,
            In (EvPromQuery ctx
                  (promQuery "eu-west-1" it "eu-west-1a|eu-west-1c") ts)
               (trace r))
  /\ ~ (exists ctx q ts, In (EvPromQuery ctx q ts) (trace r)
                         /\ hasDeadline ctx = true).
Proof.
  intros its r.
  assert (trace r
          = [EvPromQuery Background
               (promQuery "eu-west-1" "m5.large" "eu-west-1a|eu-west-1c")
               1540000000]) as Ht by (vm_compute; reflexivity).
  split; [exact Ht|]. rewrite Ht. split.
  - intros Hall.
    destruct (Hall "c5.xlarge") as (ctx & ts & [Heq|[]]);
      [right; left; reflexivity|].
    vm_compute in Heq. discriminate Heq.
  - intros (ctx & q & ts & [Heq|[]] & Hd).
    injection Heq as <- _ _. discriminate Hd.
Qed.

(** ** The direct path: [getCurrentSpotPrices] *)

Section DirectLemmas.
Context `{GoRuntime}.

Lemma noEmpty_empty : noEmpty ∅.
Proof. intros vmType prices Hl. rewrite lookup_empty in Hl. discriminate. Qed.

Lemma noEmpty_insert (spotPrices : gmap string SpotPrices) it prices sample :
  noEmpty spotPrices -> noEmpty (<[it := prices ++ [sample]]> spotPrices).
Proof.
  intros Hne vmType l Hl.
  destruct (decide (it = vmType)) as [<-|Hd].
  - rewrite lookup_insert_eq in Hl. injection Hl as <-.
    intros Happ. apply app_eq_nil in Happ as [_ Hnil]. discriminate Hnil.
  - rewrite lookup_insert_ne in Hl by exact Hd. eapply Hne; eauto.
Qed.

(** The loop over the zones for a record with its zone and its type. *)
Lemma zoneLoop_full zones priceEntry spotPrice az it :
  ec2.AvailabilityZone_ priceEntry = Some az ->
  ec2.InstanceType priceEntry = Some it ->
  forall spotPrices,
  exists spotPrices',
    zoneLoop zones priceEntry spotPrice spotPrices = Return spotPrices'
    /\ (forall vmType,
          default [] (spotPrices' !! vmType)
          = default [] (spotPrices !! vmType)
            ++ entrySamples zones priceEntry spotPrice vmType)
    /\ (noEmpty spotPrices -> noEmpty spotPrices').
Proof.
  intros Haz Hit. unfold entrySamples. rewrite Haz, Hit.
  induction zones as [|value rest IH]; intros spotPrices.
  - exists spotPrices. cbn. split; [reflexivity|]. split; [|auto].
    intros vmType. destruct (String.eqb it vmType); rewrite app_nil_r; reflexivity.
  - cbn [zoneLoop]. rewrite Haz, Hit. cbn [deref obind].
    destruct (String.eqb value az) eqn:Ev.
    + destruct (IH (<[it := default [] (spotPrices !! it)
                             ++ [{| AZ := az; Price := spotPrice |}]]> spotPrices))
        as (sp' & Hl & Hs & Hne).
      exists sp'. split; [exact Hl|]. split.
      * intros vmType. rewrite Hs. cbn [flat_map]. rewrite Ev.
        destruct (String.eqb it vmType) eqn:Et.
        -- apply String.eqb_eq in Et. subst vmType.
           rewrite lookup_insert_eq. cbn. rewrite <- app_assoc. reflexivity.
        -- apply String.eqb_neq in Et.
           rewrite lookup_insert_ne by exact Et. rewrite !app_nil_r. reflexivity.
      * intros Hne0. apply Hne, noEmpty_insert, Hne0.
    + destruct (IH spotPrices) as (sp' & Hl & Hs & Hne).
      exists sp'. split; [exact Hl|]. split; [|exact Hne].
      intros vmType. rewrite Hs. cbn [flat_map]. rewrite Ev. reflexivity.
Qed.

(** The loop over the zones for a record with its zone and a nil type: it
    panics at the first requested zone equal to the record's. *)
Lemma zoneLoop_nil_type zones priceEntry spotPrice az :
  ec2.AvailabilityZone_ priceEntry = Some az ->
  ec2.InstanceType priceEntry = None ->
  forall spotPrices,
    zoneLoop zones priceEntry spotPrice spotPrices
    = if existsb (fun value => String.eqb value az) zones then Panic
      else Return spotPrices.
Proof.
  intros Haz Hit. induction zones as [|value rest IH]; intros spotPrices;
    [reflexivity|].
  cbn [zoneLoop existsb]. rewrite Haz, Hit. cbn [deref obind].
  destruct (String.eqb value az); [reflexivity|]. apply IH.
Qed.

(** One record of the history: the loop over the zones panics exactly on the
    records that [entryNil] tells, and otherwise adds the samples of the
    record. *)
Lemma zoneLoop_entry zones priceEntry spotPrice spotPrices :
  if entryNil zones priceEntry then
    zoneLoop zones priceEntry spotPrice spotPrices = Panic
  else
    exists spotPrices',
      zoneLoop zones priceEntry spotPrice spotPrices = Return spotPrices'
      /\ (forall vmType,
            default [] (spotPrices' !! vmType)
            = default [] (spotPrices !! vmType)
              ++ entrySamples zones priceEntry spotPrice vmType)
      /\ (noEmpty spotPrices -> noEmpty spotPrices').
Proof.
  destruct zones as [|value rest].
  - cbn. exists spotPrices. split; [reflexivity|]. split; [|auto].
    intros vmType. unfold entrySamples.
    destruct (ec2.InstanceType priceEntry), (ec2.AvailabilityZone_ priceEntry);
      try destruct (String.eqb _ vmType); rewrite app_nil_r; reflexivity.
  - unfold entryNil.
    destruct (ec2.AvailabilityZone_ priceEntry) as [az|] eqn:Haz.
    + destruct (ec2.InstanceType priceEntry) as [it|] eqn:Hit.
      * rewrite andb_false_r.
        exact (zoneLoop_full (value :: rest) priceEntry spotPrice az it
                 Haz Hit spotPrices).
      * rewrite andb_true_r.
        rewrite (zoneLoop_nil_type (value :: rest) priceEntry spotPrice az
                   Haz Hit).
        destruct (existsb _ (value :: rest)); [reflexivity|].
        exists spotPrices. split; [reflexivity|]. split; [|auto].
        intros vmType. unfold entrySamples. rewrite Hit, app_nil_r. reflexivity.
    + cbn [zoneLoop]. rewrite Haz. reflexivity.
Qed.

(** The loop over the history stops at the first failure that [firstFailure]
    tells; without one, every instance type holds the samples that [samples]
    lists, after those it held before. *)
Lemma historyLoop_firstFailure zones history :
  forall spotPrices0,
    match firstFailure zones history with
    | Some (ParseError err) =>
      historyLoop zones history spotPrices0 = ReturnErr err
    | Some NilPointer => historyLoop zones history spotPrices0 = Panic
    | None =>
      exists spotPrices,
        historyLoop zones history spotPrices0 = Return spotPrices
        /\ (forall vmType,
              default [] (spotPrices !! vmType)
              = default [] (spotPrices0 !! vmType)
                ++ samples zones history vmType)
        /\ (noEmpty spotPrices0 -> noEmpty spotPrices)
    end.
Proof.
  induction history as [|priceEntry rest IH]; intros sp0.
  - cbn. exists sp0. split; [reflexivity|]. split; [|auto].
    intros vmType. rewrite app_nil_r. reflexivity.
  - cbn [firstFailure historyLoop].
    destruct (ec2.SpotPrice_ priceEntry) as [s|] eqn:Hs; [|reflexivity].
    cbn [deref obind].
    destruct (ParseFloat s 32) as [spotPrice|err] eqn:Hp; [|reflexivity].
    pose proof (zoneLoop_entry zones priceEntry spotPrice sp0) as Hz.
    destruct (entryNil zones priceEntry).
    + rewrite Hz. reflexivity.
    + destruct Hz as (sp1 & -> & Hs1 & Hne1). cbn [obind].
      specialize (IH sp1).
      destruct (firstFailure zones rest) as [[err|]|]; try exact IH.
      destruct IH as (sp & Hl & Hs2 & Hne2).
      exists sp. split; [exact Hl|]. split.
      * intros vmType. rewrite Hs2, Hs1, <- app_assoc. f_equal.
        unfold samples. cbn [flat_map]. rewrite Hs, Hp. reflexivity.
      * auto.
Qed.

(** Without a failure every record has a price that parses. *)
Lemma firstFailure_None_parsed zones history :
  firstFailure zones history = None ->
  Forall (fun priceEntry =>
            exists s spotPrice,
              ec2.SpotPrice_ priceEntry = Some s
              /\ ParseFloat s 32 = Ok spotPrice)
    history.
Proof.
  induction history as [|priceEntry rest IH]; intros Hf; [constructor|].
  cbn in Hf.
  destruct (ec2.SpotPrice_ priceEntry) as [s|] eqn:Hs; [|discriminate].
  destruct (ParseFloat s 32) as [spotPrice|err] eqn:Hp; [|discriminate].
  destruct (entryNil zones priceEntry); [discriminate|].
  constructor; eauto.
Qed.

(** The loop over the collected samples: an average for the instance types
    that hold as many samples as there are zones, nothing for the others. *)
Lemma avgLoop_lookup zones (spotPrices : gmap string SpotPrices) vmType :
  avgLoop zones spotPrices !! vmType
  = match spotPrices !! vmType with
    | Some prices =>
      if (length prices =? length zones)%nat then Some (zoneAvg zones prices)
      else None
    | None => None
    end.
Proof.
  unfold avgLoop.
  apply (map_fold_weak_ind
           (fun (acc : gmap string float) (m : gmap string SpotPrices) =>
              acc !! vmType
              = match m !! vmType with
                | Some prices =>
                  if (length prices =? length zones)%nat
                  then Some (zoneAvg zones prices) else None
                | None => None
                end)).
  - rewrite !lookup_empty. reflexivity.
  - intros k prices m acc Hk IH. cbn beta.
    destruct (decide (k = vmType)) as [->|Hd].
    + rewrite (lookup_insert_eq m).
      destruct (length prices =? length zones)%nat; cbn.
      * apply lookup_insert_eq.
      * rewrite IH, Hk. reflexivity.
    + rewrite (lookup_insert_ne m) by exact Hd.
      destruct (length prices =? length zones)%nat; cbn.
      * rewrite lookup_insert_ne by exact Hd. exact IH.
      * exact IH.
Qed.

(** The outcome of the direct path, from the answer of EC2. *)
Lemma getCurrentSpotPrices_outcome e region zones its :
  outcome (getCurrentSpotPrices e region zones its)
  = match ec2.DescribeSpotPriceHistory (session e) region (spotHistoryInput its) with
    | Err err => ReturnErr err
    | Ok history =>
      match historyLoop zones history ∅ with
      | Return spotPrices => Return (avgLoop zones spotPrices)
      | ReturnErr err => ReturnErr err
      | Panic => Panic
      end
    end.
Proof.
  unfold getCurrentSpotPrices, call.
  destruct (ec2.DescribeSpotPriceHistory _ _ _) as [history|err]; cbn;
    [|reflexivity].
  destruct (historyLoop zones history ∅); reflexivity.
Qed.

(** What the direct path returns, type by type. *)
Lemma getCurrentSpotPrices_Return e region zones its m :
  outcome (getCurrentSpotPrices e region zones its) = Return m ->
  exists history,
    ec2.DescribeSpotPriceHistory (session e) region (spotHistoryInput its)
    = Ok history
    /\ firstFailure zones history = None
    /\ forall vmType,
         m !! vmType
         = match samples zones history vmType with
           | [] => None
           | prices =>
             if (length prices =? length zones)%nat
             then Some (zoneAvg zones prices) else None
           end.
Proof.
  rewrite getCurrentSpotPrices_outcome.
  destruct (ec2.DescribeSpotPriceHistory _ _ _) as [history|err]; [|discriminate].
  pose proof (historyLoop_firstFailure zones history ∅) as Hl.
  destruct (firstFailure zones history) as [[err|]|] eqn:Ef;
    [rewrite Hl; discriminate|rewrite Hl; discriminate|].
  destruct Hl as (sp & -> & Hs & Hne).
  intros Hm. injection Hm as <-. exists history. split; [reflexivity|].
  split; [exact Ef|].
  intros vmType. rewrite avgLoop_lookup.
  specialize (Hs vmType). rewrite lookup_empty in Hs. cbn in Hs.
  specialize (Hne noEmpty_empty).
  destruct (sp !! vmType) as [prices|] eqn:Esp; cbn in Hs.
  - rewrite <- Hs. destruct prices; [|reflexivity].
    destruct (Hne _ _ Esp); reflexivity.
  - rewrite <- Hs. reflexivity.
Qed.

(** The direct path returns when EC2 answers with a history without failure. *)
Lemma getCurrentSpotPrices_Ok e region zones its history :
  ec2.DescribeSpotPriceHistory (session e) region (spotHistoryInput its)
  = Ok history ->
  outcome (getCurrentSpotPrices e region zones its)
  = match firstFailure zones history with
    | Some (ParseError err) => ReturnErr err
    | Some NilPointer => Panic
    | None =>
      match historyLoop zones history ∅ with
      | Return spotPrices => Return (avgLoop zones spotPrices)
      | ReturnErr err => ReturnErr err
      | Panic => Panic
      end
    end.
Proof.
  intros Hh. rewrite getCurrentSpotPrices_outcome, Hh.
  pose proof (historyLoop_firstFailure zones history ∅) as Hl.
  destruct (firstFailure zones history) as [[err|]|]; try rewrite Hl; reflexivity.
Qed.

(** The direct path fails when the call to EC2 fails. *)
Lemma getCurrentSpotPrices_api_Err e region zones its err :
  ec2.DescribeSpotPriceHistory (session e) region (spotHistoryInput its) = Err err ->
  outcome (getCurrentSpotPrices e region zones its) = ReturnErr err.
Proof. unfold getCurrentSpotPrices, call. intros ->. reflexivity. Qed.

End DirectLemmas.

(** ** One record per instance type and zone *)

Section UniqueRecords.
Context `{GoRuntime}.

Lemma entrySamples_no_zones priceEntry spotPrice vmType :
  entrySamples [] priceEntry spotPrice vmType = [].
Proof.
  unfold entrySamples.
  destruct (ec2.InstanceType priceEntry), (ec2.AvailabilityZone_ priceEntry);
    try destruct (String.eqb _ vmType); reflexivity.
Qed.

Lemma samples_no_zones history vmType : samples [] history vmType = [].
Proof.
  unfold samples. induction history as [|priceEntry rest IH]; [reflexivity|].
  cbn [flat_map]. rewrite IH.
  destruct (ec2.SpotPrice_ priceEntry) as [s|]; [|reflexivity].
  destruct (ParseFloat s 32); [|reflexivity].
  rewrite entrySamples_no_zones. reflexivity.
Qed.

(** One more zone adds the records of that zone. *)
Lemma samples_cons_zone_length zone zones history vmType :
  Forall (fun priceEntry =>
            exists s spotPrice,
              ec2.SpotPrice_ priceEntry = Some s
              /\ ParseFloat s 32 = Ok spotPrice)
    history ->
  length (samples (zone :: zones) history vmType)
  = length (recordsOf history vmType zone)
    + length (samples zones history vmType).
Proof.
  unfold samples, recordsOf.
  induction 1 as [|priceEntry rest (s & spotPrice & Hs & Hp) _ IH]; [reflexivity|].
  cbn [flat_map List.filter]. rewrite !length_app, IH, Hs, Hp.
  unfold entrySamples, isRecordOf.
  destruct (ec2.InstanceType priceEntry) as [it|]; [|cbn; lia].
  destruct (ec2.AvailabilityZone_ priceEntry) as [az|]; [|cbn; lia].
  destruct (String.eqb it vmType); cbn [andb]; [|cbn; lia].
  cbn [flat_map]. rewrite (String.eqb_sym zone), length_app.
  destruct (String.eqb az zone); cbn [length]; lia.
Qed.

Lemma isRecordOf_key vmType zone priceEntry :
  isRecordOf vmType zone priceEntry = true ->
  recordKey priceEntry = (Some vmType, Some zone).
Proof.
  unfold isRecordOf, recordKey.
  destruct (ec2.InstanceType priceEntry) as [it|]; [|discriminate].
  destruct (ec2.AvailabilityZone_ priceEntry) as [az|]; [|discriminate].
  intros Hm. apply andb_prop in Hm as [Ht Hz].
  apply String.eqb_eq in Ht, Hz. subst. reflexivity.
Qed.

Lemma hasSample_key history vmType zone :
  hasSample history vmType zone = true ->
  In (Some vmType, Some zone) (map recordKey history).
Proof.
  unfold hasSample. intros Hs.
  apply existsb_exists in Hs as (priceEntry & Hin & Hm).
  apply in_map_iff. exists priceEntry.
  split; [apply isRecordOf_key, Hm|exact Hin].
Qed.

(** With one record per type and zone at most, a zone has one record of the
    type or none. *)
Lemma recordsOf_unique history vmType zone :
  List.NoDup (map recordKey history) ->
  length (recordsOf history vmType zone)
  = if hasSample history vmType zone then 1 else 0.
Proof.
  unfold recordsOf.
  induction history as [|priceEntry rest IH]; intros Hnd; [reflexivity|].
  cbn [map] in Hnd. apply List.NoDup_cons_iff in Hnd as [Hnin Hnd].
  specialize (IH Hnd). cbn [List.filter hasSample existsb].
  fold (hasSample rest vmType zone).
  destruct (isRecordOf vmType zone priceEntry) eqn:Em;
    cbn [orb length]; [|exact IH].
  rewrite IH.
  destruct (hasSample rest vmType zone) eqn:Es; [|reflexivity].
  exfalso. apply Hnin. rewrite (isRecordOf_key _ _ _ Em).
  apply hasSample_key, Es.
Qed.

(** The samples of a type are as many as the requested zones that have a
    record of it. *)
Lemma samples_length_unique zones history vmType :
  Forall (fun priceEntry =>
            exists s spotPrice,
              ec2.SpotPrice_ priceEntry = Some s
              /\ ParseFloat s 32 = Ok spotPrice)
    history ->
  List.NoDup (map recordKey history) ->
  length (samples zones history vmType)
  = length (List.filter (hasSample history vmType) zones).
Proof.
  intros Hp Hnd. induction zones as [|zone zones IH].
  - rewrite samples_no_zones. reflexivity.
  - rewrite samples_cons_zone_length by exact Hp.
    rewrite recordsOf_unique by exact Hnd. rewrite IH. cbn [List.filter].
    destruct (hasSample history vmType zone); reflexivity.
Qed.

Lemma filter_length_all {A} (f : A -> bool) (l : list A) :
  length (List.filter f l) = length l <-> forall x, In x l -> f x = true.
Proof.
  induction l as [|a l IH]; cbn [List.filter length].
  - split; [intros _ x []|reflexivity].
  - pose proof (List.filter_length_le f l) as Hle.
    destruct (f a) eqn:Ea; cbn [length].
    + split.
      * intros Hl x [<-|Hx]; [exact Ea|].
        apply IH; [lia|exact Hx].
      * intros Hall. f_equal. apply IH. intros x Hx. apply Hall. right; exact Hx.
    + split; [lia|].
      intros Hall. rewrite (Hall a) in Ea by (left; reflexivity). discriminate.
Qed.

(** X11.  When the history holds at most one record per instance type and
    zone, the direct path gives a type an average exactly when zones are
    requested and every one of them has a record of the type. *)
Lemma averaged_iff_every_zone_unique e region zones its m vmType history :
  ec2.DescribeSpotPriceHistory (session e) region (spotHistoryInput its)
  = Ok history ->
  List.NoDup (map recordKey history) ->
  outcome (getCurrentSpotPrices e region zones its) = Return m ->
  is_Some (m !! vmType)
  <-> zones <> []
      /\ forall zone, In zone zones -> hasSample history vmType zone = true.
Proof.
  intros Hh Hnd Hm.
  destruct (getCurrentSpotPrices_Return _ _ _ _ _ Hm) as (history' & Hh' & Hf & Hl).
  rewrite Hh in Hh'. injection Hh' as <-.
  pose proof (firstFailure_None_parsed _ _ Hf) as Hp.
  rewrite Hl. rewrite <- filter_length_all.
  rewrite <- (samples_length_unique zones history vmType Hp Hnd).
  destruct (samples zones history vmType) as [|p prices] eqn:Es.
  - split; [intros [x Hx]; discriminate|].
    intros [Hz Hlen]. destruct zones; [contradiction|discriminate].
  - cbv zeta. destruct (length (p :: prices) =? length zones)%nat eqn:El.
    + apply Nat.eqb_eq in El. split; [|intros _; eauto].
      intros _. split; [|exact El].
      intros ->. discriminate El.
    + apply Nat.eqb_neq in El. split; [intros [x Hx]; discriminate|].
      intros [_ Hlen]. contradiction.
Qed.

End UniqueRecords.

(** ** Averages of the direct path *)

(** C2, at an input where the code departs from it.  The history holds two
    records of [m5.large], both of zone [eu-west-1a], and the zones requested
    are [eu-west-1a] and [eu-west-1c].  [len(prices) != len(zones)] compares
    two with two, so [m5.large] is given an average (0.25 + 0.75) / 2
    although it has no sample of [eu-west-1c]. *)
Theorem averaged_without_every_zone :
  let e := Fixture.registry
             (Fixture.ec2With (Ok Fixture.azs) (Ok Fixture.historyTwice)) None in
  hasSample Fixture.historyTwice "m5.large" "eu-west-1c" = false
  /\ samples Fixture.twoZones Fixture.historyTwice "m5.large"
     = [ {| AZ := "eu-west-1a"; Price := 0.25%float |};
         {| AZ := "eu-west-1a"; Price := 0.75%float |} ]
  /\ exists m,
       outcome (getCurrentSpotPrices e "eu-west-1" Fixture.twoZones ["m5.large"])
       = Return m
       /\ m !! "m5.large" = Some 0.5%float.
Proof.
  intros e. split; [reflexivity|]. split; [reflexivity|].
  destruct (outcome (getCurrentSpotPrices e "eu-west-1" Fixture.twoZones
                       ["m5.large"])) as [m|err|] eqn:E;
    try (vm_compute in E; discriminate E).
  exists m. split; [reflexivity|].
  destruct (getCurrentSpotPrices_Return _ _ _ _ _ E) as (history & Hh & _ & Hm).
  injection Hh as <-. rewrite Hm. reflexivity.
Qed.

(** ** What a resolved spot price is *)

Lemma promAnswer_Return `{GoRuntime} (api : v1.API) region zones it v :
  promAnswer api region zones it = Return v ->
  exists s r,
    api Background (promQuery region it (String.concat "|" zones)) time_Now
    = Ok (model.Vector (s :: r))
    /\ ParseFloat (SampleValue_String (model.Value s)) 64 = Ok v.
Proof.
  unfold promAnswer.
  destruct (api Background _ time_Now) as [result|err]; [|discriminate].
  destruct (String.eqb _ _); [discriminate|].
  destruct result as [[|s r]|rendering]; try discriminate.
  destruct (ParseFloat _ 64) as [v'|err] eqn:Ep; [|discriminate].
  intros Hv. injection Hv as <-. eauto.
Qed.

(** C4 as stated fails on the direct path: the history is asked from the
    current instant on, so no request reaches back in time, and [c5.xlarge],
    which has a record in one of the two zones, is given no price at all. *)
Lemma direct_path_has_no_24h_window :
  let e := Fixture.registry
             (Fixture.ec2With (Ok Fixture.azs) (Ok Fixture.history)) None in
  let r := resolveSpotPrices e "eu-west-1" Fixture.twoZones
             ["m5.large"; "c5.xlarge"] in
  trace r
  = [EvDescribeSpotPriceHistory "eu-west-1"
       {| ec2.StartTime := Some time_Now; ec2.EndTime := None;
          ec2.ProductDescriptions := ["Linux/UNIX"];
          ec2.InstanceTypes := ["m5.large"; "c5.xlarge"] |}]
  /\ ~ (exists region input start,
          In (EvDescribeSpotPriceHistory region input) (trace r)
          /\ ec2.StartTime input = Some start /\ (start < time_Now)%Z)
  /\ exists m,
       outcome r = Return m
       /\ m !! "m5.large" = Some 0.5%float
       /\ m !! "c5.xlarge" = None.
Proof.
  intros e r.
  assert (trace r
          = [EvDescribeSpotPriceHistory "eu-west-1"
               {| ec2.StartTime := Some time_Now; ec2.EndTime := None;
                  ec2.ProductDescriptions := ["Linux/UNIX"];
                  ec2.InstanceTypes := ["m5.large"; "c5.xlarge"] |}]) as Ht
    by reflexivity.
  split; [exact Ht|]. rewrite Ht. split.
  - intros (region & input & start & [Heq|[]] & Hs & Hlt).
    injection Heq as <- <-. cbn in Hs, Hlt. injection Hs as <-. lia.
  - destruct (outcome r) as [m|err|] eqn:E; try (vm_compute in E; discriminate E).
    exists m. split; [reflexivity|].
    subst r. rewrite resolveSpotPrices_nil in E by reflexivity.
    destruct (getCurrentSpotPrices_Return _ _ _ _ _ E) as (history & Hh & _ & Hm).
    injection Hh as <-. rewrite !Hm. split; reflexivity.
Qed.

(** ** The catalog loop and the returned machines *)

Section CatalogLemmas.
Context `{GoRuntime}.

(** The catalog loop appends, bucket after bucket, what the catalog gives for
    the bucket, each machine with the initial spot price. *)
Lemma catalogLoop_Return e region cpuUnits :
  forall vms0 vms,
    outcome (catalogLoop e region cpuUnits vms0) = Return vms ->
    exists added,
      vms = vms0 ++ map newVm added
      /\ forall ec2vm, In ec2vm added ->
           exists cpu ec2Vms,
             In cpu cpuUnits
             /\ pi.GetVmsWithCpu (productInfo e) region
                  (pi.Cpu (productInfo e)) cpu = Ok ec2Vms
             /\ In ec2vm ec2Vms.
Proof.
  induction cpuUnits as [|cpu rest IH]; intros vms0 vms Hr.
  - cbn in Hr. injection Hr as <-. exists []. cbn. rewrite app_nil_r.
    split; [reflexivity|intros ? []].
  - cbn [catalogLoop] in Hr.
    apply bind_Return_inv in Hr as (ec2Vms & Hcall & Hr).
    rewrite call_outcome in Hcall.
    destruct (pi.GetVmsWithCpu _ _ _ cpu) as [l|err] eqn:Eg; [|discriminate].
    injection Hcall as ->.
    destruct (IH _ _ Hr) as (added & -> & Hadded).
    exists (ec2Vms ++ added). split.
    + rewrite map_app, app_assoc. reflexivity.
    + intros ec2vm Hin. apply in_app_iff in Hin as [Hin|Hin].
      * exists cpu, ec2Vms. auto using in_eq.
      * destruct (Hadded _ Hin) as (cpu' & l' & Hc & Hg & Hl).
        exists cpu', l'. auto using in_cons.
Qed.

(** The catalog loop makes no pricing call. *)
Lemma catalogLoop_no_pricing e region cpuUnits :
  forall vms0,
    Forall (fun ev => isPricingEvent ev = false)
      (trace (catalogLoop e region cpuUnits vms0)).
Proof.
  induction cpuUnits as [|cpu rest IH]; intros vms0; [constructor|].
  cbn [catalogLoop]. unfold call.
  destruct (pi.GetVmsWithCpu _ _ _ cpu) as [l|err]; cbn.
  - specialize (IH (vms0 ++ map newVm l)).
    destruct (catalogLoop e region rest (vms0 ++ map newVm l)) as [t o].
    cbn in *. constructor; [reflexivity|exact IH].
  - constructor; [reflexivity|constructor].
Qed.

Lemma setAvgPrice_Type avgSpotPrices vm :
  Type_ (setAvgPrice avgSpotPrices vm) = Type_ vm.
Proof. unfold setAvgPrice. destruct (_ !! _); reflexivity. Qed.

Lemma setAvgPrice_Cpus avgSpotPrices vm :
  Cpus (setAvgPrice avgSpotPrices vm) = Cpus vm.
Proof. unfold setAvgPrice. destruct (_ !! _); reflexivity. Qed.

(** A call that returns machines went through the three parts of
    [findVmsWithCpuUnits]. *)
Lemma findVmsWithCpuUnits_Return e region zones cpuUnits vms :
  outcome (findVmsWithCpuUnits e region zones cpuUnits) = Return vms ->
  exists vms0 zs avgSpotPrices,
    outcome (catalogLoop e region cpuUnits []) = Return vms0
    /\ outcome (resolveZones e region zones) = Return zs
    /\ outcome (resolveSpotPrices e region zs (map Type_ vms0))
       = Return avgSpotPrices
    /\ vms = map (setAvgPrice avgSpotPrices) vms0.
Proof.
  unfold findVmsWithCpuUnits. intros Hr.
  apply bind_Return_inv in Hr as (vms0 & Hc & Hr).
  apply bind_Return_inv in Hr as (zs & Hz & Hr).
  unfold priceVms in Hr.
  apply bind_Return_inv in Hr as (prices & Hp & Hr).
  cbn in Hr. injection Hr as <-.
  exists vms0, zs, prices. auto.
Qed.

End CatalogLemmas.

(** ** Instance types without a resolved spot price *)

(** C3, as the code has it.  A machine returned to the caller whose type is
    in the averages of neither strategy keeps the spot price it was built
    with, the number 99. *)
Theorem unresolved_spot_price_is_99 `{GoRuntime}
    (e : Ec2VmRegistry) (region : string) (zones : list string)
    (cpuUnits : list float) (vms : list VirtualMachine) :
  outcome (findVmsWithCpuUnits e region zones cpuUnits) = Return vms ->
  exists zs avgSpotPrices,
    outcome (resolveZones e region zones) = Return zs
    /\ outcome (resolveSpotPrices e region zs (map Type_ vms))
       = Return avgSpotPrices
    /\ forall vm, In vm vms ->
         avgSpotPrices !! Type_ vm = None -> AvgPrice vm = 99%float.
Proof.
  intros Hr.
  destruct (findVmsWithCpuUnits_Return _ _ _ _ _ Hr)
    as (vms0 & zs & prices & Hc & Hz & Hp & ->).
  exists zs, prices. split; [exact Hz|]. split.
  - rewrite map_map.
    rewrite (map_ext _ Type_) by (intros; apply setAvgPrice_Type). exact Hp.
  - intros vm Hin Hnone.
    apply in_map_iff in Hin as (vm0 & <- & Hin0).
    rewrite setAvgPrice_Type in Hnone.
    unfold setAvgPrice. rewrite Hnone.
    destruct (catalogLoop_Return _ _ _ _ _ Hc) as (added & -> & _).
    cbn in Hin0. apply in_map_iff in Hin0 as (ec2vm & <- & _). reflexivity.
Qed.

(** C3 at work: [c5.xlarge] has a record in one zone of two. *)
Lemma unresolved_spot_price_is_99_witness :
  let e := Fixture.registry
             (Fixture.ec2With (Ok Fixture.azs) (Ok Fixture.history)) None in
  exists vms,
    outcome (findVmsWithCpuUnits e "eu-west-1" [] [2%float; 4%float])
    = Return vms
    /\ exists zs avgSpotPrices,
         outcome (resolveZones e "eu-west-1" []) = Return zs
         /\ outcome (resolveSpotPrices e "eu-west-1" zs (map Type_ vms))
            = Return avgSpotPrices
         /\ forall vm, In vm vms ->
              avgSpotPrices !! Type_ vm = None -> AvgPrice vm = 99%float.
Proof.
  intros e.
  destruct (outcome (findVmsWithCpuUnits e "eu-west-1" [] [2%float; 4%float]))
    as [vms|err|] eqn:E; try (vm_compute in E; discriminate E).
  exists vms. split; [reflexivity|].
  exact (unresolved_spot_price_is_99 e "eu-west-1" [] [2%float; 4%float] vms E).
Defined.

(** C3 as stated fails: the machine of an unresolved type carries a number as
    its spot price.  With an empty history [m5.large] is resolved by neither
    strategy and is returned with [AvgPrice = 99]; it is the machine that is
    returned when the history prices [m5.large] at 99 in both zones. *)
Lemma unresolved_spot_price_is_a_number :
  let unresolved := Fixture.registry
                      (Fixture.ec2With (Ok Fixture.azs) (Ok [])) None in
  let resolved := Fixture.registry
                    (Fixture.ec2With (Ok Fixture.azs) (Ok Fixture.history99))
                    None in
  let vm := {| Type_ := "m5.large"; OnDemandPrice := 0.75%float;
               AvgPrice := 99%float; Cpus := 2%float; Mem := 8%float;
               Gpus := 0%float |} in
  (exists m,
     outcome (resolveSpotPrices unresolved "eu-west-1" Fixture.twoZones
                ["m5.large"]) = Return m
     /\ m !! "m5.large" = None)
  /\ (exists m,
        outcome (resolveSpotPrices resolved "eu-west-1" Fixture.twoZones
                   ["m5.large"]) = Return m
        /\ m !! "m5.large" = Some 99%float)
  /\ outcome (findVmsWithCpuUnits unresolved "eu-west-1" [] [2%float])
     = Return [vm]
  /\ outcome (findVmsWithCpuUnits resolved "eu-west-1" [] [2%float])
     = Return [vm].
Proof.
  intros unresolved resolved vm.
  split; [|split; [|split; vm_compute; reflexivity]].
  - destruct (outcome (resolveSpotPrices unresolved "eu-west-1" Fixture.twoZones
                         ["m5.large"])) as [m|err|] eqn:E;
      try (vm_compute in E; discriminate E).
    exists m. split; [reflexivity|].
    subst unresolved. rewrite resolveSpotPrices_nil in E by reflexivity.
    destruct (getCurrentSpotPrices_Return _ _ _ _ _ E) as (history & Hh & _ & Hm).
    injection Hh as <-. rewrite Hm. reflexivity.
  - destruct (outcome (resolveSpotPrices resolved "eu-west-1" Fixture.twoZones
                         ["m5.large"])) as [m|err|] eqn:E;
      try (vm_compute in E; discriminate E).
    exists m. split; [reflexivity|].
    subst resolved. rewrite resolveSpotPrices_nil in E by reflexivity.
    destruct (getCurrentSpotPrices_Return _ _ _ _ _ E) as (history & Hh & _ & Hm).
    injection Hh as <-. rewrite Hm. reflexivity.
Qed.

(** ** Zone discovery *)

(** An event that follows a run of events without pricing calls and the
    discovery of the zones has the discovery before it. *)
Lemma pricing_after_discovery (region : string) (tc t' pre post : list Event)
    (ev : Event) :
  Forall (fun ev => isPricingEvent ev = false) tc ->
  tc ++ EvDescribeAvailabilityZones region :: t' = pre ++ ev :: post ->
  isPricingEvent ev = true ->
  In (EvDescribeAvailabilityZones region) pre.
Proof.
  intros Htc. revert pre.
  induction Htc as [|c tc Hc Htc IH]; intros pre Heq Hev.
  - destruct pre as [|x pre]; cbn in Heq; injection Heq as Hx Hrest.
    + subst ev. discriminate Hev.
    + subst x. left; reflexivity.
  - destruct pre as [|x pre]; cbn in Heq; injection Heq as Hx Hrest.
    + subst ev. rewrite Hc in Hev. discriminate Hev.
    + right. apply IH; assumption.
Qed.

(** The loop over the zones of the region appends the names that
    [availableNames] lists, and panics exactly when it has none. *)
Lemma availableZones_names azs :
  forall zones,
    availableZones azs zones
    = match availableNames azs with
      | Some names => Return (zones ++ names)
      | None => Panic
      end.
Proof.
  induction azs as [|az rest IH]; intros zones.
  - cbn. rewrite app_nil_r. reflexivity.
  - cbn [availableZones availableNames].
    destruct (ec2.State az) as [state|]; cbn [deref obind]; [|reflexivity].
    destruct (String.eqb state "available").
    + destruct (ec2.ZoneName az) as [name|]; cbn [deref obind].
      * rewrite IH. destruct (availableNames rest); [|reflexivity].
        rewrite <- app_assoc. reflexivity.
      * destruct (availableNames rest); reflexivity.
    + rewrite IH. destruct (availableNames rest); reflexivity.
Qed.

(** With no zones given, the zones are asked from EC2. *)
Lemma resolveZones_nil `{GoRuntime} e region :
  resolveZones e region []
  = ([EvDescribeAvailabilityZones region],
     match ec2.DescribeAvailabilityZones (session e) region with
     | Ok azs => availableZones azs []
     | Err err => ReturnErr err
     end).
Proof.
  unfold resolveZones, call, quiet. cbn.
  destruct (ec2.DescribeAvailabilityZones _ _) as [azs|err]; cbn; [|reflexivity].
  destruct (availableZones azs []); reflexivity.
Qed.

(** The zones discovered are the available ones. *)
Lemma resolveZones_discovered `{GoRuntime} e region azs zones :
  ec2.DescribeAvailabilityZones (session e) region = Ok azs ->
  availableNames azs = Some zones ->
  resolveZones e region [] = ([EvDescribeAvailabilityZones region], Return zones).
Proof.
  intros Haz Hn. rewrite resolveZones_nil, Haz, availableZones_names, Hn.
  reflexivity.
Qed.

Lemma resolveZones_nil_Return `{GoRuntime} e region zs :
  outcome (resolveZones e region []) = Return zs ->
  exists azs,
    ec2.DescribeAvailabilityZones (session e) region = Ok azs
    /\ availableNames azs = Some zs.
Proof.
  rewrite resolveZones_nil. cbn [outcome snd].
  destruct (ec2.DescribeAvailabilityZones _ _) as [azs|err]; [|discriminate].
  rewrite availableZones_names.
  destruct (availableNames azs) as [names|] eqn:En; [|discriminate].
  intros Hr. injection Hr as <-. exists azs. split; [reflexivity|exact En].
Qed.

(** ** vCPU buckets *)

(** C8.  With the catalog lookup of the specification, which keeps the types
    whose vCPU count equals the bucket asked for, every machine that
    [findVmsWithCpuUnits] returns has the vCPU count of one of the buckets it
    was given. *)
Theorem returned_vms_match_cpu_buckets `{GoRuntime}
    (e : Ec2VmRegistry) (catalog : string -> Result (list pi.Ec2Vm))
    (region : string) (zones : list string) (cpuUnits : list float)
    (vms : list VirtualMachine) :
  (forall region attr cpu,
     pi.GetVmsWithCpu (productInfo e) region attr cpu
     = GetVmsWithCpu_spec catalog region attr cpu) ->
  outcome (findVmsWithCpuUnits e region zones cpuUnits) = Return vms ->
  forall vm, In vm vms ->
    exists cpu, In cpu cpuUnits /\ PrimFloat.eqb (Cpus vm) cpu = true.
Proof.
  intros Hspec Hr vm Hin.
  destruct (findVmsWithCpuUnits_Return _ _ _ _ _ Hr)
    as (vms0 & zs & prices & Hc & _ & _ & ->).
  apply in_map_iff in Hin as (vm0 & <- & Hin0).
  rewrite setAvgPrice_Cpus.
  destruct (catalogLoop_Return _ _ _ _ _ Hc) as (added & -> & Hadded).
  cbn in Hin0. apply in_map_iff in Hin0 as (ec2vm & <- & Hin).
  destruct (Hadded _ Hin) as (cpu & ec2Vms & Hcpu & Hg & Hl).
  exists cpu. split; [exact Hcpu|].
  rewrite Hspec in Hg. unfold GetVmsWithCpu_spec in Hg.
  destruct (catalog region) as [l|err]; [|discriminate].
  injection Hg as <-. apply filter_In in Hl as [_ Hl]. exact Hl.
Qed.

(** C8 at work: buckets 2 and 4 over the example catalog. *)
Lemma returned_vms_match_cpu_buckets_witness :
  let e := Fixture.registry
             (Fixture.ec2With (Ok Fixture.azs) (Ok Fixture.history)) None in
  exists vms,
    outcome (findVmsWithCpuUnits e "eu-west-1" [] [2%float; 4%float])
    = Return vms
    /\ length vms = 2
    /\ forall vm, In vm vms ->
         exists cpu, In cpu [2%float; 4%float]
                     /\ PrimFloat.eqb (Cpus vm) cpu = true.
Proof.
  intros e.
  destruct (outcome (findVmsWithCpuUnits e "eu-west-1" [] [2%float; 4%float]))
    as [vms|err|] eqn:E; try (vm_compute in E; discriminate E).
  exists vms. split; [reflexivity|]. split.
  - vm_compute in E. injection E as <-. reflexivity.
  - exact (returned_vms_match_cpu_buckets e Fixture.catalog "eu-west-1" []
             [2%float; 4%float] vms (fun _ _ _ => eq_refl) E).
Defined.

(** ** Failure of both strategies *)

(** C9.  When there is no metrics backend or its attempt ended in an error,
    and the direct path then fails, [findVmsWithCpuUnits] returns that error
    and no list of machines. *)
Theorem both_strategies_failing_is_an_error `{GoRuntime}
    (e : Ec2VmRegistry) (region : string) (zones : list string)
    (cpuUnits : list float) (vms : list VirtualMachine) (zs : list string)
    (err : error) :
  outcome (catalogLoop e region cpuUnits []) = Return vms ->
  outcome (resolveZones e region zones) = Return zs ->
  (prometheus e = None
   \/ exists err',
        outcome (getSpotPriceAvgsFromPrometheus e region zs (map Type_ vms))
        = ReturnErr err') ->
  outcome (getCurrentSpotPrices e region zs (map Type_ vms)) = ReturnErr err ->
  outcome (findVmsWithCpuUnits e region zones cpuUnits) = ReturnErr err.
Proof.
  intros Hc Hz Hprom Hdirect.
  rewrite (findVmsWithCpuUnits_phases _ _ _ _ _ _ Hc Hz). cbn [outcome snd].
  unfold priceVms.
  assert (outcome (resolveSpotPrices e region zs (map Type_ vms)) = ReturnErr err)
    as Hres.
  { destruct Hprom as [Hnil|[err' Herr']].
    - rewrite resolveSpotPrices_nil by exact Hnil. exact Hdirect.
    - rewrite (resolveSpotPrices_fallback _ _ _ _ _ Herr'). exact Hdirect. }
  rewrite (bind_ReturnErr _ _ _ Hres). reflexivity.
Qed.

(** C9 at work: the metrics backend is down and the spot price history is
    refused. *)
Lemma both_strategies_failing_is_an_error_witness :
  outcome (findVmsWithCpuUnits
             (Fixture.registry
                (Fixture.ec2With (Ok Fixture.azs) (Err "UnauthorizedOperation"))
                (Some Fixture.promDown))
             "eu-west-1" [] [2%float; 4%float])
  = ReturnErr "UnauthorizedOperation".
Proof.
  apply (both_strategies_failing_is_an_error _ "eu-west-1" [] [2%float; 4%float]
           (map newVm [Fixture.m5_large; Fixture.c5_xlarge])
           Fixture.twoZones).
  - vm_compute; reflexivity.
  - vm_compute; reflexivity.
  - right. exists "connection refused". vm_compute; reflexivity.
  - vm_compute; reflexivity.
Defined.

(** ** The handler of the recommendation endpoint *)

(** When the body does not bind, the handler answers 400 and returns. *)
Lemma recommendClusterSetup_bind_Err {ClusterRecommendationResp : Type}
    (r : api.RouteHandler ClusterRecommendationResp) (c : api.Context_)
    (err : error) :
  api.BindJSON r (api.Body c)
    {| api.Req := api.zeroReq; api.P := api.Param c "provider";
       api.R := api.Param c "region" |} = Err err ->
  api.recommendClusterSetup r c
  = ([api.EvJSON 400
        (api.H (<["code" := api.JString "bad_params"]>
                 (<["message" :=
                      api.JString "invalid zone(s) or network performance"]>
                   (<["cause" := api.JString err]> ∅))))],
     Return tt).
Proof.
  intros Hb. unfold api.recommendClusterSetup.
  change api.providerParam with "provider".
  change api.regionParam with "region".
  rewrite Hb. reflexivity.
Qed.

(** C6.  [recommendClusterSetup], case by case.  When the body does not bind,
    the only thing done is to answer 400, a client error, with the kind
    [bad_params] under [code] and a message under [message]: the engine is
    not called.  When the engine returns an error, the answer is 500, a
    server error, with the error as message. *)
Theorem handler_error_responses {ClusterRecommendationResp : Type}
    (r : api.RouteHandler ClusterRecommendationResp) (c : api.Context_) :
  let provider := api.Param c "provider" in
  let region := api.Param c "region" in
  let run := api.recommendClusterSetup r c in
  match api.BindJSON r (api.Body c)
          {| api.Req := api.zeroReq; api.P := provider; api.R := region |} with
  | Err err =>
    exists fields,
      run = ([api.EvJSON 400 (api.H fields)], Return tt)
      /\ api.isClientError 400 = true
      /\ fields !! "code" = Some (api.JString "bad_params")
      /\ fields !! "message"
         = Some (api.JString "invalid zone(s) or network performance")
      /\ fields !! "cause" = Some (api.JString err)
      /\ Forall (fun ev => api.isEngineCall ev = false) (trace run)
  | Ok reqWr =>
    match api.RecommendCluster r provider region (api.Req reqWr) with
    | Err err =>
      exists fields,
        run = ([api.EvRecommendCluster provider region (api.Req reqWr);
                api.EvJSON 500 (api.H fields)], Return tt)
        /\ api.isServerError 500 = true
        /\ fields !! "status" = Some (api.JNumber 500)
        /\ fields !! "message" = Some (api.JString err)
    | Ok response =>
      run = ([api.EvRecommendCluster provider region (api.Req reqWr);
              api.EvJSON 200 (api.Resp response)], Return tt)
    end
  end.
Proof.
  intros provider region run. subst run provider region.
  destruct (api.BindJSON r _ _) as [reqWr|err] eqn:Eb.
  - unfold api.recommendClusterSetup.
    change api.providerParam with "provider".
    change api.regionParam with "region".
    rewrite Eb.
    destruct (api.RecommendCluster r _ _ _) as [response|err].
    + reflexivity.
    + eexists. split; [reflexivity|].
      split; [reflexivity|]. split; reflexivity.
  - rewrite (recommendClusterSetup_bind_Err r c err Eb).
    eexists. split; [reflexivity|]. cbn [trace fst].
    split; [reflexivity|]. do 3 (split; [reflexivity|]).
    repeat constructor.
Qed.

(** The handler at work: a body that does not bind, and a request for which
    the engine finds no layout. *)
Lemma refused_body_answers_400 :
  api.statuses
    (trace (api.recommendClusterSetup
              {| api.BindJSON := Fixture.refuse;
                 api.RecommendCluster := Fixture.infeasible |}
              Fixture.ginContext))
  = [400%Z].
Proof. reflexivity. Qed.

Lemma infeasible_request_answers_500 :
  trace (api.recommendClusterSetup
           {| api.BindJSON := fun _ reqWr => Ok reqWr;
              api.RecommendCluster := Fixture.infeasible |}
           Fixture.ginContext)
  = [api.EvRecommendCluster "ec2" "eu-west-1" api.zeroReq;
     api.EvJSON 500
       (api.H (<["status" := api.JNumber 500]>
                (<["message" :=
                     api.JString "could not find any VMs to recommend"]> ∅)))].
Proof. reflexivity. Qed.

(** C7.  With the validation of the specification behind [c.BindJSON], a
    request whose minimum node count is above its maximum, or whose on-demand
    ratio is not within 0 and 1, is answered 400 with [InvalidRequest] as
    cause, and the engine, through which all pricing work goes, is not
    called. *)
Theorem bound_violation_rejected_before_engine
    {ClusterRecommendationResp : Type}
    (decode : string -> api.RequestWrapper -> Result api.RequestWrapper)
    (engine : string -> string -> api.ClusterRecommendationReq
              -> Result ClusterRecommendationResp)
    (c : api.Context_) (reqWr : api.RequestWrapper) :
  let r := {| api.BindJSON := api.BindJSON_spec decode;
              api.RecommendCluster := engine |} in
  let run := api.recommendClusterSetup r c in
  decode (api.Body c)
    {| api.Req := api.zeroReq; api.P := api.Param c "provider";
       api.R := api.Param c "region" |} = Ok reqWr ->
  ((api.MaxNodes (api.Req reqWr) < api.MinNodes (api.Req reqWr))%Z
   \/ PrimFloat.leb 0%float (api.OnDemandRatio (api.Req reqWr))
      && PrimFloat.leb (api.OnDemandRatio (api.Req reqWr)) 1%float = false) ->
  Forall (fun ev => api.isEngineCall ev = false) (trace run)
  /\ api.statuses (trace run) = [400%Z]
  /\ exists fields,
       trace run = [api.EvJSON 400 (api.H fields)]
       /\ fields !! "cause" = Some (api.JString "InvalidRequest").
Proof.
  intros r run Hdec Hbad.
  assert (api.validRequest (api.Req reqWr) = false) as Hv.
  { unfold api.validRequest. destruct Hbad as [Hlt|Hr].
    - apply Z.leb_gt in Hlt. rewrite Hlt. reflexivity.
    - rewrite <- andb_assoc, Hr. apply andb_false_r. }
  assert (api.BindJSON r (api.Body c)
            {| api.Req := api.zeroReq; api.P := api.Param c "provider";
               api.R := api.Param c "region" |} = Err "InvalidRequest") as Hb.
  { subst r. cbn [api.BindJSON]. unfold api.BindJSON_spec.
    rewrite Hdec, Hv. reflexivity. }
  subst run. rewrite (recommendClusterSetup_bind_Err r c _ Hb).
  cbn [trace fst]. split; [repeat constructor|].
  split; [reflexivity|]. eexists. split; reflexivity.
Qed.

(** C7 at work: a body that asks for between 5 and 3 nodes. *)
Lemma bound_violation_rejected_before_engine_witness :
  let r := {| api.BindJSON := api.BindJSON_spec Fixture.decode;
              api.RecommendCluster := Fixture.infeasible |} in
  let run := api.recommendClusterSetup r Fixture.ginContext in
  Forall (fun ev => api.isEngineCall ev = false) (trace run)
  /\ api.statuses (trace run) = [400%Z]
  /\ exists fields,
       trace run = [api.EvJSON 400 (api.H fields)]
       /\ fields !! "cause" = Some (api.JString "InvalidRequest").
Proof.
  apply (bound_violation_rejected_before_engine Fixture.decode
           Fixture.infeasible Fixture.ginContext
           {| api.Req := Fixture.minAboveMax; api.P := "ec2";
              api.R := "eu-west-1" |}).
  - reflexivity.
  - left. cbn. lia.
Defined.

(** * Further properties of the registry *)

(** ** The catalog loop, bucket by bucket *)

Section CatalogRuns.
Context `{GoRuntime}.

(** When every bucket has an answer, the loop looks every bucket up, in
    order, and appends the answers in that order. *)
Lemma catalogLoop_all_Ok e region cpuUnits ls :
  Forall2 (fun cpu l =>
             pi.GetVmsWithCpu (productInfo e) region (pi.Cpu (productInfo e)) cpu
             = Ok l) cpuUnits ls ->
  forall vms0,
    catalogLoop e region cpuUnits vms0
    = (map (catalogEvent e region) cpuUnits,
       Return (vms0 ++ map newVm (concat ls))).
Proof.
  induction 1 as [|cpu l rest ls' Hl _ IH]; intros vms0.
  - cbn. rewrite app_nil_r. reflexivity.
  - cbn [catalogLoop]. unfold call. rewrite Hl. cbn.
    rewrite IH. cbn. rewrite map_app, app_assoc. reflexivity.
Qed.

(** The first bucket without an answer ends the loop with its error. *)
Lemma catalogLoop_first_Err e region pre cpu post ls err :
  Forall2 (fun cpu l =>
             pi.GetVmsWithCpu (productInfo e) region (pi.Cpu (productInfo e)) cpu
             = Ok l) pre ls ->
  pi.GetVmsWithCpu (productInfo e) region (pi.Cpu (productInfo e)) cpu = Err err ->
  forall vms0,
    catalogLoop e region (pre ++ cpu :: post) vms0
    = (map (catalogEvent e region) (pre ++ [cpu]), ReturnErr err).
Proof.
  intros Hpre Herr.
  induction Hpre as [|cpu' l rest ls' Hl _ IH]; intros vms0.
  - cbn [app catalogLoop]. unfold call. rewrite Herr. reflexivity.
  - cbn [app catalogLoop]. unfold call. rewrite Hl. cbn.
    rewrite IH. reflexivity.
Qed.

(** A loop that returns had an answer for every bucket. *)
Lemma catalogLoop_Return_inv e region cpuUnits :
  forall vms0 vms,
    outcome (catalogLoop e region cpuUnits vms0) = Return vms ->
    exists ls,
      Forall2 (fun cpu l =>
                 pi.GetVmsWithCpu (productInfo e) region
                   (pi.Cpu (productInfo e)) cpu = Ok l) cpuUnits ls
      /\ vms = vms0 ++ map newVm (concat ls).
Proof.
  induction cpuUnits as [|cpu rest IH]; intros vms0 vms Hr.
  - cbn in Hr. injection Hr as <-. exists []. split; [constructor|].
    cbn. rewrite app_nil_r. reflexivity.
  - cbn [catalogLoop] in Hr.
    apply bind_Return_inv in Hr as (ec2Vms & Hcall & Hr).
    rewrite call_outcome in Hcall.
    destruct (pi.GetVmsWithCpu _ _ _ cpu) as [l|err] eqn:Eg; [|discriminate].
    injection Hcall as ->.
    destruct (IH _ _ Hr) as (ls & Hls & ->).
    exists (ec2Vms :: ls). split; [constructor; assumption|].
    cbn. rewrite map_app, app_assoc. reflexivity.
Qed.

Lemma catalogLoop_no_Panic e region cpuUnits :
  forall vms0, outcome (catalogLoop e region cpuUnits vms0) <> Panic.
Proof.
  induction cpuUnits as [|cpu rest IH]; intros vms0; [discriminate|].
  cbn [catalogLoop]. unfold call.
  destruct (pi.GetVmsWithCpu _ _ _ cpu) as [l|err]; cbn; [|discriminate].
  specialize (IH (vms0 ++ map newVm l)).
  destruct (catalogLoop e region rest (vms0 ++ map newVm l)) as [t o].
  exact IH.
Qed.

(** The loop calls the catalog and nothing else. *)
Lemma catalogLoop_only_catalog e region cpuUnits :
  forall vms0,
    Forall (fun ev => exists cpu, ev = catalogEvent e region cpu)
      (trace (catalogLoop e region cpuUnits vms0)).
Proof.
  induction cpuUnits as [|cpu rest IH]; intros vms0; [constructor|].
  cbn [catalogLoop]. unfold call.
  destruct (pi.GetVmsWithCpu _ _ _ cpu) as [l|err]; cbn.
  - specialize (IH (vms0 ++ map newVm l)).
    destruct (catalogLoop e region rest (vms0 ++ map newVm l)) as [t o].
    cbn in *. constructor; [|exact IH]. exists cpu; reflexivity.
  - constructor; [|constructor]. exists cpu; reflexivity.
Qed.

Lemma sameMachine_newVm ec2vm : sameMachine (newVm ec2vm) ec2vm.
Proof. repeat split. Qed.

Lemma sameMachine_setAvgPrice avgSpotPrices vm ec2vm :
  sameMachine vm ec2vm -> sameMachine (setAvgPrice avgSpotPrices vm) ec2vm.
Proof.
  unfold setAvgPrice. destruct (_ !! _); [|auto].
  intros (? & ? & ? & ? & ?). repeat split; assumption.
Qed.

End CatalogRuns.

(** X1.  When the catalog has no answer for one of the buckets, the lookup
    ends there: [findVmsWithCpuUnits] returns the error of the first bucket
    that fails, having looked up the buckets up to that one and made no other
    call (no later bucket, no zone discovery, no pricing). *)
Theorem catalog_failure_ends_lookup `{GoRuntime}
    (e : Ec2VmRegistry) (region : string) (zones : list string)
    (pre : list float) (cpu : float) (post : list float)
    (ls : list (list pi.Ec2Vm)) (err : error) :
  Forall2 (fun cpu l =>
             pi.GetVmsWithCpu (productInfo e) region (pi.Cpu (productInfo e)) cpu
             = Ok l) pre ls ->
  pi.GetVmsWithCpu (productInfo e) region (pi.Cpu (productInfo e)) cpu = Err err ->
  findVmsWithCpuUnits e region zones (pre ++ cpu :: post)
  = (map (fun cpu => EvGetVmsWithCpu region (pi.Cpu (productInfo e)) cpu)
       (pre ++ [cpu]),
     ReturnErr err).
Proof.
  intros Hpre Herr. unfold findVmsWithCpuUnits.
  rewrite (catalogLoop_first_Err e region pre cpu post ls err Hpre Herr).
  reflexivity.
Qed.

(** X1 at work: bucket 2 is known, bucket 4 fails, bucket 8 is not tried. *)
Lemma catalog_failure_ends_lookup_witness :
  findVmsWithCpuUnits Demo.brokenRegistry "eu-west-1" []
    ([2%float] ++ 4%float :: [8%float])
  = (map (fun cpu => EvGetVmsWithCpu "eu-west-1" "vcpu" cpu)
       ([2%float] ++ [4%float]),
     ReturnErr "ThrottlingException").
Proof.
  apply (catalog_failure_ends_lookup Demo.brokenRegistry "eu-west-1" []
           [2%float] 4%float [8%float] [[Fixture.m5_large]]).
  - repeat constructor.
  - reflexivity.
Defined.

(** X2.  The machines returned are those of the catalog, bucket after bucket
    in the order of the buckets and, within a bucket, in the order of the
    catalog: as many, with the same type, on-demand price, vCPU, memory and
    GPU values.  A bucket given twice gives its machines twice. *)
Theorem returned_vms_follow_catalog `{GoRuntime}
    (e : Ec2VmRegistry) (region : string) (zones : list string)
    (cpuUnits : list float) (vms : list VirtualMachine) :
  outcome (findVmsWithCpuUnits e region zones cpuUnits) = Return vms ->
  exists ls,
    Forall2 (fun cpu l =>
               pi.GetVmsWithCpu (productInfo e) region (pi.Cpu (productInfo e)) cpu
               = Ok l) cpuUnits ls
    /\ Forall2 sameMachine vms (concat ls).
Proof.
  intros Hr.
  destruct (findVmsWithCpuUnits_Return _ _ _ _ _ Hr)
    as (vms0 & zs & prices & Hc & _ & _ & ->).
  destruct (catalogLoop_Return_inv _ _ _ _ _ Hc) as (ls & Hls & ->).
  exists ls. split; [exact Hls|]. cbn [app]. clear Hr Hc Hls.
  induction (concat ls) as [|ec2vm l IH]; cbn; [constructor|].
  constructor; [|exact IH].
  apply sameMachine_setAvgPrice, sameMachine_newVm.
Qed.

(** X2 at work: bucket 2 asked twice. *)
Lemma returned_vms_follow_catalog_witness :
  let e := Fixture.registry
             (Fixture.ec2With (Ok Fixture.azs) (Ok Fixture.history)) None in
  exists vms ls,
    outcome (findVmsWithCpuUnits e "eu-west-1" [] [2%float; 4%float; 2%float])
    = Return vms
    /\ Forall2 (fun cpu l =>
                  pi.GetVmsWithCpu (productInfo e) "eu-west-1"
                    (pi.Cpu (productInfo e)) cpu = Ok l)
         [2%float; 4%float; 2%float] ls
    /\ Forall2 sameMachine vms (concat ls)
    /\ map Type_ vms = ["m5.large"; "c5.xlarge"; "m5.large"].
Proof.
  intros e.
  destruct (outcome (findVmsWithCpuUnits e "eu-west-1" []
                       [2%float; 4%float; 2%float])) as [vms|err|] eqn:E;
    try (vm_compute in E; discriminate E).
  destruct (returned_vms_follow_catalog e "eu-west-1" []
              [2%float; 4%float; 2%float] vms E) as (ls & Hls & Hsame).
  exists vms, ls. split; [reflexivity|]. split; [exact Hls|].
  split; [exact Hsame|].
  vm_compute in E. injection E as <-. reflexivity.
Defined.

(** X3.  Two machines of the same instance type returned by one call carry
    the same spot price. *)
Theorem same_type_same_spot_price `{GoRuntime}
    (e : Ec2VmRegistry) (region : string) (zones : list string)
    (cpuUnits : list float) (vms : list VirtualMachine)
    (vm1 vm2 : VirtualMachine) :
  outcome (findVmsWithCpuUnits e region zones cpuUnits) = Return vms ->
  In vm1 vms -> In vm2 vms -> Type_ vm1 = Type_ vm2 ->
  AvgPrice vm1 = AvgPrice vm2.
Proof.
  intros Hr H1 H2 Ht.
  destruct (findVmsWithCpuUnits_Return _ _ _ _ _ Hr)
    as (vms0 & zs & prices & Hc & _ & _ & ->).
  destruct (catalogLoop_Return _ _ _ _ _ Hc) as (added & -> & _).
  cbn [app] in H1, H2.
  apply in_map_iff in H1 as (v1 & <- & H1). apply in_map_iff in H1 as (a1 & <- & _).
  apply in_map_iff in H2 as (v2 & <- & H2). apply in_map_iff in H2 as (a2 & <- & _).
  rewrite !setAvgPrice_Type in Ht. unfold setAvgPrice. rewrite Ht.
  destruct (prices !! Type_ (newVm a2)); reflexivity.
Qed.

(** X3 at work: bucket 2 asked twice, [m5.large] comes back twice. *)
Lemma same_type_same_spot_price_witness :
  let e := Fixture.registry
             (Fixture.ec2With (Ok Fixture.azs) (Ok Fixture.history)) None in
  exists vms,
    outcome (findVmsWithCpuUnits e "eu-west-1" [] [2%float; 2%float])
    = Return vms
    /\ map Type_ vms = ["m5.large"; "m5.large"]
    /\ forall vm1 vm2,
         In vm1 vms -> In vm2 vms -> Type_ vm1 = Type_ vm2 ->
         AvgPrice vm1 = AvgPrice vm2.
Proof.
  intros e.
  destruct (outcome (findVmsWithCpuUnits e "eu-west-1" [] [2%float; 2%float]))
    as [vms|err|] eqn:E; try (vm_compute in E; discriminate E).
  exists vms. split; [reflexivity|]. split.
  - vm_compute in E. injection E as <-. reflexivity.
  - intros vm1 vm2.
    exact (same_type_same_spot_price e "eu-west-1" [] [2%float; 2%float]
             vms vm1 vm2 E).
Defined.

(** ** The calls of a lookup *)

Section TraceLemmas.
Context `{GoRuntime}.

Lemma trace_bind_cases {Ev A B} (m : Run Ev A) (k : A -> Run Ev B) :
  trace (bind m k) = trace m
  \/ exists a, outcome m = Return a /\ trace (bind m k) = trace m ++ trace (k a).
Proof.
  destruct (outcome m) as [a|err|] eqn:E.
  - right. exists a. split; [reflexivity|]. apply trace_bind_Return, E.
  - left. rewrite (bind_ReturnErr _ _ _ E). reflexivity.
  - left. rewrite (bind_Panic _ _ E). reflexivity.
Qed.

Lemma catalogLoop_trace_catalog e region cpuUnits vms0 :
  Forall (fun ev => isCatalogEvent ev = true)
    (trace (catalogLoop e region cpuUnits vms0)).
Proof.
  eapply List.Forall_impl; [|apply catalogLoop_only_catalog].
  intros ev [cpu ->]. reflexivity.
Qed.

(** Zones that are given are taken as they are, with no call. *)
Lemma resolveZones_given e region zones :
  zones <> [] -> resolveZones e region zones = ([], Return zones).
Proof. destruct zones; [contradiction|reflexivity]. Qed.

(** The metrics attempt makes metrics queries and nothing else. *)
Lemma getSpotPriceAvgsFromPrometheus_trace e region zones its :
  Forall (fun ev => isPromQueryEvent ev = true)
    (trace (getSpotPriceAvgsFromPrometheus e region zones its)).
Proof.
  unfold getSpotPriceAvgsFromPrometheus.
  destruct (prometheus e) as [api|]; [|destruct its; constructor].
  destruct (promLoop_trace api region zones its ∅) as (n & _ & -> & _).
  apply List.Forall_forall. intros ev Hev.
  apply in_map_iff in Hev as (it & <- & _). reflexivity.
Qed.

(** The calls of the pricing part: metrics queries, none without a backend,
    then at most one request for the spot price history. *)
Lemma resolveSpotPrices_trace_shape e region zones its :
  exists tq th,
    trace (resolveSpotPrices e region zones its) = tq ++ th
    /\ Forall (fun ev => isPromQueryEvent ev = true) tq
    /\ (prometheus e = None -> tq = [])
    /\ (th = [] \/ th = [EvDescribeSpotPriceHistory region (spotHistoryInput its)]).
Proof.
  pose proof (getSpotPriceAvgsFromPrometheus_trace e region zones its) as Hq.
  destruct (prometheus e) as [api|] eqn:Ep.
  - destruct (outcome (getSpotPriceAvgsFromPrometheus e region zones its))
      as [m|err|] eqn:Eg.
    + rewrite (resolveSpotPrices_parsed _ _ _ _ m) by (rewrite ?Ep; eauto).
      exists (trace (getSpotPriceAvgsFromPrometheus e region zones its)), [].
      cbn [trace fst]. rewrite app_nil_r. repeat split; auto. discriminate.
    + rewrite (resolveSpotPrices_fallback _ _ _ _ _ Eg).
      eexists _, _. cbn [trace fst]. repeat split; eauto. discriminate.
    + unfold resolveSpotPrices, tryPrometheus. rewrite Ep.
      destruct (getSpotPriceAvgsFromPrometheus e region zones its) as [t o].
      cbn in Eg. subst o. cbn. exists t, []. rewrite app_nil_r.
      repeat split; auto. discriminate.
  - rewrite resolveSpotPrices_nil by exact Ep. rewrite getCurrentSpotPrices_trace.
    exists [], [EvDescribeSpotPriceHistory region (spotHistoryInput its)].
    repeat split; auto.
Qed.

(** The calls of a lookup, part by part. *)
Lemma findVmsWithCpuUnits_trace_parts e region zones cpuUnits :
  exists tc tz tp,
    trace (findVmsWithCpuUnits e region zones cpuUnits) = tc ++ tz ++ tp
    /\ tc = trace (catalogLoop e region cpuUnits [])
    /\ (tz = [] \/ (zones = [] /\ tz = [EvDescribeAvailabilityZones region]))
    /\ (tp = []
        \/ exists vms zs,
             tp = trace (resolveSpotPrices e region zs (map Type_ vms))).
Proof.
  unfold findVmsWithCpuUnits.
  destruct (trace_bind_cases (catalogLoop e region cpuUnits [])
              (fun vms => zones0 <- resolveZones e region zones ;;
                          priceVms e region zones0 vms))
    as [Ht|(vms & _ & Ht)]; rewrite Ht.
  - exists (trace (catalogLoop e region cpuUnits [])), [], [].
    rewrite !app_nil_r. auto.
  - assert (trace (resolveZones e region zones) = []
            \/ (zones = []
                /\ trace (resolveZones e region zones)
                   = [EvDescribeAvailabilityZones region])) as Hz.
    { destruct zones; [right|left; reflexivity].
      rewrite resolveZones_nil. auto. }
    destruct (trace_bind_cases (resolveZones e region zones)
                (fun zones0 => priceVms e region zones0 vms))
      as [Ht'|(zs & _ & Ht')]; rewrite Ht'.
    + exists (trace (catalogLoop e region cpuUnits [])),
        (trace (resolveZones e region zones)), [].
      rewrite !app_nil_r. auto.
    + exists (trace (catalogLoop e region cpuUnits [])),
        (trace (resolveZones e region zones)),
        (trace (priceVms e region zs vms)).
      repeat split; auto. right. exists vms, zs. apply priceVms_trace.
Qed.

End TraceLemmas.

(** X4.  The calls of [findVmsWithCpuUnits] always come in this order: the
    catalog lookups; then at most one zone discovery, and none when zones are
    given; then the metrics queries, none when the registry has no metrics
    backend; then at most one request for the spot price history. *)
Theorem lookup_calls_in_order `{GoRuntime}
    (e : Ec2VmRegistry) (region : string) (zones : list string)
    (cpuUnits : list float) :
  exists tc tz tq th,
    trace (findVmsWithCpuUnits e region zones cpuUnits) = tc ++ tz ++ tq ++ th
    /\ Forall (fun ev => isCatalogEvent ev = true) tc
    /\ Forall (fun ev => isDiscoveryEvent ev = true) tz
    /\ length tz <= 1
    /\ (zones <> [] -> tz = [])
    /\ Forall (fun ev => isPromQueryEvent ev = true) tq
    /\ (prometheus e = None -> tq = [])
    /\ Forall (fun ev => isSpotHistoryEvent ev = true) th
    /\ length th <= 1.
Proof.
  destruct (findVmsWithCpuUnits_trace_parts e region zones cpuUnits)
    as (tc & tz & tp & Ht & -> & Hz & Hp).
  assert (exists tq th,
            tp = tq ++ th
            /\ Forall (fun ev => isPromQueryEvent ev = true) tq
            /\ (prometheus e = None -> tq = [])
            /\ Forall (fun ev => isSpotHistoryEvent ev = true) th
            /\ length th <= 1) as (tq & th & -> & Hq & Hn & Hh & Hl).
  { destruct Hp as [->|(vms & zs & ->)].
    - exists [], []. repeat split; auto.
    - destruct (resolveSpotPrices_trace_shape e region zs (map Type_ vms))
        as (tq & th & -> & Hq & Hn & Hh).
      exists tq, th. repeat split; auto.
      + destruct Hh as [->| ->]; repeat constructor.
      + destruct Hh as [->| ->]; cbn; lia. }
  exists (trace (catalogLoop e region cpuUnits [])), tz, tq, th.
  split; [exact Ht|]. split; [apply catalogLoop_trace_catalog|].
  split; [destruct Hz as [->|[_ ->]]; repeat constructor|].
  split; [destruct Hz as [->|[_ ->]]; cbn; lia|].
  split; [intros Hne; destruct Hz as [->|[Hnil _]]; [reflexivity|contradiction]|].
  auto.
Qed.

(** ** When the metrics backend answers *)

Section MetricsLemmas.
Context `{GoRuntime}.

(** When every requested type has a price, the loop queries them all and
    returns. *)
Lemma promLoop_all_priced (api : v1.API) region zones its :
  (forall it, In it its -> exists v, promAnswer api region zones it = Return v) ->
  forall acc,
  exists m,
    promLoop api region zones its acc
    = (map (queryEvent region zones) its, Return m).
Proof.
  induction its as [|it rest IH]; intros Hall acc.
  - exists acc. reflexivity.
  - rewrite promLoop_cons.
    destruct (Hall it (or_introl eq_refl)) as [v Hv]. rewrite Hv.
    destruct (IH (fun it' Hin => Hall it' (or_intror Hin)) (<[it:=v]> acc))
      as [m Hm].
    exists m. cbn. rewrite Hm. reflexivity.
Qed.

(** An answer that is a vector, or an error, never makes the loop panic. *)
Lemma promAnswer_no_Panic (api : v1.API) region zones it :
  (forall q v, api Background q time_Now = Ok v -> exists r, v = model.Vector r) ->
  promAnswer api region zones it <> Panic.
Proof.
  intros Hvec. unfold promAnswer.
  destruct (api Background _ time_Now) as [result|err] eqn:Ea; [|discriminate].
  destruct (String.eqb _ _); [discriminate|].
  destruct (Hvec _ _ Ea) as [r ->].
  destruct r as [|s r]; [discriminate|].
  destruct (ParseFloat _ 64); discriminate.
Qed.

Lemma promLoop_no_Panic (api : v1.API) region zones its :
  (forall q v, api Background q time_Now = Ok v -> exists r, v = model.Vector r) ->
  forall acc, outcome (promLoop api region zones its acc) <> Panic.
Proof.
  intros Hvec. induction its as [|it rest IH]; intros acc; [discriminate|].
  rewrite promLoop_cons.
  pose proof (promAnswer_no_Panic api region zones it Hvec) as Hnp.
  destruct (promAnswer api region zones it) as [v|err|]; [|discriminate|contradiction].
  rewrite (outcome_bind_Return _ _ tt) by reflexivity. apply IH.
Qed.

End MetricsLemmas.

(** X6.  When the metrics backend has a price for every instance type of the
    catalog's machines, [findVmsWithCpuUnits] queries it once per machine, in
    order, does not ask EC2 for the spot price history, and returns every
    machine with the price the backend gave for its type. *)
Theorem metrics_prices_every_machine `{GoRuntime}
    (e : Ec2VmRegistry) (api : v1.API) (region : string)
    (zones : list string) (cpuUnits : list float)
    (vms : list VirtualMachine) (zs : list string) :
  prometheus e = Some api ->
  outcome (catalogLoop e region cpuUnits []) = Return vms ->
  outcome (resolveZones e region zones) = Return zs ->
  (forall vm, In vm vms ->
     exists v, promAnswer api region zs (Type_ vm) = Return v) ->
  exists priced,
    findVmsWithCpuUnits e region zones cpuUnits
    = (trace (catalogLoop e region cpuUnits [])
       ++ trace (resolveZones e region zones)
       ++ map (fun vm => queryEvent region zs (Type_ vm)) vms,
       Return priced)
    /\ Forall2 (fun vm vm' =>
                  promAnswer api region zs (Type_ vm) = Return (AvgPrice vm')
                  /\ Type_ vm' = Type_ vm
                  /\ OnDemandPrice vm' = OnDemandPrice vm
                  /\ Cpus vm' = Cpus vm /\ Mem vm' = Mem vm /\ Gpus vm' = Gpus vm)
         vms priced.
Proof.
  intros Ep Hc Hz Hall.
  assert (forall it, In it (map Type_ vms) ->
            exists v, promAnswer api region zs it = Return v) as Hall'.
  { intros it Hit. apply in_map_iff in Hit as (vm & <- & Hvm). auto. }
  destruct (promLoop_all_priced api region zs (map Type_ vms) Hall' ∅)
    as [m Hm].
  assert (getSpotPriceAvgsFromPrometheus e region zs (map Type_ vms)
          = (map (queryEvent region zs) (map Type_ vms), Return m)) as Hg
    by (unfold getSpotPriceAvgsFromPrometheus; rewrite Ep; exact Hm).
  exists (map (setAvgPrice m) vms). split.
  - rewrite (findVmsWithCpuUnits_phases _ _ _ _ _ _ Hc Hz).
    unfold priceVms.
    rewrite (resolveSpotPrices_parsed _ _ _ _ m)
      by (rewrite ?Ep, ?Hg; eauto).
    rewrite Hg. cbn. rewrite app_nil_r, map_map. reflexivity.
  - assert (outcome (promLoop api region zs (map Type_ vms) ∅) = Return m) as Ho
      by (rewrite Hm; reflexivity).
    destruct (promLoop_Return_lookup _ _ _ _ _ _ Ho) as [Hin _].
    assert (forall vm, In vm vms ->
              exists v, promAnswer api region zs (Type_ vm) = Return v
                        /\ m !! Type_ vm = Some v) as Hvm.
    { intros vm Hv. apply Hin, in_map, Hv. }
    clear - Hvm. induction vms as [|vm rest IH]; cbn; [constructor|].
    constructor; [|apply IH; intros; apply Hvm; right; assumption].
    destruct (Hvm vm (or_introl eq_refl)) as (v & Hv & Hl).
    unfold setAvgPrice. rewrite Hl. cbn. repeat split. exact Hv.
Qed.

(** X6 at work: the backend prices both machines at 0.5. *)
Lemma metrics_prices_every_machine_witness :
  let e := Fixture.registry
             (Fixture.ec2With (Ok Fixture.azs) (Err "UnauthorizedOperation"))
             (Some Fixture.promUp) in
  let vms := map newVm [Fixture.m5_large; Fixture.c5_xlarge] in
  exists priced,
    findVmsWithCpuUnits e "eu-west-1" [] [2%float; 4%float]
    = (trace (catalogLoop e "eu-west-1" [2%float; 4%float] [])
       ++ trace (resolveZones e "eu-west-1" [])
       ++ map (fun vm => queryEvent "eu-west-1" Fixture.twoZones (Type_ vm)) vms,
       Return priced)
    /\ Forall2 (fun vm vm' =>
                  promAnswer Fixture.promUp "eu-west-1" Fixture.twoZones (Type_ vm)
                  = Return (AvgPrice vm')
                  /\ Type_ vm' = Type_ vm
                  /\ OnDemandPrice vm' = OnDemandPrice vm
                  /\ Cpus vm' = Cpus vm /\ Mem vm' = Mem vm /\ Gpus vm' = Gpus vm)
         vms priced.
Proof.
  intros e vms.
  apply (metrics_prices_every_machine e Fixture.promUp "eu-west-1" []
           [2%float; 4%float] vms Fixture.twoZones).
  - reflexivity.
  - vm_compute; reflexivity.
  - vm_compute; reflexivity.
  - intros vm Hvm. exists 0.5%float.
    destruct Hvm as [<-|[<-|[]]]; vm_compute; reflexivity.
Defined.

(** The backend can make the lookup panic: a scalar where a vector is
    expected. *)
Lemma scalar_answer_panics :
  outcome (findVmsWithCpuUnits
             (Fixture.registry
                (Fixture.ec2With (Ok Fixture.azs) (Ok Fixture.history))
                (Some (fun _ _ _ => Ok (model.NonVector "scalar: 0.5 @[1540000000]"))))
             "eu-west-1" [] [2%float]) = Panic.
Proof. vm_compute; reflexivity. Qed.

(** ** Edge cases of the lookup *)

(** X8.  With no bucket at all there is no machine to price.  A registry with
    a metrics backend then makes no pricing call and returns the empty list;
    a registry without one still asks EC2 for the spot price history, with an
    empty list of instance types, and fails when that request fails or the
    loop over its answer stops at a record. *)
Theorem lookup_without_buckets `{GoRuntime}
    (e : Ec2VmRegistry) (region : string) (zones zs : list string) :
  outcome (resolveZones e region zones) = Return zs ->
  (is_Some (prometheus e) ->
   findVmsWithCpuUnits e region zones []
   = (trace (resolveZones e region zones), Return []))
  /\ (prometheus e = None ->
      findVmsWithCpuUnits e region zones []
      = (trace (resolveZones e region zones)
         ++ [EvDescribeSpotPriceHistory region (spotHistoryInput [])],
         match ec2.DescribeSpotPriceHistory (session e) region
                 (spotHistoryInput []) with
         | Err err => ReturnErr err
         | Ok history =>
           match firstFailure zs history with
           | Some (ParseError err) => ReturnErr err
           | Some NilPointer => Panic
           | None => Return []
           end
         end)).
Proof.
  intros Hz.
  assert (outcome (catalogLoop e region [] []) = Return []) as Hc by reflexivity.
  rewrite (findVmsWithCpuUnits_phases e region zones [] [] zs Hc Hz).
  cbn [catalogLoop trace ret fst app]. unfold priceVms. cbn [map].
  split.
  - intros [api Ep].
    rewrite (resolveSpotPrices_parsed _ _ _ _ ∅)
      by (unfold getSpotPriceAvgsFromPrometheus; rewrite ?Ep; eauto).
    unfold getSpotPriceAvgsFromPrometheus. rewrite Ep. cbn.
    rewrite app_nil_r. reflexivity.
  - intros Ep. rewrite resolveSpotPrices_nil by exact Ep.
    rewrite (run_eta (getCurrentSpotPrices e region zs [])).
    rewrite getCurrentSpotPrices_trace, getCurrentSpotPrices_outcome.
    destruct (ec2.DescribeSpotPriceHistory _ _ _) as [history|err];
      [|reflexivity].
    pose proof (historyLoop_firstFailure zs history ∅) as Hl.
    destruct (firstFailure zs history) as [[err|]|].
    + rewrite Hl. reflexivity.
    + rewrite Hl. reflexivity.
    + destruct Hl as (sp & -> & _). reflexivity.
Qed.

(** X8 at work: no buckets, no metrics backend, and an EC2 that refuses the
    request for the history. *)
Lemma lookup_without_buckets_witness :
  findVmsWithCpuUnits
    (Fixture.registry
       (Fixture.ec2With (Ok Fixture.azs) (Err "UnauthorizedOperation")) None)
    "eu-west-1" [] []
  = ([EvDescribeAvailabilityZones "eu-west-1";
      EvDescribeSpotPriceHistory "eu-west-1" (spotHistoryInput [])],
     ReturnErr "UnauthorizedOperation").
Proof.
  exact (proj2 (lookup_without_buckets
                  (Fixture.registry
                     (Fixture.ec2With (Ok Fixture.azs)
                        (Err "UnauthorizedOperation")) None)
                  "eu-west-1" [] Fixture.twoZones eq_refl) eq_refl).
Defined.

Section EdgeLemmas.
Context `{GoRuntime}.

(** Over no zone at all the direct path prices nothing. *)
Lemma getCurrentSpotPrices_no_zones e region its m vmType :
  outcome (getCurrentSpotPrices e region [] its) = Return m ->
  m !! vmType = None.
Proof.
  intros Hm.
  destruct (getCurrentSpotPrices_Return _ _ _ _ _ Hm) as (history & _ & _ & Hl).
  rewrite Hl, samples_no_zones. reflexivity.
Qed.

Lemma availableNames_none azs :
  (forall az, In az azs -> ec2.State az <> Some "available") ->
  forall names, availableNames azs = Some names -> names = [].
Proof.
  induction azs as [|az rest IH]; intros Hall names Hn.
  - cbn in Hn. injection Hn as <-. reflexivity.
  - cbn [availableNames] in Hn.
    destruct (ec2.State az) as [state|] eqn:Es; [|discriminate].
    destruct (availableNames rest) as [names'|] eqn:En; [|discriminate].
    destruct (String.eqb state "available") eqn:Ea.
    + apply String.eqb_eq in Ea. subst state.
      destruct (Hall az (or_introl eq_refl) Es).
    + injection Hn as <-. apply IH; [|reflexivity].
      intros az' Hin. apply Hall. right; exact Hin.
Qed.

(** A registry without metrics backend never queries one. *)
Lemma no_backend_no_query e region zones cpuUnits :
  prometheus e = None ->
  Forall (fun ev => isPromQueryEvent ev = false)
    (trace (findVmsWithCpuUnits e region zones cpuUnits)).
Proof.
  intros Ep.
  destruct (findVmsWithCpuUnits_trace_parts e region zones cpuUnits)
    as (tc & tz & tp & -> & -> & Hz & Hp).
  apply Forall_app. split; [|apply Forall_app; split].
  - eapply List.Forall_impl; [|apply catalogLoop_only_catalog].
    intros ev [cpu ->]. reflexivity.
  - destruct Hz as [->|[_ ->]]; repeat constructor.
  - destruct Hp as [->|(vms & zs & ->)]; [constructor|].
    rewrite resolveSpotPrices_nil, getCurrentSpotPrices_trace by exact Ep.
    repeat constructor.
Qed.

End EdgeLemmas.

(** X9.  In a region where no zone is available, a registry without metrics
    backend that is given no zones returns every machine with the initial
    spot price 99: over an empty zone list the spot price history prices
    nothing. *)
Theorem no_available_zone_no_spot_price `{GoRuntime}
    (e : Ec2VmRegistry) (region : string) (cpuUnits : list float)
    (azs : list ec2.AvailabilityZone) (vms : list VirtualMachine) :
  prometheus e = None ->
  ec2.DescribeAvailabilityZones (session e) region = Ok azs ->
  (forall az, In az azs -> ec2.State az <> Some "available") ->
  outcome (findVmsWithCpuUnits e region [] cpuUnits) = Return vms ->
  forall vm, In vm vms -> AvgPrice vm = 99%float.
Proof.
  intros Ep Haz Hnone Hr vm Hin.
  destruct (findVmsWithCpuUnits_Return _ _ _ _ _ Hr)
    as (vms0 & zs & prices & Hc & Hz & Hp & ->).
  destruct (resolveZones_nil_Return _ _ _ Hz) as (azs' & Haz' & Hn).
  rewrite Haz in Haz'. injection Haz' as <-.
  rewrite (availableNames_none azs Hnone zs Hn) in Hp.
  rewrite resolveSpotPrices_nil in Hp by exact Ep.
  apply in_map_iff in Hin as (vm0 & <- & Hin0).
  unfold setAvgPrice.
  rewrite (getCurrentSpotPrices_no_zones _ _ _ _ (Type_ vm0) Hp).
  destruct (catalogLoop_Return _ _ _ _ _ Hc) as (added & -> & _).
  cbn in Hin0. apply in_map_iff in Hin0 as (ec2vm & <- & _). reflexivity.
Qed.

(** X9 at work: both zones of the region are down, the history is full. *)
Lemma no_available_zone_no_spot_price_witness :
  let e := Fixture.registry
             (Fixture.ec2With (Ok Demo.azsDown) (Ok Fixture.history)) None in
  exists vms,
    outcome (findVmsWithCpuUnits e "eu-west-1" [] [2%float; 4%float])
    = Return vms
    /\ length vms = 2
    /\ forall vm, In vm vms -> AvgPrice vm = 99%float.
Proof.
  intros e.
  destruct (outcome (findVmsWithCpuUnits e "eu-west-1" [] [2%float; 4%float]))
    as [vms|err|] eqn:E; try (vm_compute in E; discriminate E).
  exists vms. split; [reflexivity|]. split.
  - vm_compute in E. injection E as <-. reflexivity.
  - apply (no_available_zone_no_spot_price e "eu-west-1" [2%float; 4%float]
             Demo.azsDown vms); [reflexivity|reflexivity| |exact E].
    intros az [<-|[<-|[]]]; discriminate.
Defined.

(** The direct path at work: a price of another region's zone that does not
    parse. *)
Lemma bad_price_of_other_zone_fails_lookup :
  outcome (getCurrentSpotPrices
             (Fixture.registry
                (Fixture.ec2With (Ok Fixture.azs) (Ok Demo.historyBadPrice)) None)
             "eu-west-1" Fixture.twoZones ["m5.large"])
  = ReturnErr "strconv.ParseFloat: invalid syntax".
Proof. vm_compute; reflexivity. Qed.

(** X11 at work (the property is [averaged_iff_every_zone_unique]): the
    history has one record per type and zone; [m5.large] has a record of both
    zones, [c5.xlarge] of one. *)
Lemma averaged_iff_every_zone_unique_witness :
  let e := Fixture.registry
             (Fixture.ec2With (Ok Fixture.azs) (Ok Fixture.history)) None in
  exists m,
    outcome (getCurrentSpotPrices e "eu-west-1" Fixture.twoZones
               ["m5.large"; "c5.xlarge"]) = Return m
    /\ (is_Some (m !! "c5.xlarge")
        <-> Fixture.twoZones <> []
            /\ forall zone, In zone Fixture.twoZones ->
                 hasSample Fixture.history "c5.xlarge" zone = true).
Proof.
  intros e.
  destruct (outcome (getCurrentSpotPrices e "eu-west-1" Fixture.twoZones
                       ["m5.large"; "c5.xlarge"])) as [m|err|] eqn:E;
    try (vm_compute in E; discriminate E).
  exists m. split; [reflexivity|].
  apply (averaged_iff_every_zone_unique e "eu-west-1" Fixture.twoZones
           ["m5.large"; "c5.xlarge"] m "c5.xlarge" Fixture.history);
    [reflexivity| |exact E].
  repeat constructor; cbn; intuition discriminate.
Defined.

(** * The lookup, from the answers of its collaborators *)

Section LookupLemmas.
Context `{GoRuntime}.

Lemma in_take {A} (x : A) n (l : list A) : In x (take n l) -> In x l.
Proof.
  intros Hin. rewrite <- (firstn_skipn n l). apply in_or_app. left; exact Hin.
Qed.

(** The query of the loop is the text of [promQuery], filled in. *)
Lemma queryEvent_text region zones it :
  queryEvent region zones it
  = EvPromQuery Background (queryText region it zones) time_Now.
Proof. reflexivity. Qed.

(** The loop stops at the first type without a price: the types before it
    and that one are queried, no later one. *)
Lemma promLoop_stops (api : v1.API) region zones pre it post :
  (forall it', In it' pre -> exists v, promAnswer api region zones it' = Return v) ->
  (forall v, promAnswer api region zones it <> Return v) ->
  forall acc,
    promLoop api region zones (pre ++ it :: post) acc
    = (map (queryEvent region zones) (pre ++ [it]),
       match promAnswer api region zones it with
       | ReturnErr err => ReturnErr err
       | _ => Panic
       end).
Proof.
  intros Hpre Hbad. induction pre as [|it0 pre IH]; intros acc.
  - cbn [app]. rewrite promLoop_cons.
    destruct (promAnswer api region zones it) as [v|err|] eqn:E.
    + exfalso. exact (Hbad v eq_refl).
    + reflexivity.
    + reflexivity.
  - cbn [app]. rewrite promLoop_cons.
    destruct (Hpre it0 (or_introl eq_refl)) as [v ->].
    unfold tell. cbn [bind].
    rewrite IH by (intros it' Hin; apply Hpre; right; exact Hin).
    reflexivity.
Qed.

(** The queries of the metrics attempt are those of a prefix of the types. *)
Lemma getSpotPriceAvgsFromPrometheus_queries e region zones its :
  exists n,
    n <= length its
    /\ trace (getSpotPriceAvgsFromPrometheus e region zones its)
       = map (queryEvent region zones) (take n its).
Proof.
  unfold getSpotPriceAvgsFromPrometheus. destruct (prometheus e) as [api|].
  - destruct (promLoop_trace api region zones its ∅) as (n & Hn & Ht & _). eauto.
  - exists 0. split; [lia|]. destruct its; reflexivity.
Qed.

(** With a backend, the metrics attempt starts with the query for the first
    type. *)
Lemma getSpotPriceAvgsFromPrometheus_first e api region zones it rest :
  prometheus e = Some api ->
  exists t,
    trace (getSpotPriceAvgsFromPrometheus e region zones (it :: rest))
    = queryEvent region zones it :: t.
Proof.
  intros Ep. unfold getSpotPriceAvgsFromPrometheus. rewrite Ep, promLoop_cons.
  match goal with
  | |- context [bind ?m ?k] => destruct (trace_bind_prefix m k) as [t Ht]
  end.
  rewrite Ht. exists t. reflexivity.
Qed.

(** The calls of the pricing part with a backend: the queries of the attempt,
    then the request for the history when the attempt failed. *)
Lemma resolveSpotPrices_trace_prom e api region zones its :
  prometheus e = Some api ->
  exists th,
    trace (resolveSpotPrices e region zones its)
    = trace (getSpotPriceAvgsFromPrometheus e region zones its) ++ th
    /\ (th = []
        \/ th = [EvDescribeSpotPriceHistory region (spotHistoryInput its)]).
Proof.
  intros Ep.
  destruct (outcome (getSpotPriceAvgsFromPrometheus e region zones its))
    as [m|err|] eqn:Eg.
  - rewrite (resolveSpotPrices_parsed _ _ _ _ m) by (rewrite ?Ep; eauto).
    exists []. cbn [trace fst]. rewrite app_nil_r. auto.
  - rewrite (resolveSpotPrices_fallback _ _ _ _ _ Eg).
    eexists. cbn [trace fst]. split; [reflexivity|]. right; reflexivity.
  - unfold resolveSpotPrices, tryPrometheus. rewrite Ep.
    destruct (getSpotPriceAvgsFromPrometheus e region zones its) as [t o].
    cbn in Eg. subst o. cbn. exists []. rewrite app_nil_r. auto.
Qed.

(** Every metrics query of the pricing part is the query for one of the
    types, over the zones it was given. *)
Lemma resolveSpotPrices_queries e region zones its ctx query ts :
  In (EvPromQuery ctx query ts) (trace (resolveSpotPrices e region zones its)) ->
  exists it, In it its /\ query = queryText region it zones.
Proof.
  intros Hin.
  assert (In (EvPromQuery ctx query ts)
            (trace (getSpotPriceAvgsFromPrometheus e region zones its))) as Hq.
  { destruct (prometheus e) as [api|] eqn:Ep.
    - destruct (resolveSpotPrices_trace_prom e api region zones its Ep)
        as (th & Ht & Hth).
      rewrite Ht in Hin. apply in_app_iff in Hin as [Hin|Hin]; [exact Hin|].
      destruct Hth as [->| ->]; [destruct Hin|].
      destruct Hin as [Hin|[]]. discriminate Hin.
    - rewrite resolveSpotPrices_nil, getCurrentSpotPrices_trace in Hin
        by exact Ep.
      destruct Hin as [Hin|[]]. discriminate Hin. }
  destruct (getSpotPriceAvgsFromPrometheus_queries e region zones its)
    as (n & _ & Ht).
  rewrite Ht in Hq. apply in_map_iff in Hq as (it & Heq & Hit).
  exists it. split; [eapply in_take; exact Hit|].
  rewrite queryEvent_text in Heq. injection Heq as _ Hq _. symmetry; exact Hq.
Qed.

Lemma resolveZones_no_pricing e region zones :
  Forall (fun ev => isPricingEvent ev = false)
    (trace (resolveZones e region zones)).
Proof.
  destruct zones; [rewrite resolveZones_nil; repeat constructor|].
  cbn. constructor.
Qed.

(** Every metrics query of a lookup is the query for the type of one of the
    catalog's machines, over the resolved zones. *)
Lemma findVmsWithCpuUnits_queries e region zones cpuUnits vms zs ctx query ts :
  outcome (catalogLoop e region cpuUnits []) = Return vms ->
  outcome (resolveZones e region zones) = Return zs ->
  In (EvPromQuery ctx query ts)
     (trace (findVmsWithCpuUnits e region zones cpuUnits)) ->
  exists vm, In vm vms /\ query = queryText region (Type_ vm) zs.
Proof.
  intros Hc Hz Hin.
  rewrite (findVmsWithCpuUnits_phases _ _ _ _ _ _ Hc Hz) in Hin.
  cbn [trace fst] in Hin.
  apply in_app_iff in Hin as [Hin|Hin].
  - pose proof (catalogLoop_no_pricing e region cpuUnits []) as Hnp.
    rewrite List.Forall_forall in Hnp. specialize (Hnp _ Hin). discriminate Hnp.
  - apply in_app_iff in Hin as [Hin|Hin].
    + pose proof (resolveZones_no_pricing e region zones) as Hnp.
      rewrite List.Forall_forall in Hnp. specialize (Hnp _ Hin).
      discriminate Hnp.
    + rewrite priceVms_trace in Hin.
      destruct (resolveSpotPrices_queries _ _ _ _ _ _ _ Hin) as (it & Hit & ->).
      apply in_map_iff in Hit as (vm & <- & Hvm). eauto.
Qed.

(** With a backend and a machine to price, the query for the type of the
    first machine is made, over the resolved zones. *)
Lemma findVmsWithCpuUnits_first_query e api region zones cpuUnits vm rest zs :
  prometheus e = Some api ->
  outcome (catalogLoop e region cpuUnits []) = Return (vm :: rest) ->
  outcome (resolveZones e region zones) = Return zs ->
  In (queryEvent region zs (Type_ vm))
     (trace (findVmsWithCpuUnits e region zones cpuUnits)).
Proof.
  intros Ep Hc Hz.
  rewrite (findVmsWithCpuUnits_phases _ _ _ _ _ _ Hc Hz). cbn [trace fst].
  rewrite priceVms_trace.
  destruct (resolveSpotPrices_trace_prom e api region zs
              (map Type_ (vm :: rest)) Ep) as (th & -> & _).
  cbn [map].
  destruct (getSpotPriceAvgsFromPrometheus_first e api region zs (Type_ vm)
              (map Type_ rest) Ep) as [t ->].
  rewrite !in_app_iff. right; right; left. left; reflexivity.
Qed.

(** Over a history with one record per type and zone at most, the count of
    the samples tells whether every zone has a record. *)
Lemma unique_price_lookup zones history vmType :
  Forall (fun priceEntry =>
            exists s spotPrice,
              ec2.SpotPrice_ priceEntry = Some s
              /\ ParseFloat s 32 = Ok spotPrice)
    history ->
  List.NoDup (map recordKey history) ->
  match samples zones history vmType with
  | [] => None
  | prices =>
    if (length prices =? length zones)%nat
    then Some (zoneAvg zones prices) else None
  end
  = if everyZoneHasSample history vmType zones
    then Some (zoneAvg zones (samples zones history vmType)) else None.
Proof.
  intros Hp Hnd.
  pose proof (samples_length_unique zones history vmType Hp Hnd) as Hlen.
  pose proof (filter_length_all (hasSample history vmType) zones) as Hall.
  unfold everyZoneHasSample.
  destruct zones as [|zone zones']; [rewrite samples_no_zones; reflexivity|].
  set (zs := zone :: zones') in *.
  change (match zs with
          | [] => false
          | _ :: _ => forallb (hasSample history vmType) zs
          end) with (forallb (hasSample history vmType) zs).
  assert (zs <> []) as Hne by discriminate.
  clearbody zs.
  destruct (forallb (hasSample history vmType) zs) eqn:Ef.
  - assert (length (samples zs history vmType) = length zs) as Hl.
    { rewrite Hlen. apply Hall. apply List.forallb_forall. exact Ef. }
    destruct (samples zs history vmType) as [|p prices].
    + destruct zs; [contradiction|discriminate Hl].
    + apply Nat.eqb_eq in Hl. rewrite Hl. reflexivity.
  - assert (length (samples zs history vmType) <> length zs) as Hl.
    { intros Hl. rewrite Hlen in Hl.
      pose proof (proj2 (List.forallb_forall _ _) (proj1 Hall Hl)) as Ht.
      congruence. }
    apply Nat.eqb_neq in Hl.
    destruct (samples zs history vmType) as [|p prices]; [reflexivity|].
    rewrite Hl. reflexivity.
Qed.

(** The direct path over a history without failure and with one record per
    type and zone at most: a type has a price exactly when every requested
    zone has a record of it. *)
Lemma getCurrentSpotPrices_unique e region zones its history :
  ec2.DescribeSpotPriceHistory (session e) region (spotHistoryInput its)
  = Ok history ->
  firstFailure zones history = None ->
  List.NoDup (map recordKey history) ->
  exists m,
    outcome (getCurrentSpotPrices e region zones its) = Return m
    /\ forall vmType,
         m !! vmType
         = if everyZoneHasSample history vmType zones
           then Some (zoneAvg zones (samples zones history vmType)) else None.
Proof.
  intros Hh Hf Hnd.
  pose proof (getCurrentSpotPrices_Ok e region zones its history Hh) as Ho.
  rewrite Hf in Ho.
  pose proof (historyLoop_firstFailure zones history ∅) as Hl.
  rewrite Hf in Hl. destruct Hl as (sp & Hl & _). rewrite Hl in Ho.
  exists (avgLoop zones sp). split; [exact Ho|].
  destruct (getCurrentSpotPrices_Return _ _ _ _ _ Ho) as (history' & Hh' & _ & Hm).
  rewrite Hh in Hh'. injection Hh' as <-.
  intros vmType. rewrite Hm.
  apply unique_price_lookup; [apply (firstFailure_None_parsed _ _ Hf)|exact Hnd].
Qed.

Lemma setAvgPrice_initial avgSpotPrices vm :
  AvgPrice vm = 99%float ->
  setAvgPrice avgSpotPrices vm
  = withAvgPrice vm (default 99%float (avgSpotPrices !! Type_ vm)).
Proof.
  intros Hp. unfold setAvgPrice, withAvgPrice.
  destruct (avgSpotPrices !! Type_ vm); cbn; [reflexivity|].
  destruct vm; cbn in *; subst; reflexivity.
Qed.

(** The machines of the catalog loop carry the initial spot price. *)
Lemma catalogLoop_initial e region cpuUnits vms :
  outcome (catalogLoop e region cpuUnits []) = Return vms ->
  Forall (fun vm => AvgPrice vm = 99%float) vms.
Proof.
  intros Hc. destruct (catalogLoop_Return _ _ _ _ _ Hc) as (added & -> & _).
  cbn [app]. apply List.Forall_forall. intros vm Hin.
  apply in_map_iff in Hin as (a & <- & _). reflexivity.
Qed.

(** Without a backend, or after a failed attempt, the averages are those of
    the direct path. *)
Lemma resolveSpotPrices_direct e region zones its :
  (prometheus e = None
   \/ exists err,
        outcome (getSpotPriceAvgsFromPrometheus e region zones its)
        = ReturnErr err) ->
  outcome (resolveSpotPrices e region zones its)
  = outcome (getCurrentSpotPrices e region zones its).
Proof.
  intros [Hn|[err Herr]].
  - rewrite resolveSpotPrices_nil by exact Hn. reflexivity.
  - rewrite (resolveSpotPrices_fallback _ _ _ _ _ Herr). reflexivity.
Qed.

(** The machines priced by the direct path, over a history without failure
    and with one record per type and zone at most. *)
Lemma findVmsWithCpuUnits_direct_unique e region zones cpuUnits vms zs history :
  outcome (catalogLoop e region cpuUnits []) = Return vms ->
  outcome (resolveZones e region zones) = Return zs ->
  (prometheus e = None
   \/ exists err,
        outcome (getSpotPriceAvgsFromPrometheus e region zs (map Type_ vms))
        = ReturnErr err) ->
  ec2.DescribeSpotPriceHistory (session e) region
    (spotHistoryInput (map Type_ vms)) = Ok history ->
  firstFailure zs history = None ->
  List.NoDup (map recordKey history) ->
  outcome (findVmsWithCpuUnits e region zones cpuUnits)
  = Return
      (map (fun vm =>
              withAvgPrice vm
                (if everyZoneHasSample history (Type_ vm) zs
                 then zoneAvg zs (samples zs history (Type_ vm))
                 else 99%float))
         vms).
Proof.
  intros Hc Hz Hprom Hh Hf Hnd.
  rewrite (findVmsWithCpuUnits_phases _ _ _ _ _ _ Hc Hz). cbn [outcome snd].
  destruct (getCurrentSpotPrices_unique e region zs _ history Hh Hf Hnd)
    as (m & Hm & Hl).
  unfold priceVms.
  rewrite (outcome_bind_Return _ _ m)
    by (rewrite (resolveSpotPrices_direct _ _ _ _ Hprom); exact Hm).
  cbn [outcome ret snd]. f_equal. apply List.map_ext_in. intros vm Hin.
  pose proof (catalogLoop_initial _ _ _ _ Hc) as Hinit.
  rewrite List.Forall_forall in Hinit.
  rewrite (setAvgPrice_initial _ _ (Hinit _ Hin)), Hl.
  destruct (everyZoneHasSample history (Type_ vm) zs); reflexivity.
Qed.

(** When the direct path is taken and the request for the history fails, the
    lookup fails with that error. *)
Lemma findVmsWithCpuUnits_direct_Err e region zones cpuUnits vms zs err :
  outcome (catalogLoop e region cpuUnits []) = Return vms ->
  outcome (resolveZones e region zones) = Return zs ->
  (prometheus e = None
   \/ exists err',
        outcome (getSpotPriceAvgsFromPrometheus e region zs (map Type_ vms))
        = ReturnErr err') ->
  ec2.DescribeSpotPriceHistory (session e) region
    (spotHistoryInput (map Type_ vms)) = Err err ->
  outcome (findVmsWithCpuUnits e region zones cpuUnits) = ReturnErr err.
Proof.
  intros Hc Hz Hprom Herr.
  rewrite (findVmsWithCpuUnits_phases _ _ _ _ _ _ Hc Hz). cbn [outcome snd].
  unfold priceVms. rewrite (bind_ReturnErr _ _ err); [reflexivity|].
  rewrite (resolveSpotPrices_direct _ _ _ _ Hprom).
  apply getCurrentSpotPrices_api_Err. exact Herr.
Qed.

(** No nil pointer among the zones: the discovery does not panic. *)
Lemma availableNames_no_nil azs :
  Forall zoneNoNil azs -> availableNames azs <> None.
Proof.
  induction 1 as [|az rest [Hs Hn] _ IH]; cbn [availableNames]; [discriminate|].
  destruct (ec2.State az) as [state|]; [|contradiction].
  destruct (availableNames rest) as [names|]; [|contradiction].
  destruct (String.eqb state "available"); [|discriminate].
  destruct (ec2.ZoneName az); [discriminate|contradiction].
Qed.

(** No nil pointer among the records: the loop over the history does not
    panic. *)
Lemma firstFailure_no_nil zones history :
  Forall recordNoNil history -> firstFailure zones history <> Some NilPointer.
Proof.
  induction 1 as [|priceEntry rest (Haz & Hit & Hs) _ IH]; cbn [firstFailure];
    [discriminate|].
  destruct (ec2.SpotPrice_ priceEntry) as [s|]; [|contradiction].
  destruct (ParseFloat s 32); [|discriminate].
  unfold entryNil. destruct zones as [|value zones']; [exact IH|].
  destruct (ec2.AvailabilityZone_ priceEntry); [|contradiction].
  destruct (ec2.InstanceType priceEntry); [|contradiction].
  rewrite andb_false_r. exact IH.
Qed.

End LookupLemmas.

(** ** Fallback from the metrics backend *)

(** C1.  When the metrics backend is unreachable, returns no data or returns
    an empty series for any one of the requested instance types (and the
    metrics attempt does not crash on an answer that is not a vector), what
    it gave for the other types is discarded.  [findVmsWithCpuUnits] returns
    what it returns with no metrics backend at all; the averages are those of
    the direct path; after the queries made, at least one, the last call is
    one request for the spot price history whose [InstanceTypes] are the
    types of all the machines; when that request fails the lookup fails with
    its error; and when it answers a history with one record per type and
    zone at most, every machine is priced from the history alone: the mean
    over the zones when every zone has a record of its type, 99 otherwise. *)
Theorem prometheus_failure_discards_all `{GoRuntime}
    (e : Ec2VmRegistry) (api : v1.API) (region : string)
    (zones : list string) (cpuUnits : list float)
    (vms : list VirtualMachine) (zs : list string) (it : string) :
  prometheus e = Some api ->
  outcome (catalogLoop e region cpuUnits []) = Return vms ->
  outcome (resolveZones e region zones) = Return zs ->
  In it (map Type_ vms) ->
  promUnusable api region zs it ->
  outcome (getSpotPriceAvgsFromPrometheus e region zs (map Type_ vms)) <> Panic ->
  let r := findVmsWithCpuUnits e region zones cpuUnits in
  let input :=
    {| ec2.StartTime := Some time_Now;
       ec2.EndTime := None;
       ec2.ProductDescriptions := ["Linux/UNIX"];
       ec2.InstanceTypes := map Type_ vms |} in
  outcome r
  = outcome (findVmsWithCpuUnits (withoutPrometheus e) region zones cpuUnits)
  /\ outcome (resolveSpotPrices e region zs (map Type_ vms))
     = outcome (getCurrentSpotPrices e region zs (map Type_ vms))
  /\ (exists n,
        1 <= n <= length vms
        /\ trace r
           = trace (catalogLoop e region cpuUnits [])
             ++ trace (resolveZones e region zones)
             ++ map (fun it' =>
                       EvPromQuery Background (queryText region it' zs) time_Now)
                  (take n (map Type_ vms))
             ++ [EvDescribeSpotPriceHistory region input])
  /\ (forall err,
        ec2.DescribeSpotPriceHistory (session e) region input = Err err ->
        outcome r = ReturnErr err)
  /\ (forall history,
        ec2.DescribeSpotPriceHistory (session e) region input = Ok history ->
        firstFailure zs history = None ->
        List.NoDup (map recordKey history) ->
        outcome r
        = Return
            (map (fun vm =>
                    withAvgPrice vm
                      (if everyZoneHasSample history (Type_ vm) zs
                       then PrimFloat.div
                              (sumPrice (samples zs history (Type_ vm)))
                              (float64_of_len (length zs))
                       else 99%float))
               vms)).
Proof.
  intros Ep Hc Hz Hin Hbad Hnp r input. subst r input.
  assert (exists err,
    outcome (getSpotPriceAvgsFromPrometheus e region zs (map Type_ vms))
    = ReturnErr err) as [err Herr].
  { destruct (outcome (getSpotPriceAvgsFromPrometheus e region zs (map Type_ vms)))
      as [m|err|] eqn:E; [|eauto|contradiction].
    exfalso. unfold getSpotPriceAvgsFromPrometheus in E. rewrite Ep in E.
    destruct (promLoop_Return_lookup _ _ _ _ _ _ E) as [Hall _].
    destruct (Hall it Hin) as (v & Hv & _).
    exact (promUnusable_no_price _ _ _ _ Hbad v Hv). }
  pose proof (resolveSpotPrices_fallback _ _ _ _ _ Herr) as Hres.
  assert (outcome (resolveSpotPrices e region zs (map Type_ vms))
          = outcome (getCurrentSpotPrices e region zs (map Type_ vms))) as Hout
    by (rewrite Hres; reflexivity).
  assert (prometheus e = None
          \/ exists err',
               outcome (getSpotPriceAvgsFromPrometheus e region zs (map Type_ vms))
               = ReturnErr err') as Hprom by (right; eauto).
  split; [|split; [exact Hout|split; [|split]]].
  - rewrite (findVmsWithCpuUnits_phases e region zones cpuUnits vms zs Hc Hz).
    rewrite (findVmsWithCpuUnits_phases (withoutPrometheus e) region zones
               cpuUnits vms zs)
      by (rewrite ?catalogLoop_withoutPrometheus, ?resolveZones_withoutPrometheus;
          assumption).
    cbn [outcome snd]. unfold priceVms. apply outcome_bind_congr.
    rewrite Hout, resolveSpotPrices_nil by reflexivity. reflexivity.
  - destruct (getSpotPriceAvgsFromPrometheus_queries e region zs (map Type_ vms))
      as (n & Hn & Ht).
    exists n. split.
    + rewrite length_map in Hn. split; [|exact Hn].
      destruct n as [|n]; [|lia]. exfalso.
      destruct (map Type_ vms) as [|it0 rest]; [destruct Hin|].
      destruct (getSpotPriceAvgsFromPrometheus_first e api region zs it0 rest Ep)
        as [t Ht'].
      rewrite Ht' in Ht. discriminate Ht.
    + rewrite (findVmsWithCpuUnits_phases e region zones cpuUnits vms zs Hc Hz).
      cbn [trace fst]. rewrite priceVms_trace, Hres. cbn [trace fst].
      rewrite Ht. reflexivity.
  - intros err0 Herr0.
    exact (findVmsWithCpuUnits_direct_Err e region zones cpuUnits vms zs err0
             Hc Hz Hprom Herr0).
  - intros history Hh Hf Hnd.
    exact (findVmsWithCpuUnits_direct_unique e region zones cpuUnits vms zs
             history Hc Hz Hprom Hh Hf Hnd).
Qed.

(** C1 at work: the backend knows [m5.large], at 0.75, and has an empty
    series for [c5.xlarge].  Both types are queried, then the history is
    asked for both, and both prices are those of the history: 0.5 for
    [m5.large], none for [c5.xlarge]. *)
Lemma prometheus_failure_discards_all_witness :
  let e := Fixture.registry
             (Fixture.ec2With (Ok Fixture.azs) (Ok Fixture.history))
             (Some Fixture.promPartial) in
  let r := findVmsWithCpuUnits e "eu-west-1" [] [2%float; 4%float] in
  trace r
  = [ EvGetVmsWithCpu "eu-west-1" "vcpu" 2%float;
      EvGetVmsWithCpu "eu-west-1" "vcpu" 4%float;
      EvDescribeAvailabilityZones "eu-west-1";
      EvPromQuery Background
        (queryText "eu-west-1" "m5.large" Fixture.twoZones) time_Now;
      EvPromQuery Background
        (queryText "eu-west-1" "c5.xlarge" Fixture.twoZones) time_Now;
      EvDescribeSpotPriceHistory "eu-west-1"
        {| ec2.StartTime := Some time_Now;
           ec2.EndTime := None;
           ec2.ProductDescriptions := ["Linux/UNIX"];
           ec2.InstanceTypes := ["m5.large"; "c5.xlarge"] |} ]
  /\ outcome r
     = Return [ withAvgPrice (newVm Fixture.m5_large) 0.5%float;
                withAvgPrice (newVm Fixture.c5_xlarge) 99%float ].
Proof.
  intros e r.
  destruct (prometheus_failure_discards_all e Fixture.promPartial "eu-west-1" []
              [2%float; 4%float]
              (map newVm [Fixture.m5_large; Fixture.c5_xlarge])
              Fixture.twoZones "c5.xlarge")
    as (_ & _ & _ & _ & Hprice).
  - reflexivity.
  - vm_compute; reflexivity.
  - vm_compute; reflexivity.
  - right; left; reflexivity.
  - right; vm_compute; reflexivity.
  - vm_compute; discriminate.
  - split; [vm_compute; reflexivity|].
    subst r. rewrite (Hprice Fixture.history eq_refl eq_refl).
    + vm_compute; reflexivity.
    + repeat constructor; cbn; intuition discriminate.
Defined.

(** ** How the metrics backend is queried, query by query *)

(** C10, as the code has it.  [getSpotPriceAvgsFromPrometheus] queries the
    backend for the requested instance types one after the other, in the order
    of the list.  When every type has a price, one query per type is made and
    averages are returned.  Otherwise the queries made are those of the types
    before the first one without a price and of that type, each after the one
    before it gave a price; no later type is queried, and the call ends as
    the answer for that type tells.  Every query carries the background
    context, which has no deadline. *)
Theorem prometheus_queries_one_by_one `{GoRuntime}
    (e : Ec2VmRegistry) (api : v1.API) (region : string)
    (zones instanceTypes : list string) :
  prometheus e = Some api ->
  let r := getSpotPriceAvgsFromPrometheus e region zones instanceTypes in
  let query := fun it =>
    EvPromQuery Background
      ("avg(avg_over_time(aws_spot_current_price{region=" +:+ dq +:+ region +:+ dq
       +:+ ", instance_type=" +:+ dq +:+ it +:+ dq
       +:+ ", availability_zone=~" +:+ dq +:+ String.concat "|" zones +:+ dq
       +:+ ", product_description=" +:+ dq +:+ "Linux/UNIX" +:+ dq
       +:+ "}[24h]))")
      time_Now in
  ((forall it, In it instanceTypes ->
      exists v, promAnswer api region zones it = Return v) ->
   trace r = map query instanceTypes /\ exists m, outcome r = Return m)
  /\ (forall pre it post,
        instanceTypes = pre ++ it :: post ->
        (forall it', In it' pre ->
           exists v, promAnswer api region zones it' = Return v) ->
        (forall v, promAnswer api region zones it <> Return v) ->
        trace r = map query (pre ++ [it])
        /\ outcome r = match promAnswer api region zones it with
                       | ReturnErr err => ReturnErr err
                       | _ => Panic
                       end)
  /\ Forall (fun ev => exists q ts, ev = EvPromQuery Background q ts) (trace r).
Proof.
  intros Ep r query. subst r query.
  unfold getSpotPriceAvgsFromPrometheus. rewrite Ep.
  split; [|split].
  - intros Hall.
    destruct (promLoop_all_priced api region zones instanceTypes Hall ∅)
      as [m ->].
    cbn [trace outcome fst snd]. split; [reflexivity|eauto].
  - intros pre it post -> Hpre Hbad.
    rewrite (promLoop_stops api region zones pre it post Hpre Hbad ∅).
    split; reflexivity.
  - destruct (promLoop_trace api region zones instanceTypes ∅)
      as (n & _ & -> & _).
    apply List.Forall_forall. intros ev Hev.
    apply in_map_iff in Hev as (it & <- & _). unfold queryEvent; eauto.
Qed.

(** C10 at work.  A backend that has a price for [m5.large] and an empty
    series for [c5.xlarge]: of three types, the first two are queried, in
    order, and the third is not.  A backend that has a price for every type:
    both types are queried, in order. *)
Lemma prometheus_queries_one_by_one_witness :
  let partial := Fixture.registry (Fixture.ec2With (Ok Fixture.azs) (Ok []))
                   (Some Fixture.promPartial) in
  let up := Fixture.registry (Fixture.ec2With (Ok Fixture.azs) (Ok []))
              (Some Fixture.promUp) in
  getSpotPriceAvgsFromPrometheus partial "eu-west-1" Fixture.twoZones
    ["m5.large"; "c5.xlarge"; "m5.large"]
  = ([ EvPromQuery Background
         (queryText "eu-west-1" "m5.large" Fixture.twoZones) time_Now;
       EvPromQuery Background
         (queryText "eu-west-1" "c5.xlarge" Fixture.twoZones) time_Now ],
     ReturnErr "'aws_spot_current_price' metric is empty")
  /\ trace (getSpotPriceAvgsFromPrometheus up "eu-west-1" Fixture.twoZones
              ["m5.large"; "c5.xlarge"])
     = [ EvPromQuery Background
           (queryText "eu-west-1" "m5.large" Fixture.twoZones) time_Now;
         EvPromQuery Background
           (queryText "eu-west-1" "c5.xlarge" Fixture.twoZones) time_Now ].
Proof.
  intros partial up. split.
  - destruct (proj1 (proj2 (prometheus_queries_one_by_one partial
                              Fixture.promPartial "eu-west-1" Fixture.twoZones
                              ["m5.large"; "c5.xlarge"; "m5.large"] eq_refl))
                ["m5.large"] "c5.xlarge" ["m5.large"] eq_refl) as [Ht Ho].
    + intros it' [<-|[]]. exists 0.75%float. vm_compute; reflexivity.
    + intros v Hv. vm_compute in Hv. discriminate Hv.
    + rewrite (run_eta (getSpotPriceAvgsFromPrometheus _ _ _ _)), Ht, Ho.
      vm_compute; reflexivity.
  - destruct (proj1 (prometheus_queries_one_by_one up Fixture.promUp
                       "eu-west-1" Fixture.twoZones ["m5.large"; "c5.xlarge"]
                       eq_refl)) as [Ht _].
    + intros it Hit. exists 0.5%float.
      destruct Hit as [<-|[<-|[]]]; vm_compute; reflexivity.
    + rewrite Ht. reflexivity.
Defined.

(** ** What a resolved spot price is, on both paths *)

(** C4, as the code has it.  When the spot prices are resolved, either the
    metrics backend gave them: then one query per requested type was made,
    the query that averages over the zones the averages over 24 hours, and
    the price of every requested type is the value of the first sample of
    its answer; or the direct path gave them: then the history was asked
    from the current instant on, with no end (the current prices, not a
    window of 24 hours), and, the history holding one record per type and
    zone at most, a type has a price exactly when every requested zone has a
    record of it, the price being the sum of these prices divided by the
    number of zones. *)
Theorem resolved_spot_prices `{GoRuntime}
    (e : Ec2VmRegistry) (region : string) (zones instanceTypes : list string)
    (m : gmap string float) :
  outcome (resolveSpotPrices e region zones instanceTypes) = Return m ->
  let r := resolveSpotPrices e region zones instanceTypes in
  let query := fun it =>
    "avg(avg_over_time(aws_spot_current_price{region=" +:+ dq +:+ region +:+ dq
    +:+ ", instance_type=" +:+ dq +:+ it +:+ dq
    +:+ ", availability_zone=~" +:+ dq +:+ String.concat "|" zones +:+ dq
    +:+ ", product_description=" +:+ dq +:+ "Linux/UNIX" +:+ dq
    +:+ "}[24h]))" in
  let input :=
    {| ec2.StartTime := Some time_Now;
       ec2.EndTime := None;
       ec2.ProductDescriptions := ["Linux/UNIX"];
       ec2.InstanceTypes := instanceTypes |} in
  (exists api,
     prometheus e = Some api
     /\ trace r
        = map (fun it => EvPromQuery Background (query it) time_Now) instanceTypes
     /\ (forall it, In it instanceTypes ->
           exists s rest v,
             api Background (query it) time_Now = Ok (model.Vector (s :: rest))
             /\ ParseFloat (SampleValue_String (model.Value s)) 64 = Ok v
             /\ m !! it = Some v)
     /\ (forall it, ~ In it instanceTypes -> m !! it = None))
  \/ (exists history,
        (prometheus e = None
         \/ exists err,
              outcome (getSpotPriceAvgsFromPrometheus e region zones instanceTypes)
              = ReturnErr err)
        /\ (exists queries,
              trace r = queries ++ [EvDescribeSpotPriceHistory region input])
        /\ ec2.DescribeSpotPriceHistory (session e) region input = Ok history
        /\ (List.NoDup (map recordKey history) ->
            forall vmType,
              m !! vmType
              = if everyZoneHasSample history vmType zones
                then Some (PrimFloat.div
                             (sumPrice (samples zones history vmType))
                             (float64_of_len (length zones)))
                else None)).
Proof.
  intros Hm r query input. subst r query input.
  destruct (prometheus e) as [api|] eqn:Ep.
  - destruct (outcome (getSpotPriceAvgsFromPrometheus e region zones instanceTypes))
      as [m'|err|] eqn:Eg.
    + left. exists api. split; [reflexivity|].
      assert (resolveSpotPrices e region zones instanceTypes
              = (trace (getSpotPriceAvgsFromPrometheus e region zones instanceTypes),
                 Return m')) as Hres
        by (apply resolveSpotPrices_parsed; [rewrite Ep; eauto|exact Eg]).
      rewrite Hres in Hm. injection Hm as <-. rewrite Hres. cbn [trace fst].
      unfold getSpotPriceAvgsFromPrometheus in Eg |- *. rewrite Ep in Eg |- *.
      destruct (promLoop_Return_lookup _ _ _ _ _ _ Eg) as [Hall Hout].
      destruct (promLoop_trace api region zones instanceTypes ∅)
        as (n & _ & Ht & Hn & _).
      rewrite Ht, (Hn _ Eg), firstn_all.
      split; [reflexivity|]. split.
      * intros it Hit. destruct (Hall it Hit) as (v & Hv & Hl).
        destruct (promAnswer_Return _ _ _ _ _ Hv) as (s & rest & Ha & Hp).
        exists s, rest, v. auto.
      * intros it Hit. rewrite (Hout it Hit). apply lookup_empty.
    + right.
      pose proof (resolveSpotPrices_fallback _ _ _ _ _ Eg) as Hres.
      rewrite Hres in Hm. cbn [outcome snd] in Hm.
      destruct (getCurrentSpotPrices_Return _ _ _ _ _ Hm)
        as (history & Hh & Hf & Hl).
      exists history. split; [right; eauto|].
      split; [rewrite Hres; cbn [trace fst]; eexists; reflexivity|].
      split; [exact Hh|].
      intros Hnd vmType. rewrite Hl.
      exact (unique_price_lookup zones history vmType
               (firstFailure_None_parsed _ _ Hf) Hnd).
    + exfalso. unfold resolveSpotPrices, tryPrometheus in Hm. rewrite Ep in Hm.
      destruct (getSpotPriceAvgsFromPrometheus e region zones instanceTypes)
        as [t o]. cbn in Eg. subst o. discriminate Hm.
  - right.
    pose proof (resolveSpotPrices_nil e region zones instanceTypes Ep) as Hres.
    rewrite Hres in Hm.
    destruct (getCurrentSpotPrices_Return _ _ _ _ _ Hm)
      as (history & Hh & Hf & Hl).
    exists history. split; [left; reflexivity|].
    split; [rewrite Hres, getCurrentSpotPrices_trace; exists []; reflexivity|].
    split; [exact Hh|].
    intros Hnd vmType. rewrite Hl.
    exact (unique_price_lookup zones history vmType
             (firstFailure_None_parsed _ _ Hf) Hnd).
Qed.

(** C4 at work, on both paths.  A backend that answers every query with a
    sample of 0.5 prices both types at 0.5.  Without a backend, the history
    prices [m5.large], which has a record in both zones, at
    (0.25 + 0.75) / 2, and gives [c5.xlarge], which has a record in one zone,
    no price. *)
Lemma resolved_spot_prices_witness :
  let metrics := Fixture.registry
                   (Fixture.ec2With (Ok Fixture.azs) (Ok Fixture.history))
                   (Some Fixture.promUp) in
  let direct := Fixture.registry
                  (Fixture.ec2With (Ok Fixture.azs) (Ok Fixture.history)) None in
  let its := ["m5.large"; "c5.xlarge"] in
  (exists m : gmap string float,
     outcome (resolveSpotPrices metrics "eu-west-1" Fixture.twoZones its)
     = Return m
     /\ m !! "m5.large" = Some 0.5%float
     /\ m !! "c5.xlarge" = Some 0.5%float)
  /\ (exists m : gmap string float,
        outcome (resolveSpotPrices direct "eu-west-1" Fixture.twoZones its)
        = Return m
        /\ m !! "m5.large" = Some 0.5%float
        /\ m !! "c5.xlarge" = None).
Proof.
  intros metrics direct its. split.
  - destruct (outcome (resolveSpotPrices metrics "eu-west-1" Fixture.twoZones its))
      as [m|err|] eqn:E; try (vm_compute in E; discriminate E).
    exists m. split; [reflexivity|].
    destruct (resolved_spot_prices metrics "eu-west-1" Fixture.twoZones its m E)
      as [(api & Ep & _ & Hall & _)|(history & [Hn|[err Herr]] & _)].
    + cbn in Ep. injection Ep as <-. split.
      * destruct (Hall "m5.large" (or_introl eq_refl))
          as (s & rest & v & Ha & Hp & ->).
        unfold Fixture.promUp in Ha. injection Ha as <- <-.
        vm_compute in Hp. injection Hp as <-. reflexivity.
      * destruct (Hall "c5.xlarge" (or_intror (or_introl eq_refl)))
          as (s & rest & v & Ha & Hp & ->).
        unfold Fixture.promUp in Ha. injection Ha as <- <-.
        vm_compute in Hp. injection Hp as <-. reflexivity.
    + discriminate Hn.
    + vm_compute in Herr. discriminate Herr.
  - destruct (outcome (resolveSpotPrices direct "eu-west-1" Fixture.twoZones its))
      as [m|err|] eqn:E; try (vm_compute in E; discriminate E).
    exists m. split; [reflexivity|].
    destruct (resolved_spot_prices direct "eu-west-1" Fixture.twoZones its m E)
      as [(api & Ep & _)|(history & _ & _ & Hh & Hl)].
    + discriminate Ep.
    + cbn in Hh. injection Hh as <-.
      assert (List.NoDup (map recordKey Fixture.history)) as Hnd
        by (repeat constructor; cbn; intuition discriminate).
      rewrite !(Hl Hnd). split; reflexivity.
Defined.

(** ** Zones that are discovered, zones that are given *)

(** C5.  When no zones are given ([nil] and the empty slice are the same
    list), (1) every pricing call of [findVmsWithCpuUnits] comes after the
    discovery of the zones of the region; (2) when the discovery fails, the
    call returns no machines and makes no pricing call; (3) when it succeeds,
    the pricing runs over exactly the names of the zones whose state is
    [available]: every metrics query of the call carries these names, joined
    by a bar, as its zones; with a metrics backend and a machine to price the
    first such query is made; when every type has a price at the backend,
    the queries over these zones are the only pricing calls; and on the
    direct path, the history holding one record per type and zone at most, a
    machine is priced with the mean over these zones when each of them has a
    record of its type, and keeps 99 otherwise. *)
Theorem zones_discovered_before_pricing `{GoRuntime}
    (e : Ec2VmRegistry) (region : string) (cpuUnits : list float) :
  let r := findVmsWithCpuUnits e region [] cpuUnits in
  (forall pre ev post,
     trace r = pre ++ ev :: post -> isPricingEvent ev = true ->
     In (EvDescribeAvailabilityZones region) pre)
  /\ (forall err,
        ec2.DescribeAvailabilityZones (session e) region = Err err ->
        (forall vms, outcome r <> Return vms)
        /\ Forall (fun ev => isPricingEvent ev = false) (trace r))
  /\ (forall azs zones vms,
        ec2.DescribeAvailabilityZones (session e) region = Ok azs ->
        availableNames azs = Some zones ->
        outcome (catalogLoop e region cpuUnits []) = Return vms ->
        (forall ctx query ts,
           In (EvPromQuery ctx query ts) (trace r) ->
           exists vm, In vm vms /\ query = queryText region (Type_ vm) zones)
        /\ (forall api vm rest,
              prometheus e = Some api -> vms = vm :: rest ->
              In (EvPromQuery Background (queryText region (Type_ vm) zones)
                    time_Now)
                 (trace r))
        /\ (forall api,
              prometheus e = Some api ->
              (forall vm, In vm vms ->
                 exists v, promAnswer api region zones (Type_ vm) = Return v) ->
              trace r
              = trace (catalogLoop e region cpuUnits [])
                ++ [EvDescribeAvailabilityZones region]
                ++ map (fun vm =>
                          EvPromQuery Background
                            (queryText region (Type_ vm) zones) time_Now)
                     vms)
        /\ (forall history,
              (prometheus e = None
               \/ exists err,
                    outcome (getSpotPriceAvgsFromPrometheus e region zones
                               (map Type_ vms))
                    = ReturnErr err) ->
              ec2.DescribeSpotPriceHistory (session e) region
                {| ec2.StartTime := Some time_Now;
                   ec2.EndTime := None;
                   ec2.ProductDescriptions := ["Linux/UNIX"];
                   ec2.InstanceTypes := map Type_ vms |}
              = Ok history ->
              firstFailure zones history = None ->
              List.NoDup (map recordKey history) ->
              outcome r
              = Return
                  (map (fun vm =>
                          withAvgPrice vm
                            (if everyZoneHasSample history (Type_ vm) zones
                             then PrimFloat.div
                                    (sumPrice (samples zones history (Type_ vm)))
                                    (float64_of_len (length zones))
                             else 99%float))
                     vms))).
Proof.
  intros r. subst r.
  pose proof (catalogLoop_no_pricing e region cpuUnits []) as Hnp.
  split; [|split].
  - unfold findVmsWithCpuUnits. intros pre ev post Ht Hev.
    destruct (outcome (catalogLoop e region cpuUnits [])) as [vms|err|] eqn:Ec.
    + rewrite (trace_bind_Return _ _ _ Ec) in Ht.
      destruct (trace_bind_prefix (resolveZones e region [])
                  (fun zones => priceVms e region zones vms)) as [t' Ht'].
      rewrite Ht', resolveZones_nil in Ht. cbn [trace fst app] in Ht.
      eapply pricing_after_discovery; eauto.
    + rewrite (bind_ReturnErr _ _ _ Ec) in Ht. cbn [trace fst] in Ht.
      exfalso. rewrite List.Forall_forall in Hnp.
      rewrite (Hnp ev) in Hev; [discriminate|].
      rewrite Ht. apply in_elt.
    + rewrite (bind_Panic _ _ Ec) in Ht. cbn [trace fst] in Ht.
      exfalso. rewrite List.Forall_forall in Hnp.
      rewrite (Hnp ev) in Hev; [discriminate|].
      rewrite Ht. apply in_elt.
  - unfold findVmsWithCpuUnits. intros err Haz.
    destruct (outcome (catalogLoop e region cpuUnits [])) as [vms|err'|] eqn:Ec.
    + rewrite (bind_Return _ _ _ Ec).
      rewrite (bind_ReturnErr _ _ err)
        by (rewrite resolveZones_nil, Haz; reflexivity).
      rewrite resolveZones_nil. cbn [trace outcome fst snd].
      split; [discriminate|].
      apply Forall_app. split; [exact Hnp|]. repeat constructor.
    + rewrite (bind_ReturnErr _ _ _ Ec). cbn [trace outcome fst snd].
      split; [discriminate|exact Hnp].
    + rewrite (bind_Panic _ _ Ec). cbn [trace outcome fst snd].
      split; [discriminate|exact Hnp].
  - intros azs zones vms Haz Hn Hc.
    pose proof (resolveZones_discovered e region azs zones Haz Hn) as Hrz.
    assert (outcome (resolveZones e region []) = Return zones) as Hz
      by (rewrite Hrz; reflexivity).
    split; [|split; [|split]].
    + intros ctx query ts Hin.
      exact (findVmsWithCpuUnits_queries e region [] cpuUnits vms zones
               ctx query ts Hc Hz Hin).
    + intros api vm rest Ep ->.
      exact (findVmsWithCpuUnits_first_query e api region [] cpuUnits vm rest
               zones Ep Hc Hz).
    + intros api Ep Hall.
      assert (forall it, In it (map Type_ vms) ->
                exists v, promAnswer api region zones it = Return v) as Hall'.
      { intros it Hit. apply in_map_iff in Hit as (vm & <- & Hvm). auto. }
      destruct (promLoop_all_priced api region zones (map Type_ vms) Hall' ∅)
        as [m Hm].
      assert (getSpotPriceAvgsFromPrometheus e region zones (map Type_ vms)
              = (map (queryEvent region zones) (map Type_ vms), Return m)) as Hg
        by (unfold getSpotPriceAvgsFromPrometheus; rewrite Ep; exact Hm).
      rewrite (findVmsWithCpuUnits_phases _ _ _ _ _ _ Hc Hz).
      cbn [trace fst]. rewrite Hrz, priceVms_trace.
      rewrite (resolveSpotPrices_parsed _ _ _ _ m)
        by (rewrite ?Ep, ?Hg; eauto).
      rewrite Hg. cbn [trace fst]. rewrite map_map. reflexivity.
    + intros history Hprom Hh Hf Hnd.
      exact (findVmsWithCpuUnits_direct_unique e region [] cpuUnits vms zones
               history Hc Hz Hprom Hh Hf Hnd).
Qed.

(** C5 at work: a region whose discovery fails; a region with two available
    zones out of three, priced from the history over these two; and the same
    region priced by a metrics backend, whose queries name these two. *)
Lemma zones_discovered_before_pricing_witness :
  let down := Fixture.registry
                (Fixture.ec2With (Err "RequestExpired") (Ok Fixture.history))
                (Some Fixture.promUp) in
  let up := Fixture.registry
              (Fixture.ec2With (Ok Fixture.azs) (Ok Fixture.history)) None in
  let metrics := Fixture.registry
                   (Fixture.ec2With (Ok Fixture.azs) (Ok Fixture.history))
                   (Some Fixture.promUp) in
  let cpuUnits := [2%float; 4%float] in
  ((forall vms,
      outcome (findVmsWithCpuUnits down "eu-west-1" [] cpuUnits) <> Return vms)
   /\ Forall (fun ev => isPricingEvent ev = false)
        (trace (findVmsWithCpuUnits down "eu-west-1" [] cpuUnits)))
  /\ outcome (findVmsWithCpuUnits up "eu-west-1" [] cpuUnits)
     = Return [ withAvgPrice (newVm Fixture.m5_large) 0.5%float;
                withAvgPrice (newVm Fixture.c5_xlarge) 99%float ]
  /\ trace (findVmsWithCpuUnits metrics "eu-west-1" [] cpuUnits)
     = [ EvGetVmsWithCpu "eu-west-1" "vcpu" 2%float;
         EvGetVmsWithCpu "eu-west-1" "vcpu" 4%float;
         EvDescribeAvailabilityZones "eu-west-1";
         EvPromQuery Background
           (queryText "eu-west-1" "m5.large" ["eu-west-1a"; "eu-west-1c"])
           time_Now;
         EvPromQuery Background
           (queryText "eu-west-1" "c5.xlarge" ["eu-west-1a"; "eu-west-1c"])
           time_Now ].
Proof.
  intros down up metrics cpuUnits. split; [|split].
  - exact (proj1 (proj2 (zones_discovered_before_pricing down "eu-west-1" cpuUnits))
             "RequestExpired" eq_refl).
  - destruct (proj2 (proj2 (zones_discovered_before_pricing up "eu-west-1" cpuUnits))
                Fixture.azs ["eu-west-1a"; "eu-west-1c"]
                (map newVm [Fixture.m5_large; Fixture.c5_xlarge])
                eq_refl eq_refl eq_refl) as (_ & _ & _ & Hprice).
    rewrite (Hprice Fixture.history (or_introl eq_refl) eq_refl eq_refl).
    + vm_compute; reflexivity.
    + repeat constructor; cbn; intuition discriminate.
  - destruct (proj2 (proj2 (zones_discovered_before_pricing metrics "eu-west-1"
                              cpuUnits))
                Fixture.azs ["eu-west-1a"; "eu-west-1c"]
                (map newVm [Fixture.m5_large; Fixture.c5_xlarge])
                eq_refl eq_refl eq_refl) as (_ & _ & Hq & _).
    rewrite (Hq Fixture.promUp eq_refl).
    + vm_compute; reflexivity.
    + intros vm Hvm. exists 0.5%float.
      destruct Hvm as [<-|[<-|[]]]; vm_compute; reflexivity.
Defined.

(** X5.  Zones that are given are used as they are.  With a non-empty zone
    list no zone discovery is made; every metrics query of the call carries
    the given zones; and on the direct path, the history holding one record
    per type and zone at most, a machine is priced with the mean over the
    given zones when each of them has a record of its type, and keeps 99
    otherwise. *)
Theorem given_zones_are_used `{GoRuntime}
    (e : Ec2VmRegistry) (region : string) (zones : list string)
    (cpuUnits : list float) (vms : list VirtualMachine) :
  zones <> [] ->
  outcome (catalogLoop e region cpuUnits []) = Return vms ->
  let r := findVmsWithCpuUnits e region zones cpuUnits in
  Forall (fun ev => isDiscoveryEvent ev = false) (trace r)
  /\ (forall ctx query ts,
        In (EvPromQuery ctx query ts) (trace r) ->
        exists vm, In vm vms /\ query = queryText region (Type_ vm) zones)
  /\ (forall history,
        (prometheus e = None
         \/ exists err,
              outcome (getSpotPriceAvgsFromPrometheus e region zones
                         (map Type_ vms))
              = ReturnErr err) ->
        ec2.DescribeSpotPriceHistory (session e) region
          {| ec2.StartTime := Some time_Now;
             ec2.EndTime := None;
             ec2.ProductDescriptions := ["Linux/UNIX"];
             ec2.InstanceTypes := map Type_ vms |}
        = Ok history ->
        firstFailure zones history = None ->
        List.NoDup (map recordKey history) ->
        outcome r
        = Return
            (map (fun vm =>
                    withAvgPrice vm
                      (if everyZoneHasSample history (Type_ vm) zones
                       then PrimFloat.div
                              (sumPrice (samples zones history (Type_ vm)))
                              (float64_of_len (length zones))
                       else 99%float))
               vms)).
Proof.
  intros Hne Hc r. subst r.
  pose proof (resolveZones_given e region zones Hne) as Hrz.
  assert (outcome (resolveZones e region zones) = Return zones) as Hz
    by (rewrite Hrz; reflexivity).
  split; [|split].
  - rewrite (findVmsWithCpuUnits_phases _ _ _ _ _ _ Hc Hz). cbn [trace fst].
    rewrite Hrz, priceVms_trace. cbn [trace fst app].
    apply Forall_app. split.
    + eapply List.Forall_impl; [|apply catalogLoop_only_catalog].
      intros ev [cpu ->]. reflexivity.
    + destruct (resolveSpotPrices_trace_shape e region zones (map Type_ vms))
        as (tq & th & -> & Hq & _ & Hh).
      apply Forall_app. split.
      * eapply List.Forall_impl; [|exact Hq].
        intros [] Hev; try discriminate Hev; reflexivity.
      * destruct Hh as [->| ->]; repeat constructor.
  - intros ctx query ts Hin.
    exact (findVmsWithCpuUnits_queries e region zones cpuUnits vms zones
             ctx query ts Hc Hz Hin).
  - intros history Hprom Hh Hf Hnd.
    exact (findVmsWithCpuUnits_direct_unique e region zones cpuUnits vms zones
             history Hc Hz Hprom Hh Hf Hnd).
Qed.

(** X5 at work: one zone is given, although the region has two available.
    Both types have a record of that zone and are priced with it. *)
Lemma given_zones_are_used_witness :
  let e := Fixture.registry
             (Fixture.ec2With (Ok Fixture.azs) (Ok Fixture.history)) None in
  let r := findVmsWithCpuUnits e "eu-west-1" ["eu-west-1a"] [2%float; 4%float] in
  Forall (fun ev => isDiscoveryEvent ev = false) (trace r)
  /\ outcome r
     = Return [ withAvgPrice (newVm Fixture.m5_large) 0.25%float;
                withAvgPrice (newVm Fixture.c5_xlarge) 0.5%float ].
Proof.
  intros e r.
  destruct (given_zones_are_used e "eu-west-1" ["eu-west-1a"] [2%float; 4%float]
              (map newVm [Fixture.m5_large; Fixture.c5_xlarge]))
    as (Hd & _ & Hprice).
  - discriminate.
  - vm_compute; reflexivity.
  - split; [exact Hd|].
    subst r. rewrite (Hprice Fixture.history (or_introl eq_refl) eq_refl eq_refl).
    + vm_compute; reflexivity.
    + repeat constructor; cbn; intuition discriminate.
Defined.

(** ** Panics and failures *)

(** X7.  [findVmsWithCpuUnits] does not panic when every answer of the
    metrics backend that is not an error is a vector (or the registry has no
    backend) and the answers of EC2 hold no nil pointer: neither in the state
    and the name of a zone, nor in the zone, the type and the price of a
    record of the history. *)
Theorem lookup_does_not_panic `{GoRuntime}
    (e : Ec2VmRegistry) (region : string) (zones : list string)
    (cpuUnits : list float) :
  (forall api, prometheus e = Some api ->
     forall q v, api Background q time_Now = Ok v -> exists r, v = model.Vector r) ->
  (forall azs,
     ec2.DescribeAvailabilityZones (session e) region = Ok azs ->
     Forall zoneNoNil azs) ->
  (forall input history,
     ec2.DescribeSpotPriceHistory (session e) region input = Ok history ->
     Forall recordNoNil history) ->
  outcome (findVmsWithCpuUnits e region zones cpuUnits) <> Panic.
Proof.
  intros Hvec Hazs Hhist. unfold findVmsWithCpuUnits.
  pose proof (catalogLoop_no_Panic e region cpuUnits []) as Hc.
  destruct (outcome (catalogLoop e region cpuUnits [])) as [vms|err|] eqn:Ec;
    [|rewrite (bind_ReturnErr _ _ _ Ec); discriminate|contradiction].
  rewrite (outcome_bind_Return _ _ _ Ec).
  assert (outcome (resolveZones e region zones) <> Panic) as Hz.
  { destruct zones; [|discriminate]. rewrite resolveZones_nil. cbn [outcome snd].
    destruct (ec2.DescribeAvailabilityZones _ _) as [azs|err] eqn:Ea;
      [|discriminate].
    rewrite availableZones_names.
    pose proof (availableNames_no_nil azs (Hazs azs eq_refl)) as Hn.
    destruct (availableNames azs); [discriminate|contradiction]. }
  destruct (outcome (resolveZones e region zones)) as [zs|err|] eqn:Ez;
    [|rewrite (bind_ReturnErr _ _ _ Ez); discriminate|contradiction].
  rewrite (outcome_bind_Return _ _ _ Ez). unfold priceVms.
  assert (outcome (getCurrentSpotPrices e region zs (map Type_ vms)) <> Panic)
    as Hd.
  { rewrite getCurrentSpotPrices_outcome.
    destruct (ec2.DescribeSpotPriceHistory _ _ _) as [history|err] eqn:Eh;
      [|discriminate].
    pose proof (historyLoop_firstFailure zs history ∅) as Hl.
    pose proof (firstFailure_no_nil zs history (Hhist _ _ Eh)) as Hnn.
    destruct (firstFailure zs history) as [[err|]|].
    - rewrite Hl. discriminate.
    - contradiction.
    - destruct Hl as (sp & -> & _). discriminate. }
  assert (outcome (resolveSpotPrices e region zs (map Type_ vms)) <> Panic) as Hp.
  { destruct (prometheus e) as [api|] eqn:Ep.
    - assert (outcome (getSpotPriceAvgsFromPrometheus e region zs (map Type_ vms))
              <> Panic) as Hg.
      { unfold getSpotPriceAvgsFromPrometheus. rewrite Ep.
        apply promLoop_no_Panic. exact (Hvec api eq_refl). }
      destruct (outcome (getSpotPriceAvgsFromPrometheus e region zs (map Type_ vms)))
        as [m|err|] eqn:Eg; [| |contradiction].
      + rewrite (resolveSpotPrices_parsed _ _ _ _ m) by (rewrite ?Ep; eauto).
        discriminate.
      + rewrite (resolveSpotPrices_fallback _ _ _ _ _ Eg). exact Hd.
    - rewrite resolveSpotPrices_nil by exact Ep. exact Hd. }
  destruct (outcome (resolveSpotPrices e region zs (map Type_ vms)))
    as [m|err|] eqn:Er; [| |contradiction].
  - rewrite (outcome_bind_Return _ _ _ Er). discriminate.
  - rewrite (bind_ReturnErr _ _ _ Er). discriminate.
Qed.

(** X7 at work: a backend that answers with vectors, zones and records
    without nil pointers. *)
Lemma lookup_does_not_panic_witness :
  outcome (findVmsWithCpuUnits
             (Fixture.registry
                (Fixture.ec2With (Ok Fixture.azs) (Ok Fixture.history))
                (Some Fixture.promPartial))
             "eu-west-1" [] [2%float; 4%float]) <> Panic.
Proof.
  apply (lookup_does_not_panic
           (Fixture.registry
              (Fixture.ec2With (Ok Fixture.azs) (Ok Fixture.history))
              (Some Fixture.promPartial))
           "eu-west-1" [] [2%float; 4%float]).
  - intros api Hapi q v Hv. injection Hapi as <-.
    unfold Fixture.promPartial in Hv.
    destruct (String.eqb q _); injection Hv as <-; eauto.
  - intros azs Ha. injection Ha as <-.
    repeat constructor; discriminate.
  - intros input history Hh. injection Hh as <-.
    repeat constructor; discriminate.
Defined.

(** EC2 can make the lookup panic: an available zone without a name, a
    record of a requested zone without an instance type. *)
Lemma nil_zone_name_panics :
  outcome (findVmsWithCpuUnits
             (Fixture.registry
                (Fixture.ec2With
                   (Ok [{| ec2.State := Some "available"; ec2.ZoneName := None |}])
                   (Ok Fixture.history))
                None)
             "eu-west-1" [] [2%float]) = Panic.
Proof. vm_compute; reflexivity. Qed.

Lemma nil_instance_type_panics :
  outcome (getCurrentSpotPrices
             (Fixture.registry
                (Fixture.ec2With (Ok Fixture.azs)
                   (Ok [{| ec2.AvailabilityZone_ := Some "eu-west-1a";
                           ec2.InstanceType := None;
                           ec2.SpotPrice_ := Some "0.25" |}]))
                None)
             "eu-west-1" Fixture.twoZones ["m5.large"]) = Panic.
Proof. vm_compute; reflexivity. Qed.

(** X10.  How [getCurrentSpotPrices] fails.  It returns an error in two
    cases only: the request to EC2 failed, with that error; or the loop over
    the history stopped at a price that does not parse, with the error of
    that price.  It panics in one case only: the loop stopped at a nil
    pointer, which is a nil price, or, with zones requested, a nil zone, or
    a nil instance type in a record of a requested zone.  The price of every
    record is parsed, whatever its zone and its type. *)
Theorem direct_path_failures `{GoRuntime}
    (e : Ec2VmRegistry) (region : string) (zones instanceTypes : list string) :
  let r := getCurrentSpotPrices e region zones instanceTypes in
  let input :=
    {| ec2.StartTime := Some time_Now;
       ec2.EndTime := None;
       ec2.ProductDescriptions := ["Linux/UNIX"];
       ec2.InstanceTypes := instanceTypes |} in
  (forall err,
     outcome r = ReturnErr err
     <-> (ec2.DescribeSpotPriceHistory (session e) region input = Err err
          \/ exists history,
               ec2.DescribeSpotPriceHistory (session e) region input = Ok history
               /\ firstFailure zones history = Some (ParseError err)))
  /\ (outcome r = Panic
      <-> exists history,
            ec2.DescribeSpotPriceHistory (session e) region input = Ok history
            /\ firstFailure zones history = Some NilPointer).
Proof.
  intros r input. subst r input.
  rewrite getCurrentSpotPrices_outcome. unfold spotHistoryInput.
  destruct (ec2.DescribeSpotPriceHistory _ _ _) as [history|err0].
  - pose proof (historyLoop_firstFailure zones history ∅) as Hl.
    destruct (firstFailure zones history) as [[err1|]|] eqn:Ef.
    + rewrite Hl. split.
      * intros err. split.
        -- intros Hr. injection Hr as <-. right. exists history.
           split; [reflexivity|exact Ef].
        -- intros [Hr|(history' & Hh & Hf)]; [discriminate|].
           injection Hh as <-. rewrite Ef in Hf. injection Hf as <-. reflexivity.
      * split; [discriminate|].
        intros (history' & Hh & Hf). injection Hh as <-.
        rewrite Ef in Hf. discriminate.
    + rewrite Hl. split.
      * intros err. split; [discriminate|].
        intros [Hr|(history' & Hh & Hf)]; [discriminate|].
        injection Hh as <-. rewrite Ef in Hf. discriminate.
      * split; [|reflexivity].
        intros _. exists history. split; [reflexivity|exact Ef].
    + destruct Hl as (sp & -> & _). split.
      * intros err. split; [discriminate|].
        intros [Hr|(history' & Hh & Hf)]; [discriminate|].
        injection Hh as <-. rewrite Ef in Hf. discriminate.
      * split; [discriminate|].
        intros (history' & Hh & Hf). injection Hh as <-.
        rewrite Ef in Hf. discriminate.
  - split.
    + intros err. split.
      * intros Hr. injection Hr as <-. left; reflexivity.
      * intros [Hr|(history' & Hh & Hf)]; [|discriminate].
        injection Hr as <-. reflexivity.
    + split; [discriminate|].
      intros (history' & Hh & _). discriminate.
Qed.

(** ** The constructor of the registry *)

(** X12.  When the session is created and no address of a metrics backend is
    given, or the client for the address cannot be created, the constructor
    still returns a registry, one without metrics backend: its lookups never
    query a metrics backend, and their spot prices come from the request for
    the spot price history alone. *)
Theorem registry_without_metrics_backend `{GoRuntime}
    (l : Libraries) (pi : pi.ProductInfo) (prom : string) (s : ec2.Session) :
  NewSession l = Ok s ->
  (prom = EmptyString \/ exists err, NewClient l prom = Err err) ->
  exists e,
    outcome (NewEc2VmRegistry l pi prom) = Return e
    /\ session e = s /\ productInfo e = pi /\ prometheus e = None
    /\ forall region zones cpuUnits,
         Forall (fun ev => isPromQueryEvent ev = false)
           (trace (findVmsWithCpuUnits e region zones cpuUnits))
         /\ forall zs instanceTypes,
              resolveSpotPrices e region zs instanceTypes
              = getCurrentSpotPrices e region zs instanceTypes.
Proof.
  intros Hs Hprom.
  exists {| session := s; productInfo := pi; prometheus := None |}.
  split.
  - unfold NewEc2VmRegistry, newPromApi, call. rewrite Hs. cbn.
    destruct Hprom as [->|[err Herr]]; [reflexivity|].
    destruct (String.eqb prom EmptyString); [reflexivity|].
    rewrite Herr. reflexivity.
  - repeat split; try reflexivity.
    + apply no_backend_no_query. reflexivity.
    + intros zs its. apply resolveSpotPrices_nil. reflexivity.
Qed.

(** X12 at work: the client for the address cannot be created. *)
Lemma registry_without_metrics_backend_witness :
  exists e,
    outcome (NewEc2VmRegistry
               (Demo.libraries (Ok Demo.okSession) (Err "parse: missing scheme"))
               Fixture.catalogInfo "prometheus:9090") = Return e
    /\ session e = Demo.okSession /\ productInfo e = Fixture.catalogInfo
    /\ prometheus e = None
    /\ forall region zones cpuUnits,
         Forall (fun ev => isPromQueryEvent ev = false)
           (trace (findVmsWithCpuUnits e region zones cpuUnits))
         /\ forall zs instanceTypes,
              resolveSpotPrices e region zs instanceTypes
              = getCurrentSpotPrices e region zs instanceTypes.
Proof.
  apply (registry_without_metrics_backend
           (Demo.libraries (Ok Demo.okSession) (Err "parse: missing scheme"))
           Fixture.catalogInfo "prometheus:9090" Demo.okSession).
  - reflexivity.
  - right. exists "parse: missing scheme". reflexivity.
Defined.

(** X13.  The constructor never panics and fails in one case only: the AWS
    session cannot be created.  It then returns the error of the session
    without trying to create the client of the metrics backend. *)
Theorem constructor_fails_with_session_only
    (l : Libraries) (pi : pi.ProductInfo) (prom : string) :
  let r := NewEc2VmRegistry l pi prom in
  outcome r <> Panic
  /\ (forall err, outcome r = ReturnErr err <-> NewSession l = Err err)
  /\ (forall err, NewSession l = Err err -> trace r = [EvNewSession]).
Proof.
  intros r. subst r. unfold NewEc2VmRegistry, newPromApi, call.
  destruct (NewSession l) as [s|err0]; cbn.
  - destruct (String.eqb prom EmptyString); cbn.
    + repeat split; try discriminate.
    + destruct (NewClient l prom); cbn; repeat split; discriminate.
  - split; [discriminate|]. split.
    + intros err. split; intros Hr; injection Hr as <-; reflexivity.
    + reflexivity.
Qed.

(** * Further properties of the handler and of the routes *)

(** The run of the handler, by the outcome of the binding and of the engine. *)
Lemma recommendClusterSetup_run {ClusterRecommendationResp : Type}
    (r : api.RouteHandler ClusterRecommendationResp) (c : api.Context_) :
  let provider := api.Param c "provider" in
  let region := api.Param c "region" in
  api.recommendClusterSetup r c
  = match api.BindJSON r (api.Body c)
            {| api.Req := api.zeroReq; api.P := provider; api.R := region |} with
    | Err err =>
      ([api.EvJSON 400
          (api.H (<["code" := api.JString "bad_params"]>
                   (<["message" :=
                        api.JString "invalid zone(s) or network performance"]>
                     (<["cause" := api.JString err]> ∅))))],
       Return tt)
    | Ok reqWr =>
      match api.RecommendCluster r provider region (api.Req reqWr) with
      | Err err =>
        ([api.EvRecommendCluster provider region (api.Req reqWr);
          api.EvJSON 500
            (api.H (<["status" := api.JNumber 500]>
                     (<["message" := api.JString err]> ∅)))],
         Return tt)
      | Ok response =>
        ([api.EvRecommendCluster provider region (api.Req reqWr);
          api.EvJSON 200 (api.Resp response)],
         Return tt)
      end
    end.
Proof.
  intros provider region. subst provider region.
  unfold api.recommendClusterSetup.
  change api.providerParam with "provider".
  change api.regionParam with "region".
  destruct (api.BindJSON r _ _) as [reqWr|err]; [|reflexivity].
  destruct (api.RecommendCluster r _ _ _) as [response|err]; reflexivity.
Qed.

(** X14.  The handler answers every request exactly once and returns: the
    status is 200, 400 or 500, and it is 200 exactly when the body was bound
    and the engine returned a response, which is then the body of the answer,
    unchanged. *)
Theorem handler_answers_once {ClusterRecommendationResp : Type}
    (r : api.RouteHandler ClusterRecommendationResp) (c : api.Context_) :
  let run := api.recommendClusterSetup r c in
  outcome run = Return tt
  /\ exists status body,
       List.filter (fun ev => negb (api.isEngineCall ev)) (trace run)
       = [api.EvJSON status body]
       /\ In status [200%Z; 400%Z; 500%Z]
       /\ (status = 200%Z
           <-> exists reqWr response,
                 api.BindJSON r (api.Body c)
                   {| api.Req := api.zeroReq; api.P := api.Param c "provider";
                      api.R := api.Param c "region" |} = Ok reqWr
                 /\ api.RecommendCluster r (api.Param c "provider")
                      (api.Param c "region") (api.Req reqWr) = Ok response
                 /\ body = api.Resp response).
Proof.
  intros run. subst run. rewrite recommendClusterSetup_run. cbv zeta.
  destruct (api.BindJSON r _ _) as [reqWr|err] eqn:Eb.
  - destruct (api.RecommendCluster r _ _ _) as [response|err] eqn:Ee.
    + split; [reflexivity|]. eexists _, _. split; [reflexivity|].
      split; [left; reflexivity|]. split; [|reflexivity].
      intros _. exists reqWr, response. auto.
    + split; [reflexivity|]. eexists _, _. split; [reflexivity|].
      split; [right; right; left; reflexivity|]. split; [discriminate|].
      intros (reqWr' & response & Hb & He & _).
      injection Hb as <-. rewrite Ee in He. discriminate.
  - split; [reflexivity|]. eexists _, _. split; [reflexivity|].
    split; [right; left; reflexivity|]. split; [discriminate|].
    intros (reqWr' & response & Hb & _). discriminate.
Qed.

(** X15.  The engine is called at most once per request, and only with the
    provider and the region of the path (the empty string for a parameter
    that is missing) and with the request that was bound: what the binding
    left in the fields [P] and [R] of the wrapper is not read. *)
Theorem engine_called_with_path_parameters {ClusterRecommendationResp : Type}
    (r : api.RouteHandler ClusterRecommendationResp) (c : api.Context_) :
  let run := api.recommendClusterSetup r c in
  length (List.filter api.isEngineCall (trace run)) <= 1
  /\ forall provider region req,
       In (api.EvRecommendCluster provider region req) (trace run) ->
       provider = default EmptyString (api.Params c !! "provider")
       /\ region = default EmptyString (api.Params c !! "region")
       /\ exists reqWr,
            api.BindJSON r (api.Body c)
              {| api.Req := api.zeroReq; api.P := provider; api.R := region |}
            = Ok reqWr
            /\ req = api.Req reqWr.
Proof.
  intros run. subst run. rewrite recommendClusterSetup_run. cbv zeta.
  destruct (api.BindJSON r _ _) as [reqWr|err] eqn:Eb.
  - destruct (api.RecommendCluster r _ _ _) as [response|err].
    + split; [cbn; lia|].
      intros provider region req [Heq|[Heq|[]]]; [|discriminate Heq].
      injection Heq as <- <- <-.
      split; [reflexivity|]. split; [reflexivity|].
      exists reqWr. split; [exact Eb|reflexivity].
    + split; [cbn; lia|].
      intros provider region req [Heq|[Heq|[]]]; [|discriminate Heq].
      injection Heq as <- <- <-.
      split; [reflexivity|]. split; [reflexivity|].
      exists reqWr. split; [exact Eb|reflexivity].
  - split; [cbn; lia|].
    intros provider region req [Heq|[]]. discriminate Heq.
Qed.

(** ** The routes *)

Section RouteLemmas.
Variable joinPaths : string -> string -> string.
Variable DefaultConfig : routes.Config.

(** The base path of the routes, from the environment. *)
Lemma ConfigureRoutes_trees env router :
  let basePath :=
    match env !! "TELESCOPES_BASEPATH" with
    | Some p => if String.eqb p EmptyString then "/" else p
    | None => "/"
    end in
  let base := joinPaths (routes.basePath (routes.RouterGroup_ router)) basePath in
  routes.trees (routes.ConfigureRoutes joinPaths DefaultConfig env router)
  = routes.trees router
    ++ [ {| routes.Method := "GET";
            routes.Path := joinPaths base "/status";
            routes.Chain :=
              routes.Handlers (routes.RouterGroup_ router)
              ++ [routes.signalStatus] |};
         {| routes.Method := "POST";
            routes.Path :=
              joinPaths (joinPaths (joinPaths base "/api/v1") "/recommender")
                "/:provider/:region/cluster/";
            routes.Chain :=
              routes.Handlers (routes.RouterGroup_ router)
              ++ [routes.cors_New (routes.getCorsConfig DefaultConfig);
                  routes.recommendClusterSetup] |} ].
Proof.
  unfold routes.ConfigureRoutes, routes.handle, routes.Group, routes.Use,
    routes.Getenv.
  cbn. rewrite <- !app_assoc. cbn.
  destruct (env !! "TELESCOPES_BASEPATH") as [p|]; cbn; [|reflexivity].
  destruct (String.eqb p EmptyString); reflexivity.
Qed.

End RouteLemmas.

(** X16.  [ConfigureRoutes] keeps the routes the router has and its
    middleware, and adds two routes under the base path, which is [/] unless
    [TELESCOPES_BASEPATH] is set and not empty.  The status route runs the
    middleware of the router and then [signalStatus]: the CORS middleware,
    installed after the route was added, is not in its chain.  The
    recommender route runs the middleware of the router, then the CORS
    middleware, which allows every origin, then [recommendClusterSetup]. *)
Theorem configured_routes
    (joinPaths : string -> string -> string) (DefaultConfig : routes.Config)
    (env : gmap string string) (router : routes.Engine) :
  let configured := routes.ConfigureRoutes joinPaths DefaultConfig env router in
  let basePath :=
    match env !! "TELESCOPES_BASEPATH" with
    | Some p => if String.eqb p EmptyString then "/" else p
    | None => "/"
    end in
  let base := joinPaths (routes.basePath (routes.RouterGroup_ router)) basePath in
  routes.RouterGroup_ configured = routes.RouterGroup_ router
  /\ exists status recommender config,
       routes.trees configured = routes.trees router ++ [status; recommender]
       /\ routes.Method status = "GET"
       /\ routes.Path status = joinPaths base "/status"
       /\ routes.Chain status
          = routes.Handlers (routes.RouterGroup_ router) ++ [routes.signalStatus]
       /\ routes.Method recommender = "POST"
       /\ routes.Path recommender
          = joinPaths (joinPaths (joinPaths base "/api/v1") "/recommender")
              "/:provider/:region/cluster/"
       /\ routes.Chain recommender
          = routes.Handlers (routes.RouterGroup_ router)
            ++ [routes.cors_New config; routes.recommendClusterSetup]
       /\ routes.AllowAllOrigins config = true
       /\ routes.AllowOrigins config = routes.AllowOrigins DefaultConfig.
Proof.
  intros configured basePath base. split; [reflexivity|].
  subst configured. rewrite ConfigureRoutes_trees. cbv zeta.
  eexists _, _, _. split; [reflexivity|]. cbn.
  repeat split; reflexivity.
Qed.

(** X17.  Authentication covers the routes only when it is enabled before
    they are configured.  Enabled first, the authentication middleware is in
    the chain of both routes, before the CORS middleware and the handlers.
    Enabled after [ConfigureRoutes], it changes no route: the chains of the
    two routes are those of a router without authentication. *)
Theorem auth_must_be_enabled_first
    (joinPaths : string -> string -> string) (DefaultConfig : routes.Config)
    (env : gmap string string) (router : routes.Engine) (role sgnKey : string) :
  let configure := routes.ConfigureRoutes joinPaths DefaultConfig env in
  (exists status recommender,
     routes.trees (configure (routes.EnableAuth router role sgnKey))
     = routes.trees router ++ [status; recommender]
     /\ routes.Chain status
        = routes.Handlers (routes.RouterGroup_ router)
          ++ [routes.auth_JWTAuth role sgnKey; routes.signalStatus]
     /\ routes.Chain recommender
        = routes.Handlers (routes.RouterGroup_ router)
          ++ [routes.auth_JWTAuth role sgnKey;
              routes.cors_New (routes.getCorsConfig DefaultConfig);
              routes.recommendClusterSetup])
  /\ routes.trees (routes.EnableAuth (configure router) role sgnKey)
     = routes.trees (configure router)
  /\ (Forall (fun h => routes.isAuth h = false)
        (routes.Handlers (routes.RouterGroup_ router)) ->
      forall route,
        In route (routes.trees (routes.EnableAuth (configure router) role sgnKey)) ->
        ~ In route (routes.trees router) ->
        Forall (fun h => routes.isAuth h = false) (routes.Chain route)).
Proof.
  intros configure. subst configure. split; [|split].
  - rewrite ConfigureRoutes_trees. cbv zeta.
    eexists _, _. split; [reflexivity|]. cbn.
    rewrite <- !app_assoc. split; reflexivity.
  - reflexivity.
  - intros Hno route Hin Hnew.
    change (routes.trees (routes.EnableAuth
              (routes.ConfigureRoutes joinPaths DefaultConfig env router)
              role sgnKey))
      with (routes.trees (routes.ConfigureRoutes joinPaths DefaultConfig env router))
      in Hin.
    rewrite ConfigureRoutes_trees in Hin. cbv zeta in Hin.
    apply in_app_iff in Hin as [Hin|[<-|[<-|[]]]]; [contradiction| |]; cbn;
      apply Forall_app; split; try exact Hno; repeat constructor.
Qed.

(** The routes at work, on [gin.Default()] with no base path set: enabled
    after the routes, authentication is in no chain. *)
Lemma late_auth_protects_no_route :
  map (fun route => (routes.Path route, existsb routes.isAuth (routes.Chain route)))
    (routes.trees
       (routes.EnableAuth
          (routes.ConfigureRoutes Demo.joinPaths Demo.defaultConfig ∅
             Demo.ginDefault)
          "telescopes" "secret"))
  = [("/status", false);
     ("/api/v1/recommender/:provider/:region/cluster/", false)].
Proof. vm_compute; reflexivity. Qed.

Lemma early_auth_protects_every_route :
  map (fun route => (routes.Path route, existsb routes.isAuth (routes.Chain route)))
    (routes.trees
       (routes.ConfigureRoutes Demo.joinPaths Demo.defaultConfig
          (<["TELESCOPES_BASEPATH" := "/telescopes"]> ∅)
          (routes.EnableAuth Demo.ginDefault "telescopes" "secret")))
  = [("/telescopes/status", true);
     ("/telescopes/api/v1/recommender/:provider/:region/cluster/", true)].
Proof. vm_compute; reflexivity. Qed.
